(** * E-learn: the store and the handlers of [main.py]

    A shallow embedding of the SQLite-backed store ([DatabaseHandler]) and of
    the event handlers that read and write it ([LoginFrame.login],
    [RegisterFrame.register], [StudentDashboard.enroll_course],
    [AdminDashboard.delete_user], [AdminDashboard.promote_user],
    [CourseDetailsFrame.update_progress], [ProfileFrame.change_password]).

    - A table is the list of its rows in rowid order together with its
      [sqlite_sequence] counter (every table is AUTOINCREMENT).
    - The constraints are the ones [setup_database] declares: UNIQUE on
      [users.username] and [courses.title], CHECK on [users.role].  The
      FOREIGN KEY clauses are declared but never enforced: no connection of
      the program issues [PRAGMA foreign_keys = ON], and SQLite leaves them
      off by default.
    - Text is [string]: a sequence of the characters U+0000..U+00FF;
      [str.encode()] is UTF-8 on that range.
    - [bcrypt] is a library: its key derivation and what the installed
      release does with a password of more than 72 bytes are parameters (class
      [bcrypt.kdf]); [hashpw] and [checkpw] are defined over them the way the
      library composes them.  [bcrypt.gensalt()] is an input of every
      function that calls it.
    - Widgets are not modelled: a handler takes the text of its entries, the
      selected tree row and the answer to its confirmation dialog, and
      returns the message box it shows.  What [Treeview.item] does to the
      cells it reads back (text that [int()] accepts comes back as an int)
      is [ttk.convert_stringval]. *)

From Stdlib Require Import ZArith NArith QArith List String Ascii Bool Lia.
From Stdlib Require Import Strings.Byte DecimalString.
Import ListNotations.

#[local] Open Scope Z_scope.
#[local] Open Scope list_scope.

(* ================================================================== *)
(** ** Python text *)

Module Py.

(** [not s] for a str. *)
Definition is_empty (s : string) : bool :=
  match s with
  | EmptyString => true
  | String _ _ => false
  end.

(** [c.isspace()] on U+0000..U+00FF: TAB..CR, FS..US, SPACE, NEL, NBSP. *)
Definition isspace (c : ascii) : bool :=
  let n := N_of_ascii c in
  ((9 <=? n) && (n <=? 13) || (28 <=? n) && (n <=? 32)
   || (n =? 133) || (n =? 160))%N.

Fixpoint lstrip (s : string) : string :=
  match s with
  | EmptyString => EmptyString
  | String c s' => if isspace c then lstrip s' else s
  end.

(** [rstrip] keeps a character when it is not a space or when something
    that survives follows it. *)
Fixpoint rstrip (s : string) : string :=
  match s with
  | EmptyString => EmptyString
  | String c s' =>
      match rstrip s' with
      | EmptyString => if isspace c then EmptyString else String c EmptyString
      | r => String c r
      end
  end.

(** [s.strip()] *)
Definition strip (s : string) : string := rstrip (lstrip s).

(** [len(s)] *)
Definition len (s : string) : Z := Z.of_nat (String.length s).

(** UTF-8 of one character of U+0000..U+00FF. *)
Definition utf8 (c : ascii) : list byte :=
  let n := N_of_ascii c in
  if (n <? 128)%N then [byte_of_ascii c]
  else [byte_of_ascii (ascii_of_N (N.lor 192 (N.shiftr n 6)));
        byte_of_ascii (ascii_of_N (N.lor 128 (N.land n 63)))].

(** [s.encode()] *)
Fixpoint encode (s : string) : list byte :=
  match s with
  | EmptyString => []
  | String c s' => utf8 c ++ encode s'
  end.

(** The inverse of [encode], used to show that [encode] loses nothing. *)
Fixpoint decode (bs : list byte) : string :=
  match bs with
  | [] => EmptyString
  | b :: bs' =>
      let n := Byte.to_N b in
      if (n <? 128)%N then String (ascii_of_byte b) (decode bs')
      else match bs' with
           | [] => EmptyString
           | b2 :: bs'' =>
               String (ascii_of_N (N.lor (N.shiftl (N.land n 3) 6)
                                         (N.land (Byte.to_N b2) 63)))
                      (decode bs'')
           end
  end.

(** [c.isdigit()] on U+0000..U+00FF: the decimal digits and the
    superscripts U+00B2, U+00B3, U+00B9. *)
Definition isdigit_char (c : ascii) : bool :=
  let n := N_of_ascii c in
  ((48 <=? n) && (n <=? 57) || (n =? 178) || (n =? 179) || (n =? 185))%N.

Fixpoint all_chars (p : ascii -> bool) (s : string) : bool :=
  match s with
  | EmptyString => true
  | String c s' => p c && all_chars p s'
  end.

(** [s.isdigit()]: at least one character, all of them digits. *)
Definition isdigit (s : string) : bool :=
  negb (is_empty s) && all_chars isdigit_char s.

Definition decimal_value (c : ascii) : option Z :=
  let n := N_of_ascii c in
  if ((48 <=? n) && (n <=? 57))%N then Some (Z.of_N n - 48) else None.

Definition is_decimal (c : ascii) : bool :=
  match decimal_value c with
  | Some _ => true
  | None => false
  end.

(** The blanks [int()] skips around a numeral: TAB..CR, SPACE, NEL and
    NBSP (not FS..US, which are blanks to [strip]). *)
Definition int_blank (c : ascii) : bool :=
  let n := N_of_ascii c in
  ((9 <=? n) && (n <=? 13) || (n =? 32) || (n =? 133) || (n =? 160))%N.

Fixpoint skip_blanks (s : string) : string :=
  match s with
  | EmptyString => EmptyString
  | String c s' => if int_blank c then skip_blanks s' else s
  end.

Fixpoint count_decimals (s : string) : Z :=
  match s with
  | EmptyString => 0
  | String c s' => (if is_decimal c then 1 else 0) + count_decimals s'
  end.

(** The rest of a numeral after a digit: more digits, an underscore only
    between two digits, and blanks only after the last digit. *)
Fixpoint int_from (acc : Z) (s : string) : option Z :=
  match s with
  | EmptyString => Some acc
  | String c s' =>
      match decimal_value c with
      | Some d => int_from (10 * acc + d) s'
      | None =>
          if (c =? "_")%char
          then match s' with
               | EmptyString => None
               | String c' s'' =>
                   match decimal_value c' with
                   | Some d => int_from (10 * acc + d) s''
                   | None => None
                   end
               end
          else if all_chars int_blank s then Some acc else None
      end
  end.

(** [sys.get_int_max_str_digits()], as Python sets it. *)
Definition int_max_str_digits : Z := 4300.

(** [int(s)] for a str; [None]: ValueError.  Blanks around the numeral are
    skipped, a sign may precede it, it starts with a decimal digit (the
    superscripts that pass [isdigit] are none), and it has at most 4300
    digits. *)
Definition int (s : string) : option Z :=
  let t := skip_blanks s in
  let signed :=
    match t with
    | String c r =>
        if (c =? "+")%char then (false, r)
        else if (c =? "-")%char then (true, r)
        else (false, t)
    | EmptyString => (false, t)
    end in
  let negative := fst signed in
  let numeral := snd signed in
  match numeral with
  | EmptyString => None
  | String c _ =>
      if negb (is_decimal c) then None
      else if int_max_str_digits <? count_decimals numeral then None
      else match int_from 0 numeral with
           | Some n => Some (if negative then - n else n)
           | None => None
           end
  end.

(** [c.lower()] on U+0000..U+00FF: A..Z and the capitals U+00C0..U+00DE
    (the multiplication sign U+00D7 is not one) move up by 32. *)
Definition lower_char (c : ascii) : ascii :=
  let n := N_of_ascii c in
  if ((65 <=? n) && (n <=? 90)
      || (192 <=? n) && (n <=? 222) && negb (n =? 215))%N
  then ascii_of_N (n + 32)
  else c.

(** [s.lower()] *)
Fixpoint lower (s : string) : string :=
  match s with
  | EmptyString => EmptyString
  | String c s' => String (lower_char c) (lower s')
  end.

(** [s * n] *)
Fixpoint times (s : string) (n : nat) : string :=
  match n with
  | O => EmptyString
  | S n' => s ++ times s n'
  end.

(** [q in t] for two strs. *)
Fixpoint contains (q t : string) : bool :=
  String.prefix q t
  || match t with
     | EmptyString => false
     | String _ t' => contains q t'
     end.

End Py.

(** [str(n)] for an int. *)
Definition str (n : Z) : string := NilZero.string_of_int (Z.to_int n).

(* ================================================================== *)
(** ** bcrypt *)

Module bcrypt.

(** The library as it is installed (the repository pins no release).
    [digest]: the key derivation, from the salt (which carries the work
    factor) and the key bytes to the digest.  [raises_over_72]: what the
    release does with a password of more than 72 bytes; releases up to 4.x
    hash its first 72 bytes ([false]), 5.0.0 raises ValueError
    ([true]). *)
Class kdf := {
  digest : list byte -> list byte -> list byte;
  raises_over_72 : bool
}.

(** A hash as [hashpw] returns it: the salt it was made with, then the
    digest. *)
Record hash := { salt : list byte; checksum : list byte }.

Fixpoint bytes_eqb (a b : list byte) : bool :=
  match a, b with
  | [], [] => true
  | x :: a', y :: b' => Byte.eqb x y && bytes_eqb a' b'
  | _, _ => false
  end.

Definition hash_eqb (a b : hash) : bool :=
  bytes_eqb (salt a) (salt b) && bytes_eqb (checksum a) (checksum b).

(** The passwords on which [hashpw] and [checkpw] raise ValueError. *)
Definition refused `{kdf} (password : list byte) : bool :=
  (72 <? Z.of_nat (List.length password)) && raises_over_72.

(** [bcrypt.hashpw(password, salt)]; [None]: ValueError.  The key is the
    first 72 bytes of the password. *)
Definition hashpw `{kdf} (password salt : list byte) : option hash :=
  if refused password then None
  else Some {| salt := salt; checksum := digest salt (firstn 72 password) |}.

(** [bcrypt.checkpw(password, hashed)]: hash again under the salt read
    from [hashed], compare; [None]: ValueError. *)
Definition checkpw `{kdf} (password : list byte) (hashed : hash)
  : option bool :=
  match hashpw password (salt hashed) with
  | Some again => Some (hash_eqb again hashed)
  | None => None
  end.

(** Two libraries to compute with, one per behaviour: the digest is the
    salt followed by the reversed key. *)
Definition toy : kdf :=
  {| digest := fun s p => s ++ rev p; raises_over_72 := false |}.

Definition toy5 : kdf :=
  {| digest := fun s p => s ++ rev p; raises_over_72 := true |}.

End bcrypt.

(* ================================================================== *)
(** ** The store *)

(** Rows of table [users]. *)
Module Users.
Record row := {
  id : Z;
  username : string;
  password : bcrypt.hash;
  role : string
}.
End Users.

(** Rows of table [courses].  [price] is the number the REAL column
    holds; the NULL that SQLite stores for a NaN is not among the values,
    and nothing below says what a price cell holds after an INSERT. *)
Module Courses.
Record row := {
  id : Z;
  title : string;
  description : string;
  instructor_id : Z;
  price : Q
}.
End Courses.

(** Rows of table [enrollments]. *)
Module Enrollments.
Record row := {
  id : Z;
  student_id : Z;
  course_id : Z;
  progress : Z
}.
End Enrollments.

(** An AUTOINCREMENT table: its rows in rowid order and the largest rowid
    it ever gave out. *)
Record table (R : Type) := {
  rows : list R;
  sqlite_sequence : Z
}.
Arguments rows {R} t.
Arguments sqlite_sequence {R} t.

Record database := {
  users : table Users.row;
  courses : table Courses.row;
  enrollments : table Enrollments.row
}.

Definition empty_table {R : Type} : table R :=
  {| rows := []; sqlite_sequence := 0 |}.

(** The file before the first start. *)
Definition empty_database : database :=
  {| users := empty_table; courses := empty_table; enrollments := empty_table |}.

Module sqlite3.

(** The constraints an INSERT of the program can violate. *)
Inductive constraint :=
| CHECK_users_role
| UNIQUE_users_username
| UNIQUE_courses_title.

(** What executing an INSERT does: the statement is applied, or it is
    backed out and [sqlite3.IntegrityError] is raised. *)
Inductive executed :=
| Done (db : database)
| IntegrityError (violated : constraint).

Definition largest (ids : list Z) : Z := fold_right Z.max 0 ids.

(** The rowid an INSERT gets: one more than every rowid the table holds
    or ever held. *)
Definition next_rowid {R : Type} (id : R -> Z) (t : table R) : Z :=
  Z.max (largest (map id (rows t))) (sqlite_sequence t) + 1.

Definition append_row {R : Type} (id : R -> Z) (mk : Z -> R) (t : table R)
  : table R :=
  let n := next_rowid id t in
  {| rows := rows t ++ [mk n]; sqlite_sequence := n |}.

(** [role IN ('Student', 'Instructor', 'Admin')] *)
Definition role_check (role : string) : bool :=
  ((role =? "Student") || (role =? "Instructor") || (role =? "Admin"))%string.

(** [INSERT INTO users (username, password, role) VALUES (?, ?, ?)] *)
Definition insert_user (db : database) (username : string)
    (password : bcrypt.hash) (role : string) : executed :=
  if negb (role_check role)
  then IntegrityError CHECK_users_role
  else if existsb (fun u => (Users.username u =? username)%string)
                  (rows (users db))
  then IntegrityError UNIQUE_users_username
  else Done
    {| users := append_row Users.id
                  (fun n => {| Users.id := n; Users.username := username;
                               Users.password := password;
                               Users.role := role |})
                  (users db);
       courses := courses db;
       enrollments := enrollments db |}.

(** [INSERT INTO courses (title, description, instructor_id, price)
    VALUES (?, ?, ?, ?)] *)
Definition insert_course (db : database) (title description : string)
    (instructor_id : Z) (price : Q) : executed :=
  if existsb (fun c => (Courses.title c =? title)%string)
             (rows (courses db))
  then IntegrityError UNIQUE_courses_title
  else Done
    {| users := users db;
       courses := append_row Courses.id
                    (fun n => {| Courses.id := n; Courses.title := title;
                                 Courses.description := description;
                                 Courses.instructor_id := instructor_id;
                                 Courses.price := price |})
                    (courses db);
       enrollments := enrollments db |}.

(** [INSERT INTO enrollments (student_id, course_id) VALUES (?, ?)]:
    the table declares no constraint an insert can violate; [progress]
    takes its DEFAULT 0. *)
Definition insert_enrollment (db : database) (student_id course_id : Z)
  : executed :=
  Done
    {| users := users db;
       courses := courses db;
       enrollments := append_row Enrollments.id
                        (fun n => {| Enrollments.id := n;
                                     Enrollments.student_id := student_id;
                                     Enrollments.course_id := course_id;
                                     Enrollments.progress := 0 |})
                        (enrollments db) |}.

(** [DELETE FROM t WHERE <cond>] *)
Definition delete_where {R : Type} (cond : R -> bool) (t : table R)
  : table R :=
  {| rows := filter (fun r => negb (cond r)) (rows t);
     sqlite_sequence := sqlite_sequence t |}.

(** [UPDATE t SET ... WHERE <cond>] *)
Definition update_where {R : Type} (cond : R -> bool) (set : R -> R)
    (t : table R) : table R :=
  {| rows := map (fun r => if cond r then set r else r) (rows t);
     sqlite_sequence := sqlite_sequence t |}.

(** [cursor.fetchone()] *)
Definition fetchone {R : Type} (result : list R) : option R := hd_error result.

End sqlite3.

(* ================================================================== *)
(** ** Exceptions *)

Inductive exception :=
| ValueError
| TypeError
| IntegrityError (violated : sqlite3.constraint).

(** How a call ends: with its return value, or with an exception that
    nothing inside it catches. *)
Inductive ended (A : Type) :=
| Returned (value : A)
| Raised (e : exception).
Arguments Returned {A} value.
Arguments Raised {A} e.

(* ================================================================== *)
(** ** What a tree gives back *)

Module ttk.

(** A cell of [Treeview.item(item)["values"]]: [_convert_stringval] hands
    the text of the cell to [int()] and keeps the int when there is one. *)
Inductive value :=
| int_value (n : Z)
| str_value (s : string).

Definition convert_stringval (cell : string) : value :=
  match Py.int cell with
  | Some n => int_value n
  | None => str_value cell
  end.

(** [value == s] and [value != s] for a str [s]: an int equals no str. *)
Definition equals_str (v : value) (s : string) : bool :=
  match v with
  | int_value _ => false
  | str_value t => (t =? s)%string
  end.

(** [f"{value}"] *)
Definition format (v : value) : string :=
  match v with
  | int_value n => str n
  | str_value s => s
  end.

End ttk.

(* ================================================================== *)
(** ** [class DatabaseHandler]

    Every method opens a connection, runs its statements, commits and
    closes; a method that raises before its commit leaves the file as it
    was. *)

Module DatabaseHandler.

(** [setup_database]: the CREATE TABLE IF NOT EXISTS statements give the
    three tables of [database]; then the default admin is inserted when
    no row has role Admin.  The INSERT is not guarded: its
    IntegrityError leaves the method. *)
Definition setup_database `{bcrypt.kdf} (db : database) (gensalt : list byte)
  : ended database :=
  match sqlite3.fetchone
          (filter (fun u => (Users.role u =? "Admin")%string)
                  (rows (users db))) with
  | Some _ => Returned db
  | None =>
      match bcrypt.hashpw (Py.encode "admin123") gensalt with
      | None => Raised ValueError
      | Some default_admin_password =>
          match sqlite3.insert_user db "admin" default_admin_password
                                    "Admin" with
          | sqlite3.Done db' => Returned db'
          | sqlite3.IntegrityError violated =>
              Raised (IntegrityError violated)
          end
      end
  end.

(** [add_user] catches [sqlite3.IntegrityError] only: the ValueError of
    [hashpw] leaves the method, before any statement is executed.  The
    result is the store the call leaves and how it ends. *)
Definition add_user `{bcrypt.kdf} (db : database) (gensalt : list byte)
    (username password role : string) : database * ended bool :=
  match bcrypt.hashpw (Py.encode password) gensalt with
  | None => (db, Raised ValueError)
  | Some hashed =>
      match sqlite3.insert_user db username hashed role with
      | sqlite3.Done db' => (db', Returned true)
      | sqlite3.IntegrityError _ => (db, Returned false)
      end
  end.

Definition get_user (db : database) (username : string) : option Users.row :=
  sqlite3.fetchone
    (filter (fun u => (Users.username u =? username)%string)
            (rows (users db))).

Definition get_all_users (db : database) : list (Z * string * string) :=
  map (fun u => (Users.id u, Users.username u, Users.role u))
      (rows (users db)).

Definition delete_user (db : database) (user_id : Z) : database :=
  {| users := sqlite3.delete_where (fun u => Users.id u =? user_id) (users db);
     courses := courses db;
     enrollments := enrollments db |}.

Definition add_course (db : database) (title description : string)
    (instructor_id : Z) (price : Q) : database * bool :=
  match sqlite3.insert_course db title description instructor_id price with
  | sqlite3.Done db' => (db', true)
  | sqlite3.IntegrityError _ => (db, false)
  end.

(** [courses JOIN users ON courses.instructor_id = users.id] *)
Definition get_all_courses (db : database)
  : list (Z * string * string * string * Q) :=
  flat_map
    (fun c =>
       map (fun u => (Courses.id c, Courses.title c, Courses.description c,
                      Users.username u, Courses.price c))
           (filter (fun u => Courses.instructor_id c =? Users.id u)
                   (rows (users db))))
    (rows (courses db)).

Definition get_instructor_courses (db : database) (instructor_id : Z)
  : list (Z * string * Q) :=
  map (fun c => (Courses.id c, Courses.title c, Courses.price c))
      (filter (fun c => Courses.instructor_id c =? instructor_id)
              (rows (courses db))).

Definition delete_course (db : database) (course_id : Z) : database :=
  {| users := users db;
     courses := sqlite3.delete_where (fun c => Courses.id c =? course_id)
                                     (courses db);
     enrollments := enrollments db |}.

Definition enroll_student (db : database) (student_id course_id : Z)
  : database * bool :=
  match sqlite3.insert_enrollment db student_id course_id with
  | sqlite3.Done db' => (db', true)
  | sqlite3.IntegrityError _ => (db, false)
  end.

(** [enrollments JOIN courses ON enrollments.course_id = courses.id
    WHERE enrollments.student_id = ?] *)
Definition get_student_enrollments (db : database) (student_id : Z)
  : list (string * string * Q * Z) :=
  flat_map
    (fun e =>
       map (fun c => (Courses.title c, Courses.description c, Courses.price c,
                      Enrollments.progress e))
           (filter (fun c => Enrollments.course_id e =? Courses.id c)
                   (rows (courses db))))
    (filter (fun e => Enrollments.student_id e =? student_id)
            (rows (enrollments db))).

Definition set_progress (progress : Z) (e : Enrollments.row) : Enrollments.row :=
  {| Enrollments.id := Enrollments.id e;
     Enrollments.student_id := Enrollments.student_id e;
     Enrollments.course_id := Enrollments.course_id e;
     Enrollments.progress := progress |}.

(** [UPDATE enrollments SET progress = ? WHERE student_id = ? AND
    course_id = ?]; the method returns nothing. *)
Definition update_progress (db : database) (student_id course_id progress : Z)
  : database :=
  {| users := users db;
     courses := courses db;
     enrollments :=
       sqlite3.update_where
         (fun e => (Enrollments.student_id e =? student_id)
                   && (Enrollments.course_id e =? course_id))
         (set_progress progress)
         (enrollments db) |}.

End DatabaseHandler.

(* ================================================================== *)
(** ** The application and its handlers *)

(** The dict [current_user]. *)
Module Session.
Record t := {
  id : Z;
  username : string;
  role : string
}.
End Session.

Record E_LearningApp := {
  db : database;
  current_user : option Session.t
}.

Inductive messagebox :=
| showinfo (title message : string)
| showwarning (title message : string)
| showerror (title message : string).

(** What a handler leaves behind besides the state: the message box it
    showed, nothing, or an exception no handler catches. *)
Inductive reply :=
| Shows (m : messagebox)
| Quiet
| Raises (e : exception).

Definition with_db (controller : E_LearningApp) (db' : database)
  : E_LearningApp :=
  {| db := db'; current_user := current_user controller |}.

Module LoginFrame.

(** Lines 313-319 of [login]: look the user up, check the password, build
    the session dict. *)
Definition authenticate `{bcrypt.kdf} (db : database)
    (username password : string) : ended (option Session.t) :=
  match DatabaseHandler.get_user db username with
  | Some user =>
      match bcrypt.checkpw (Py.encode password) (Users.password user) with
      | Some true =>
          Returned (Some {| Session.id := Users.id user;
                            Session.username := Users.username user;
                            Session.role := Users.role user |})
      | Some false => Returned None
      | None => Raised ValueError
      end
  | None => Returned None
  end.

Definition login `{bcrypt.kdf} (controller : E_LearningApp)
    (username_entry password_entry : string) : E_LearningApp * reply :=
  let username := Py.strip username_entry in
  let password := Py.strip password_entry in
  if Py.is_empty username || Py.is_empty password
  then (controller,
        Shows (showwarning "Input Error"
                           "Please enter both username and password."))
  else
    match authenticate (db controller) username password with
    | Returned (Some user) =>
        ({| db := db controller; current_user := Some user |},
         Shows (showinfo "Login Successful"
                         ("Welcome, " ++ Session.username user ++ "!")%string))
    | Returned None =>
        (controller,
         Shows (showerror "Login Failed" "Invalid username or password."))
    | Raised e => (controller, Raises e)
    end.

End LoginFrame.

Module RegisterFrame.

Definition register `{bcrypt.kdf} (controller : E_LearningApp)
    (gensalt : list byte)
    (username_entry password_entry confirm_entry role_combo : string)
  : E_LearningApp * reply :=
  let username := Py.strip username_entry in
  let password := Py.strip password_entry in
  let confirm := Py.strip confirm_entry in
  let role := Py.strip role_combo in
  if Py.is_empty username || Py.is_empty password || Py.is_empty confirm
  then (controller, Shows (showwarning "Input Error" "Please fill all fields."))
  else if Py.len username <? 4
  then (controller,
        Shows (showwarning "Input Error"
                           "Username must be at least 4 characters long."))
  else if Py.len password <? 6
  then (controller,
        Shows (showwarning "Input Error"
                           "Password must be at least 6 characters long."))
  else if negb (password =? confirm)%string
  then (controller,
        Shows (showwarning "Input Error" "Passwords do not match."))
  else
    let (db', success) :=
      DatabaseHandler.add_user (db controller) gensalt username password role in
    match success with
    | Returned true =>
        (with_db controller db',
         Shows (showinfo "Registration Successful"
                         "You have registered successfully. Please log in."))
    | Returned false =>
        (with_db controller db',
         Shows (showerror "Registration Failed" "Username already exists."))
    | Raised e => (with_db controller db', Raises e)
    end.

End RegisterFrame.

Module StudentDashboard.

(** [selected]: the focused row of the courses tree: id, title,
    instructor and the price as the tree shows it. *)
Definition enroll_course (controller : E_LearningApp)
    (selected : option (Z * string * string * string))
  : E_LearningApp * reply :=
  match selected with
  | None =>
      (controller,
       Shows (showwarning "Selection Error" "Please select a course to enroll."))
  | Some (course_id, course_title, _, _) =>
      match current_user controller with
      | None => (controller, Raises TypeError)
      | Some user =>
          let student_id := Session.id user in
          let (db', success) :=
            DatabaseHandler.enroll_student (db controller) student_id course_id in
          if success
          then (with_db controller db',
                Shows (showinfo "Enrollment"
                         ("You have enrolled in '" ++ course_title
                          ++ "' successfully.")%string))
          else (with_db controller db',
                Shows (showerror "Enrollment Failed"
                         "You are already enrolled in this course."))
      end
  end.

(** [search_courses] hands [load_courses] the list [filtered], or warns. *)
Definition search_courses (controller : E_LearningApp) (search_entry : string)
  : list (Z * string * string * string * Q) + messagebox :=
  let query := Py.lower (Py.strip search_entry) in
  if Py.is_empty query
  then inr (showwarning "Input Error" "Please enter a search term.")
  else
    let all_courses := DatabaseHandler.get_all_courses (db controller) in
    inl (filter (fun course =>
                   match course with
                   | (_, course_title, _, _, _) =>
                       Py.contains query (Py.lower course_title)
                   end)
                all_courses).

(** The rows [load_enrollments] puts in the enrollments tree: title and
    progress. *)
Definition load_enrollments (controller : E_LearningApp)
  : option (list (string * Z)) :=
  match current_user controller with
  | None => None
  | Some user =>
      let student_id := Session.id user in
      Some (map (fun enrollment =>
                   match enrollment with
                   | (course_title, _, _, progress) => (course_title, progress)
                   end)
                (DatabaseHandler.get_student_enrollments (db controller)
                                                         student_id))
  end.

End StudentDashboard.

Module InstructorDashboard.

(** [selected]: the focused row of the instructor's courses tree: id,
    title and the price as the tree shows it. *)
Definition delete_course (controller : E_LearningApp)
    (selected : option (Z * string * string)) (askyesno : bool)
  : E_LearningApp * reply :=
  match selected with
  | None =>
      (controller,
       Shows (showwarning "Selection Error" "Please select a course to delete."))
  | Some (course_id, course_title, _) =>
      if askyesno
      then (with_db controller
                    (DatabaseHandler.delete_course (db controller) course_id),
            Shows (showinfo "Success"
                     ("Course '" ++ course_title
                      ++ "' has been deleted.")%string))
      else (controller, Quiet)
  end.

End InstructorDashboard.

Module AdminDashboard.

(** [selected]: the focused item of the users tree, with the values
    [load_users] gave it (a row of [get_all_users]: the id, then text);
    [askyesno]: the answer to the confirmation dialog.  The handler reads
    the values back through [item(selected)["values"]], so [username] and
    [role] are ints when their text is a numeral; the id is an int both
    ways. *)
Definition delete_user (controller : E_LearningApp)
    (selected : option (Z * string * string)) (askyesno : bool)
  : E_LearningApp * reply :=
  match selected with
  | None =>
      (controller,
       Shows (showwarning "Selection Error" "Please select a user to delete."))
  | Some (user_id, username_cell, role_cell) =>
      let username := ttk.convert_stringval username_cell in
      match current_user controller with
      | None => (controller, Raises TypeError)
      | Some me =>
          if ttk.equals_str username (Session.username me)
          then (controller,
                Shows (showerror "Error" "You cannot delete your own account."))
          else if askyesno
          then (with_db controller
                        (DatabaseHandler.delete_user (db controller) user_id),
                Shows (showinfo "Success"
                         ("User '" ++ ttk.format username
                          ++ "' has been deleted.")%string))
          else (controller, Quiet)
      end
  end.

Definition set_role (role : string) (u : Users.row) : Users.row :=
  {| Users.id := Users.id u;
     Users.username := Users.username u;
     Users.password := Users.password u;
     Users.role := role |}.

(** The UPDATE is issued from the handler itself:
    [UPDATE users SET role = 'Instructor' WHERE id = ?]. *)
Definition promote_user (controller : E_LearningApp)
    (selected : option (Z * string * string)) : E_LearningApp * reply :=
  match selected with
  | None =>
      (controller,
       Shows (showwarning "Selection Error" "Please select a user to promote."))
  | Some (user_id, username_cell, role_cell) =>
      let username := ttk.convert_stringval username_cell in
      let role := ttk.convert_stringval role_cell in
      if negb (ttk.equals_str role "Student")
      then (controller,
            Shows (showerror "Error"
                             "Only students can be promoted to instructors."))
      else
        let d := db controller in
        (with_db controller
           {| users := sqlite3.update_where (fun u => Users.id u =? user_id)
                                            (set_role "Instructor") (users d);
              courses := courses d;
              enrollments := enrollments d |},
         Shows (showinfo "Success"
                  ("User '" ++ ttk.format username
                   ++ "' has been promoted to Instructor.")%string))
  end.

(** The rows [load_users] puts in the users tree when it is given no
    list. *)
Definition load_users (controller : E_LearningApp)
  : list (Z * string * string) :=
  DatabaseHandler.get_all_users (db controller).

(** [search_users] hands [load_users] the list [filtered], or warns. *)
Definition search_users (controller : E_LearningApp) (search_entry : string)
  : list (Z * string * string) + messagebox :=
  let query := Py.lower (Py.strip search_entry) in
  if Py.is_empty query
  then inr (showwarning "Input Error" "Please enter a search term.")
  else
    let all_users := DatabaseHandler.get_all_users (db controller) in
    inl (filter (fun user =>
                   match user with
                   | (_, username, _) => Py.contains query (Py.lower username)
                   end)
                all_users).

(** [selected]: the focused row of the courses tree: id, title,
    instructor and the price as the tree shows it. *)
Definition delete_course (controller : E_LearningApp)
    (selected : option (Z * string * string * string)) (askyesno : bool)
  : E_LearningApp * reply :=
  match selected with
  | None =>
      (controller,
       Shows (showwarning "Selection Error" "Please select a course to delete."))
  | Some (course_id, course_title, _, _) =>
      if askyesno
      then (with_db controller
                    (DatabaseHandler.delete_course (db controller) course_id),
            Shows (showinfo "Success"
                     ("Course '" ++ course_title
                      ++ "' has been deleted.")%string))
      else (controller, Quiet)
  end.

End AdminDashboard.

Module CourseDetailsFrame.

(** [SELECT enrollments.id, users.username FROM enrollments JOIN users ON
    enrollments.student_id = users.id WHERE enrollments.course_id = ?] *)
Definition enrolled (d : database) (course_id : Z) : list (Z * string) :=
  flat_map
    (fun e =>
       map (fun u => (Enrollments.id e, Users.username u))
           (filter (fun u => Enrollments.student_id e =? Users.id u)
                   (rows (users d))))
    (filter (fun e => Enrollments.course_id e =? course_id)
            (rows (enrollments d))).

(** [UPDATE enrollments SET progress = ? WHERE id = ?] *)
Definition update_one (progress : Z) (t : table Enrollments.row)
    (enrollment : Z * string) : table Enrollments.row :=
  let enrollment_id := fst enrollment in
  sqlite3.update_where (fun e => Enrollments.id e =? enrollment_id)
                       (DatabaseHandler.set_progress progress) t.

(** [selected]: the focused row of the instructor's courses tree: id,
    title and the price as the tree shows it. *)
Definition update_progress (controller : E_LearningApp)
    (progress_entry : string) (selected : option (Z * string * string))
  : E_LearningApp * reply :=
  let invalid :=
    Shows (showerror "Input Error"
             "Please enter a valid progress percentage (0-100).") in
  let progress := Py.strip progress_entry in
  if negb (Py.isdigit progress) then (controller, invalid)
  else
    match Py.int progress with
    | None => (controller, Raises ValueError)
    | Some progress =>
        if negb ((0 <=? progress) && (progress <=? 100))
        then (controller, invalid)
        else
          match selected with
          | None =>
              (controller,
               Shows (showwarning "Selection Error"
                        "Please select a course to update progress."))
          | Some (course_id, _, _) =>
              let d := db controller in
              match enrolled d course_id with
              | [] =>
                  (controller,
                   Shows (showinfo "Info"
                            "No students enrolled in this course."))
              | enrollments_found =>
                  (with_db controller
                     {| users := users d;
                        courses := courses d;
                        enrollments :=
                          fold_left (update_one progress) enrollments_found
                                    (enrollments d) |},
                   Shows (showinfo "Success"
                            ("Progress updated to " ++ str progress
                             ++ "% for all enrolled students.")%string))
              end
          end
    end.

End CourseDetailsFrame.

Module ProfileFrame.

Definition set_password (hashed : bcrypt.hash) (u : Users.row) : Users.row :=
  {| Users.id := Users.id u;
     Users.username := Users.username u;
     Users.password := hashed;
     Users.role := Users.role u |}.

(** [user[2]] with [user = None] raises TypeError, as does subscripting
    [current_user] when nobody is logged in. *)
Definition change_password `{bcrypt.kdf} (controller : E_LearningApp)
    (gensalt : list byte) (current_entry new_entry confirm_entry : string)
  : E_LearningApp * reply :=
  let current := Py.strip current_entry in
  let new := Py.strip new_entry in
  let confirm := Py.strip confirm_entry in
  if Py.is_empty current || Py.is_empty new || Py.is_empty confirm
  then (controller, Shows (showwarning "Input Error" "Please fill all fields."))
  else
    match current_user controller with
    | None => (controller, Raises TypeError)
    | Some me =>
        match DatabaseHandler.get_user (db controller) (Session.username me) with
        | None => (controller, Raises TypeError)
        | Some user =>
            match bcrypt.checkpw (Py.encode current) (Users.password user) with
            | None => (controller, Raises ValueError)
            | Some verified =>
                if negb verified
                then (controller,
                      Shows (showerror "Error" "Current password is incorrect."))
                else if Py.len new <? 6
                then (controller,
                      Shows (showwarning "Input Error"
                               "New password must be at least 6 characters long."))
                else if negb (new =? confirm)%string
                then (controller,
                      Shows (showwarning "Input Error"
                                         "New passwords do not match."))
                else
                  let d := db controller in
                  match bcrypt.hashpw (Py.encode new) gensalt with
                  | None => (controller, Raises ValueError)
                  | Some hashed =>
                      (with_db controller
                         {| users :=
                              sqlite3.update_where
                                (fun u => Users.id u =? Session.id me)
                                (set_password hashed) (users d);
                            courses := courses d;
                            enrollments := enrollments d |},
                       Shows (showinfo "Success"
                                "Password has been updated successfully."))
                  end
            end
        end
    end.

End ProfileFrame.

(* ================================================================== *)
(** ** Keys *)

(** The PRIMARY KEY and UNIQUE declarations of the three tables. *)
Record keys_hold (d : database) : Prop := {
  users_id_key : NoDup (map Users.id (rows (users d)));
  users_username_key : NoDup (map Users.username (rows (users d)));
  courses_id_key : NoDup (map Courses.id (rows (courses d)));
  courses_title_key : NoDup (map Courses.title (rows (courses d)));
  enrollments_id_key : NoDup (map Enrollments.id (rows (enrollments d)))
}.

(** The rows of [enrollments] for one (student, course) pair. *)
Definition enrollments_of (d : database) (student_id course_id : Z)
  : list Enrollments.row :=
  filter (fun e => (Enrollments.student_id e =? student_id)
                   && (Enrollments.course_id e =? course_id))
         (rows (enrollments d)).

(** The rows of [users] with one username. *)
Definition users_named (d : database) (username : string) : list Users.row :=
  filter (fun u => (Users.username u =? username)%string) (rows (users d)).

(** The rows of [users] with role Admin. *)
Definition admins (d : database) : list Users.row :=
  filter (fun u => (Users.role u =? "Admin")%string) (rows (users d)).

(** Whether the student an enrollment refers to is still in [users]. *)
Definition student_exists (d : database) (e : Enrollments.row) : bool :=
  existsb (fun u => Enrollments.student_id e =? Users.id u) (rows (users d)).

(* ================================================================== *)
(** ** Runs of the application *)

(** The frame [AdminDashboard] is raised for a session with role Admin
    only. *)
Definition admin_logged_in (c : E_LearningApp) : Prop :=
  exists me, current_user c = Some me /\ Session.role me = "Admin"%string.

(** One event.  A handler runs on whatever its entries hold; the role of
    a registration is one of the two values of the read-only combobox; the
    handlers of [AdminDashboard] run for an Admin session, on a row of
    [get_all_users]; courses are created and deleted through
    [DatabaseHandler]; the program is started again on the file it left. *)
Inductive step `{bcrypt.kdf} : E_LearningApp -> E_LearningApp -> Prop :=
| step_login c username_entry password_entry :
    step c (fst (LoginFrame.login c username_entry password_entry))
| step_logout c :
    step c {| db := db c; current_user := None |}
| step_register c gensalt username_entry password_entry confirm_entry role :
    role = "Student"%string \/ role = "Instructor"%string ->
    step c (fst (RegisterFrame.register c gensalt username_entry
                                        password_entry confirm_entry role))
| step_enroll_course c selected :
    step c (fst (StudentDashboard.enroll_course c selected))
| step_add_course c title description instructor_id price :
    step c (with_db c (fst (DatabaseHandler.add_course
                              (db c) title description instructor_id price)))
| step_delete_course c course_id :
    step c (with_db c (DatabaseHandler.delete_course (db c) course_id))
| step_delete_user c selected askyesno :
    admin_logged_in c ->
    (forall row, selected = Some row ->
                 In row (DatabaseHandler.get_all_users (db c))) ->
    step c (fst (AdminDashboard.delete_user c selected askyesno))
| step_promote_user c selected :
    admin_logged_in c ->
    (forall row, selected = Some row ->
                 In row (DatabaseHandler.get_all_users (db c))) ->
    step c (fst (AdminDashboard.promote_user c selected))
| step_update_progress c progress_entry selected :
    step c (fst (CourseDetailsFrame.update_progress c progress_entry selected))
| step_change_password c gensalt current_entry new_entry confirm_entry :
    step c (fst (ProfileFrame.change_password c gensalt current_entry
                                              new_entry confirm_entry))
| step_restart c gensalt d :
    DatabaseHandler.setup_database (db c) gensalt = Returned d ->
    step c {| db := d; current_user := None |}.

(** The states the program gets to from a file that does not exist yet. *)
Inductive reachable `{bcrypt.kdf} : E_LearningApp -> Prop :=
| reachable_start gensalt d :
    DatabaseHandler.setup_database empty_database gensalt = Returned d ->
    reachable {| db := d; current_user := None |}
| reachable_step c c' :
    reachable c -> step c c' -> reachable c'.

(** There is a row (admin, Admin); every Admin row is named admin; so is
    every Admin session. *)
Record one_admin (c : E_LearningApp) : Prop := {
  admin_row :
    exists u, In u (rows (users (db c)))
              /\ Users.username u = "admin"%string
              /\ Users.role u = "Admin"%string;
  admin_name :
    forall u, In u (rows (users (db c))) ->
              Users.role u = "Admin"%string ->
              Users.username u = "admin"%string;
  admin_session_name :
    forall me, current_user c = Some me ->
               Session.role me = "Admin"%string ->
               Session.username me = "admin"%string
}.

(** The session, when there is one, is the id and username of a stored
    user. *)
Definition session_stored (c : E_LearningApp) : Prop :=
  forall me, current_user c = Some me ->
  exists r, In (Session.id me, Session.username me, r)
               (DatabaseHandler.get_all_users (db c)).

(* ================================================================== *)
(** ** Every event *)

(** [E_LearningApp.logout] *)
Definition logout (controller : E_LearningApp) : E_LearningApp :=
  {| db := db controller; current_user := None |}.

(** One event, with nothing assumed about who is logged in, which frame is
    raised or what a tree holds: any handler on any input.  A course is
    created by [add_course] (the handler that calls it reads a float). *)
Inductive event `{bcrypt.kdf} : E_LearningApp -> E_LearningApp -> Prop :=
| event_login c username_entry password_entry :
    event c (fst (LoginFrame.login c username_entry password_entry))
| event_logout c :
    event c (logout c)
| event_register c gensalt username_entry password_entry confirm_entry role :
    event c (fst (RegisterFrame.register c gensalt username_entry
                                         password_entry confirm_entry role))
| event_enroll_course c selected :
    event c (fst (StudentDashboard.enroll_course c selected))
| event_add_course c title description instructor_id price :
    event c (with_db c (fst (DatabaseHandler.add_course
                               (db c) title description instructor_id price)))
| event_instructor_delete_course c selected askyesno :
    event c (fst (InstructorDashboard.delete_course c selected askyesno))
| event_admin_delete_course c selected askyesno :
    event c (fst (AdminDashboard.delete_course c selected askyesno))
| event_delete_user c selected askyesno :
    event c (fst (AdminDashboard.delete_user c selected askyesno))
| event_promote_user c selected :
    event c (fst (AdminDashboard.promote_user c selected))
| event_update_progress c progress_entry selected :
    event c (fst (CourseDetailsFrame.update_progress c progress_entry selected))
| event_change_password c gensalt current_entry new_entry confirm_entry :
    event c (fst (ProfileFrame.change_password c gensalt current_entry
                                               new_entry confirm_entry))
| event_restart c gensalt d :
    DatabaseHandler.setup_database (db c) gensalt = Returned d ->
    event c {| db := d; current_user := None |}.

(** The states after a first start on an empty file and any events. *)
Inductive history `{bcrypt.kdf} : E_LearningApp -> Prop :=
| history_start gensalt d :
    DatabaseHandler.setup_database empty_database gensalt = Returned d ->
    history {| db := d; current_user := None |}
| history_event c c' :
    history c -> event c c' -> history c'.

(** [later c c']: some events lead from [c] to [c']. *)
Inductive later `{bcrypt.kdf} : E_LearningApp -> E_LearningApp -> Prop :=
| later_now c : later c c
| later_event c c' c'' : later c c' -> event c' c'' -> later c c''.

(** The writes of the program: what one event can do to the store. *)
Inductive change (d : database) : database -> Prop :=
| change_nothing :
    change d d
| change_user_added name hashed role :
    DatabaseHandler.get_user d name = None ->
    sqlite3.role_check role = true ->
    Py.strip name = name ->
    4 <= Py.len name ->
    change d
      {| users := sqlite3.append_row Users.id
                    (fun n => {| Users.id := n; Users.username := name;
                                 Users.password := hashed;
                                 Users.role := role |})
                    (users d);
         courses := courses d;
         enrollments := enrollments d |}
| change_course_added title description instructor_id price :
    filter (fun c => (Courses.title c =? title)%string) (rows (courses d))
    = [] ->
    change d
      {| users := users d;
         courses := sqlite3.append_row Courses.id
                      (fun n => {| Courses.id := n; Courses.title := title;
                                   Courses.description := description;
                                   Courses.instructor_id := instructor_id;
                                   Courses.price := price |})
                      (courses d);
         enrollments := enrollments d |}
| change_enrollment_added student_id course_id :
    change d
      {| users := users d;
         courses := courses d;
         enrollments := sqlite3.append_row Enrollments.id
                          (fun n => {| Enrollments.id := n;
                                       Enrollments.student_id := student_id;
                                       Enrollments.course_id := course_id;
                                       Enrollments.progress := 0 |})
                          (enrollments d) |}
| change_user_deleted user_id :
    change d (DatabaseHandler.delete_user d user_id)
| change_course_deleted course_id :
    change d (DatabaseHandler.delete_course d course_id)
| change_user_promoted user_id :
    change d
      {| users := sqlite3.update_where (fun u => Users.id u =? user_id)
                    (AdminDashboard.set_role "Instructor") (users d);
         courses := courses d;
         enrollments := enrollments d |}
| change_password_set user_id hashed :
    change d
      {| users := sqlite3.update_where (fun u => Users.id u =? user_id)
                    (ProfileFrame.set_password hashed) (users d);
         courses := courses d;
         enrollments := enrollments d |}
| change_progress_set progress found :
    0 <= progress <= 100 ->
    change d
      {| users := users d;
         courses := courses d;
         enrollments :=
           fold_left (CourseDetailsFrame.update_one progress) found
                     (enrollments d) |}.

(** Every progress is a percentage. *)
Definition progress_in_range (d : database) : Prop :=
  forall e, In e (rows (enrollments d)) -> 0 <= Enrollments.progress e <= 100.

(** What every stored user looks like: a role of the CHECK, a username of
    at least 4 characters without blanks around it. *)
Record users_well_formed (d : database) : Prop := {
  role_checked :
    forall u, In u (rows (users d)) -> sqlite3.role_check (Users.role u) = true;
  username_stripped :
    forall u, In u (rows (users d)) ->
              Py.strip (Users.username u) = Users.username u;
  username_long :
    forall u, In u (rows (users d)) -> 4 <= Py.len (Users.username u)
}.

(** No row has a rowid above the counter of its table. *)
Record sequences_cover (d : database) : Prop := {
  users_covered :
    forall u, In u (rows (users d)) -> Users.id u <= sqlite_sequence (users d);
  courses_covered :
    forall c, In c (rows (courses d)) ->
              Courses.id c <= sqlite_sequence (courses d);
  enrollments_covered :
    forall e, In e (rows (enrollments d)) ->
              Enrollments.id e <= sqlite_sequence (enrollments d)
}.

(* ================================================================== *)
(** ** Stores to run the program on *)

Module Scenario.

#[local] Open Scope string_scope.

Definition salt_of (s : string) : list byte := Py.encode s.

(** The store after the first start of the program. *)
Definition started : database :=
  match @DatabaseHandler.setup_database bcrypt.toy empty_database
          (salt_of "s0") with
  | Returned d => d
  | Raised _ => empty_database
  end.

(** Three registrations after the first start. *)
Definition registered : database :=
  let d1 := fst (@DatabaseHandler.add_user bcrypt.toy started (salt_of "s1")
                   "alice" "wonderland" "Student") in
  let d2 := fst (@DatabaseHandler.add_user bcrypt.toy d1 (salt_of "s2")
                   "bobby" "builder1" "Student") in
  fst (@DatabaseHandler.add_user bcrypt.toy d2 (salt_of "s3")
         "carol" "christmas" "Instructor").

(** carol (id 4) gives two courses; alice (2) and bobby (3) enroll in the
    first, alice also in the second. *)
Definition classroom : database :=
  let d1 := fst (DatabaseHandler.add_course registered "Logic" "Proofs" 4 (10 # 1)) in
  let d2 := fst (DatabaseHandler.add_course d1 "Sets" "Collections" 4 (0 # 1)) in
  let d3 := fst (DatabaseHandler.enroll_student d2 2 1) in
  let d4 := fst (DatabaseHandler.enroll_student d3 3 1) in
  fst (DatabaseHandler.enroll_student d4 2 2).

(** The administrator, logged in. *)
Definition admin_session : Session.t :=
  {| Session.id := 1; Session.username := "admin"; Session.role := "Admin" |}.

(** The classroom after the administrator deleted bobby: his enrollment
    stays behind. *)
Definition orphaned : database :=
  db (fst (AdminDashboard.delete_user
             {| db := classroom; current_user := Some admin_session |}
             (Some (3, "bobby", "Student")) true)).

(** A store without an Admin row in which the name of the default admin is
    taken by a student. *)
Definition squatted : database :=
  {| users :=
       {| rows := [ {| Users.id := 1; Users.username := "admin";
                       Users.password :=
                         {| bcrypt.salt := salt_of "s9";
                            bcrypt.checksum :=
                              @bcrypt.digest bcrypt.toy (salt_of "s9")
                                             (Py.encode "hunter22") |};
                       Users.role := "Student" |} ];
          sqlite_sequence := 1 |};
     courses := empty_table;
     enrollments := empty_table |}.

(** A file that was not made by the program: its administrator is named
    1234 (password "secret12"); alice is a student. *)
Definition numeric_admin : database :=
  {| users :=
       {| rows := [ {| Users.id := 1; Users.username := "1234";
                       Users.password :=
                         {| bcrypt.salt := salt_of "s9";
                            bcrypt.checksum :=
                              @bcrypt.digest bcrypt.toy (salt_of "s9")
                                             (Py.encode "secret12") |};
                       Users.role := "Admin" |};
                    {| Users.id := 2; Users.username := "alice";
                       Users.password :=
                         {| bcrypt.salt := salt_of "s1";
                            bcrypt.checksum :=
                              @bcrypt.digest bcrypt.toy (salt_of "s1")
                                             (Py.encode "wonderland") |};
                       Users.role := "Student" |} ];
          sqlite_sequence := 2 |};
     courses := empty_table;
     enrollments := empty_table |}.

(** A numeral of 4301 digits for the value 75. *)
Definition long_entry : string := Py.times "0" 4299 ++ "75".

(** Two passwords of 73 characters (73 bytes encoded) that differ in
    the last one only. *)
Definition seventy_two : string :=
  "correct horse battery staple, correct horse battery staple, correct hors".

Definition long_password : string := seventy_two ++ "e".

Definition other_long_password : string := seventy_two ++ "y".

End Scenario.

(* ================================================================== *)
(** ** Text and hashing lemmas *)

Example strip_entry :
  Py.strip (String " " (String "009" ("admin " ++ String "010" ""))) = "admin"%string.
Proof. reflexivity. Qed.

Example strip_keeps_inner_space : Py.strip " a b " = "a b"%string.
Proof. reflexivity. Qed.

Example encode_ascii :
  Py.encode "abc" = ["a"%byte; "b"%byte; "c"%byte].
Proof. reflexivity. Qed.

(** U+00E9 encodes as C3 A9. *)
Example encode_latin1 :
  Py.encode (String (ascii_of_N 233) "") = [Byte.xc3; Byte.xa9].
Proof. reflexivity. Qed.

Example int_numeral : Py.isdigit "075" = true /\ Py.int "075" = Some 75.
Proof. split; reflexivity. Qed.

(** A superscript two is a digit for [isdigit] and not a numeral for
    [int]. *)
Example int_superscript :
  Py.isdigit (String (ascii_of_N 178) "") = true
  /\ Py.int (String (ascii_of_N 178) "") = None.
Proof. split; reflexivity. Qed.

Example isdigit_rejects :
  Py.isdigit "" = false /\ Py.isdigit "-5" = false /\ Py.isdigit "7.5" = false.
Proof. repeat split. Qed.

Example str_of_progress : str 75 = "75"%string /\ str 0 = "0"%string.
Proof. split; reflexivity. Qed.

Lemma decode_utf8 (c : ascii) (bs : list byte) :
  Py.decode (Py.utf8 c ++ bs) = String c (Py.decode bs).
Proof.
  destruct c as [[] [] [] [] [] [] [] []]; reflexivity.
Qed.

Lemma decode_encode (s : string) : Py.decode (Py.encode s) = s.
Proof.
  induction s as [|c s IH]; simpl.
  - reflexivity.
  - rewrite decode_utf8, IH. reflexivity.
Qed.

Lemma encode_inj (s t : string) : Py.encode s = Py.encode t -> s = t.
Proof.
  intros E. rewrite <- (decode_encode s), <- (decode_encode t), E.
  reflexivity.
Qed.

Lemma bytes_eqb_eq (a b : list byte) : bcrypt.bytes_eqb a b = true <-> a = b.
Proof.
  revert b. induction a as [|x a IH]; intros [|y b]; simpl; split;
    try congruence; try discriminate.
  - intros E. apply andb_true_iff in E as [E1 E2].
    apply Byte.byte_dec_bl in E1. apply IH in E2. congruence.
  - intros E. injection E as -> ->. apply andb_true_iff. split.
    + now apply Byte.byte_dec_lb.
    + now apply IH.
Qed.

Lemma hash_eqb_eq (a b : bcrypt.hash) : bcrypt.hash_eqb a b = true <-> a = b.
Proof.
  unfold bcrypt.hash_eqb. rewrite andb_true_iff, !bytes_eqb_eq.
  destruct a, b; simpl. split; [intros [-> ->]; reflexivity|].
  intros E. now injection E.
Qed.

(** [hashpw] returns on every password a release accepts: any password for
    a release that truncates, those of at most 72 bytes otherwise. *)
Lemma hashpw_accepted `{bcrypt.kdf} (p s : list byte) :
  bcrypt.refused p = false ->
  bcrypt.hashpw p s
  = Some {| bcrypt.salt := s;
            bcrypt.checksum := bcrypt.digest s (firstn 72 p) |}.
Proof. unfold bcrypt.hashpw. now intros ->. Qed.

Lemma hashpw_refused `{bcrypt.kdf} (p s : list byte) :
  bcrypt.refused p = true -> bcrypt.hashpw p s = None.
Proof. unfold bcrypt.hashpw. now intros ->. Qed.

Lemma hashpw_returned `{bcrypt.kdf} (p s : list byte) (h : bcrypt.hash) :
  bcrypt.hashpw p s = Some h ->
  bcrypt.refused p = false
  /\ bcrypt.salt h = s
  /\ bcrypt.checksum h = bcrypt.digest s (firstn 72 p).
Proof.
  unfold bcrypt.hashpw. destruct (bcrypt.refused p); [discriminate|].
  intros E. injection E as <-. auto.
Qed.

Lemma refused_short `{bcrypt.kdf} (p : list byte) :
  Z.of_nat (List.length p) <= 72 -> bcrypt.refused p = false.
Proof.
  intros Hshort. unfold bcrypt.refused.
  replace (72 <? Z.of_nat (List.length p)) with false; [reflexivity|].
  symmetry. apply Z.ltb_ge. lia.
Qed.

(** [checkpw] says yes exactly when hashing the password again, under the
    salt of the stored hash, gives the stored hash. *)
Lemma checkpw_iff `{bcrypt.kdf} (p : list byte) (h : bcrypt.hash) :
  bcrypt.checkpw p h = Some true <-> bcrypt.hashpw p (bcrypt.salt h) = Some h.
Proof.
  unfold bcrypt.checkpw.
  destruct (bcrypt.hashpw p (bcrypt.salt h)) as [again|]; [|split; discriminate].
  split.
  - intros E. injection E as E. apply hash_eqb_eq in E. now subst.
  - intros E. injection E as ->. f_equal. now apply hash_eqb_eq.
Qed.

Lemma checkpw_hashpw `{bcrypt.kdf} (p s : list byte) (h : bcrypt.hash) :
  bcrypt.hashpw p s = Some h -> bcrypt.checkpw p h = Some true.
Proof.
  intros E. apply checkpw_iff.
  now rewrite (proj1 (proj2 (hashpw_returned p s h E))).
Qed.

(** [checkpw] raises exactly on the passwords [hashpw] raises on. *)
Lemma checkpw_raises `{bcrypt.kdf} (p : list byte) (h : bcrypt.hash) :
  bcrypt.checkpw p h = None <-> bcrypt.refused p = true.
Proof.
  unfold bcrypt.checkpw, bcrypt.hashpw.
  destruct (bcrypt.refused p); split; congruence.
Qed.

(* ================================================================== *)
(** ** Store lemmas *)

Lemma fetchone_None {R : Type} (l : list R) :
  sqlite3.fetchone l = None <-> l = [].
Proof. destruct l; simpl; split; congruence. Qed.

Lemma filter_nil_iff {A : Type} (f : A -> bool) (l : list A) :
  filter f l = [] <-> forall x, In x l -> f x = false.
Proof.
  induction l as [|a l IH]; simpl.
  - tauto.
  - destruct (f a) eqn:Fa; split.
    + discriminate.
    + intros Hall. specialize (Hall a (or_introl eq_refl)). congruence.
    + intros E x [<-|Hx]; [assumption | now apply IH].
    + intros Hall. apply IH. intros x Hx. apply Hall. now right.
Qed.

Lemma existsb_false_filter {A : Type} (f : A -> bool) (l : list A) :
  existsb f l = false <-> filter f l = [].
Proof.
  rewrite filter_nil_iff. induction l as [|a l IH]; simpl.
  - tauto.
  - rewrite orb_false_iff, IH. split.
    + intros [Ha Hl] x [<-|Hx]; auto.
    + intros Hall. split; [|intros x Hx]; apply Hall; auto.
Qed.

Lemma get_user_None (d : database) (name : string) :
  DatabaseHandler.get_user d name = None <-> users_named d name = [].
Proof. apply fetchone_None. Qed.

Lemma get_user_Some (d : database) (name : string) (u : Users.row) :
  DatabaseHandler.get_user d name = Some u ->
  In u (rows (users d)) /\ Users.username u = name.
Proof.
  unfold DatabaseHandler.get_user, sqlite3.fetchone. intros E.
  assert (Hin : In u (filter (fun u => (Users.username u =? name)%string)
                             (rows (users d)))).
  { destruct (filter _ _); simpl in E; [discriminate|].
    injection E as ->. now left. }
  apply filter_In in Hin as [Hin Hn]. split; [assumption|].
  now apply String.eqb_eq.
Qed.

Lemma largest_upper (ids : list Z) (x : Z) :
  In x ids -> x <= sqlite3.largest ids.
Proof.
  induction ids as [|y ids IH]; simpl; [tauto|].
  intros [->|Hx]; [lia|]. specialize (IH Hx). lia.
Qed.

(** AUTOINCREMENT never hands out a rowid the table holds. *)
Lemma next_rowid_fresh {R : Type} (id : R -> Z) (t : table R) :
  ~ In (sqlite3.next_rowid id t) (map id (rows t)).
Proof.
  unfold sqlite3.next_rowid. intros Hin. apply largest_upper in Hin. lia.
Qed.

Lemma NoDup_snoc {A : Type} (l : list A) (x : A) :
  NoDup l -> ~ In x l -> NoDup (l ++ [x]).
Proof.
  intros Hl Hx. apply NoDup_app; auto.
  - repeat constructor. intros [].
  - intros y Hy [<-|[]]. contradiction.
Qed.

Lemma insert_user_fresh (d : database) (name : string) (h : bcrypt.hash)
    (r : string) :
  DatabaseHandler.get_user d name = None ->
  sqlite3.role_check r = true ->
  sqlite3.insert_user d name h r
  = sqlite3.Done
      {| users :=
           {| rows := rows (users d)
                      ++ [ {| Users.id := sqlite3.next_rowid Users.id (users d);
                              Users.username := name;
                              Users.password := h;
                              Users.role := r |} ];
              sqlite_sequence := sqlite3.next_rowid Users.id (users d) |};
         courses := courses d;
         enrollments := enrollments d |}.
Proof.
  intros Hfree Hrole. unfold sqlite3.insert_user.
  apply get_user_None, existsb_false_filter in Hfree.
  unfold users_named in Hfree. rewrite Hfree, Hrole. reflexivity.
Qed.


Lemma insert_user_taken (d : database) (name : string) (h : bcrypt.hash)
    (r : string) :
  DatabaseHandler.get_user d name <> None ->
  exists violated,
    sqlite3.insert_user d name h r = sqlite3.IntegrityError violated.
Proof.
  intros Htaken. unfold sqlite3.insert_user.
  destruct (negb (sqlite3.role_check r)); [now eexists|].
  destruct (existsb _ _) eqn:E; [now eexists|].
  apply existsb_false_filter in E. exfalso. apply Htaken.
  now apply get_user_None.
Qed.

(** The first row with a name is still the first one after a row is
    appended. *)
Lemma users_named_app (l : list Users.row) (u : Users.row) (name : string) :
  filter (fun v => (Users.username v =? name)%string) (l ++ [u])
  = filter (fun v => (Users.username v =? name)%string) l
    ++ (if (Users.username u =? name)%string then [u] else []).
Proof. rewrite filter_app. reflexivity. Qed.

(** [insert_enrollment] has no failing case. *)
Lemma enroll_student_inserts (d : database) (student_id course_id : Z) :
  DatabaseHandler.enroll_student d student_id course_id
  = ({| users := users d;
        courses := courses d;
        enrollments :=
          {| rows := rows (enrollments d)
                     ++ [ {| Enrollments.id :=
                               sqlite3.next_rowid Enrollments.id (enrollments d);
                             Enrollments.student_id := student_id;
                             Enrollments.course_id := course_id;
                             Enrollments.progress := 0 |} ];
             sqlite_sequence :=
               sqlite3.next_rowid Enrollments.id (enrollments d) |} |},
     true).
Proof. reflexivity. Qed.

Lemma enroll_student_one_more (d : database) (student_id course_id : Z) :
  List.length (enrollments_of
                 (fst (DatabaseHandler.enroll_student d student_id course_id))
                 student_id course_id)
  = S (List.length (enrollments_of d student_id course_id)).
Proof.
  rewrite enroll_student_inserts. unfold enrollments_of. simpl.
  rewrite filter_app, List.length_app. simpl. rewrite !Z.eqb_refl. simpl. lia.
Qed.

(** The branch of [enroll_course] that reports a repeated enrollment is
    never taken. *)
Lemma enroll_course_never_refuses (controller : E_LearningApp)
    (selected : option (Z * string * string * string)) :
  snd (StudentDashboard.enroll_course controller selected)
  <> Shows (showerror "Enrollment Failed"
                      "You are already enrolled in this course.").
Proof.
  destruct selected as [[[[cid ctitle] cins] cprice]|]; simpl;
    [|discriminate].
  destruct (current_user controller); simpl; discriminate.
Qed.

Lemma get_user_appended (d : database) (t : table Users.row) (u : Users.row)
    (name : string) :
  DatabaseHandler.get_user d name = None ->
  Users.username u = name ->
  rows t = rows (users d) ++ [u] ->
  DatabaseHandler.get_user
    {| users := t; courses := courses d; enrollments := enrollments d |} name
  = Some u.
Proof.
  intros Hfree Hname Hrows. apply get_user_None in Hfree.
  unfold users_named in Hfree. unfold DatabaseHandler.get_user. simpl.
  rewrite Hrows, users_named_app, Hfree, Hname, String.eqb_refl.
  reflexivity.
Qed.

Lemma map_unchanged {A : Type} (cond : A -> bool) (set : A -> A) (l : list A) :
  filter cond l = [] -> map (fun r => if cond r then set r else r) l = l.
Proof.
  intros Hnone. rewrite <- (map_id l) at 2. apply map_ext_in.
  intros r Hr. now rewrite (proj1 (filter_nil_iff cond l) Hnone r Hr).
Qed.

(* ================================================================== *)
(** ** The scenario stores satisfy their keys *)

Ltac keys_by_computation :=
  split; vm_compute; repeat constructor; simpl; intuition discriminate.

Lemma started_keys_hold : keys_hold Scenario.started.
Proof. keys_by_computation. Qed.

Lemma registered_keys_hold : keys_hold Scenario.registered.
Proof. keys_by_computation. Qed.

Lemma classroom_keys_hold : keys_hold Scenario.classroom.
Proof. keys_by_computation. Qed.

Lemma orphaned_keys_hold : keys_hold Scenario.orphaned.
Proof. keys_by_computation. Qed.

(* ================================================================== *)
(** ** Enrollment *)

(** C1, at the failing input.  alice (student 2) is enrolled in course 1
    of [Scenario.classroom] once; [enroll_student] for the same pair
    returns [True] again and leaves two rows for the pair: the table has no
    UNIQUE declaration on (student_id, course_id), so the IntegrityError
    the method catches is never raised. *)
Theorem C1_second_enrollment_is_accepted :
  List.length (enrollments_of Scenario.classroom 2 1) = 1%nat
  /\ snd (DatabaseHandler.enroll_student Scenario.classroom 2 1) = true
  /\ List.length
       (enrollments_of
          (fst (DatabaseHandler.enroll_student Scenario.classroom 2 1)) 2 1)
     = 2%nat.
Proof. vm_compute. repeat split. Qed.

(** C9.  [delete_course] removes from [courses] the rows whose id is the
    given one and nothing else; [users] and [enrollments] are the same
    tables afterwards, so every enrollment that refers to the deleted course
    is still there, unchanged. *)
Theorem C9_delete_course_does_not_cascade (d : database) (course_id : Z) :
  let d' := DatabaseHandler.delete_course d course_id in
  enrollments d' = enrollments d
  /\ users d' = users d
  /\ rows (courses d')
     = filter (fun c => negb (Courses.id c =? course_id)) (rows (courses d))
  /\ (forall c, In c (rows (courses d'))
                <-> In c (rows (courses d)) /\ Courses.id c <> course_id)
  /\ filter (fun e => Enrollments.course_id e =? course_id)
            (rows (enrollments d'))
     = filter (fun e => Enrollments.course_id e =? course_id)
              (rows (enrollments d)).
Proof.
  simpl. split; [reflexivity|]. split; [reflexivity|].
  split; [reflexivity|]. split; [|reflexivity].
  intros c. rewrite filter_In, negb_true_iff, Z.eqb_neq. reflexivity.
Qed.

(** C10.  When no enrollment row has the given (student, course) pair,
    [DatabaseHandler.update_progress] returns (it has no failing case) and
    the store is the one it was given: the miss is not reported. *)
Theorem C10_update_progress_miss_is_silent (d : database)
    (student_id course_id progress : Z) :
  enrollments_of d student_id course_id = [] ->
  DatabaseHandler.update_progress d student_id course_id progress = d.
Proof.
  intros Hmiss. unfold enrollments_of in Hmiss.
  destruct d as [us cs [es seq]]. unfold DatabaseHandler.update_progress.
  simpl in *. unfold sqlite3.update_where. simpl.
  now rewrite map_unchanged.
Qed.

Lemma C10_witness :
  enrollments_of Scenario.classroom 3 2 = []
  /\ DatabaseHandler.update_progress Scenario.classroom 3 2 40
     = Scenario.classroom.
Proof.
  split.
  - reflexivity.
  - apply (C10_update_progress_miss_is_silent Scenario.classroom 3 2 40).
    reflexivity.
Defined.

(* ================================================================== *)
(** ** Registration and login *)

(** What a successful [add_user] did. *)
Lemma add_user_true `{bcrypt.kdf} (d d' : database) (gensalt : list byte)
    (name pw role : string) :
  DatabaseHandler.add_user d gensalt name pw role = (d', Returned true) ->
  DatabaseHandler.get_user d name = None
  /\ sqlite3.role_check role = true
  /\ exists hashed,
       bcrypt.hashpw (Py.encode pw) gensalt = Some hashed
       /\ d' = {| users :=
                    {| rows := rows (users d)
                               ++ [ {| Users.id :=
                                         sqlite3.next_rowid Users.id (users d);
                                       Users.username := name;
                                       Users.password := hashed;
                                       Users.role := role |} ];
                       sqlite_sequence :=
                         sqlite3.next_rowid Users.id (users d) |};
                  courses := courses d;
                  enrollments := enrollments d |}.
Proof.
  unfold DatabaseHandler.add_user, sqlite3.insert_user.
  destruct (bcrypt.hashpw (Py.encode pw) gensalt) as [hashed|];
    [|discriminate].
  destruct (sqlite3.role_check role) eqn:Erole; simpl; [|discriminate].
  destruct (existsb _ _) eqn:Ename; [discriminate|].
  intros E. injection E as <-. split; [|split; [reflexivity|]].
  - apply get_user_None. now apply existsb_false_filter.
  - now exists hashed.
Qed.

Lemma add_user_fresh `{bcrypt.kdf} (d : database) (gensalt : list byte)
    (name pw role : string) (hashed : bcrypt.hash) :
  DatabaseHandler.get_user d name = None ->
  sqlite3.role_check role = true ->
  bcrypt.hashpw (Py.encode pw) gensalt = Some hashed ->
  DatabaseHandler.add_user d gensalt name pw role
  = ({| users :=
          {| rows := rows (users d)
                     ++ [ {| Users.id := sqlite3.next_rowid Users.id (users d);
                             Users.username := name;
                             Users.password := hashed;
                             Users.role := role |} ];
             sqlite_sequence := sqlite3.next_rowid Users.id (users d) |};
        courses := courses d;
        enrollments := enrollments d |}, Returned true).
Proof.
  intros Hfree Hrole Hhash. unfold DatabaseHandler.add_user.
  now rewrite Hhash, insert_user_fresh.
Qed.

Lemma add_user_taken `{bcrypt.kdf} (d : database) (gensalt : list byte)
    (name pw role : string) :
  DatabaseHandler.get_user d name <> None ->
  bcrypt.refused (Py.encode pw) = false ->
  DatabaseHandler.add_user d gensalt name pw role = (d, Returned false).
Proof.
  intros Htaken Hok. unfold DatabaseHandler.add_user.
  rewrite (hashpw_accepted _ gensalt Hok).
  destruct (insert_user_taken d name
              {| bcrypt.salt := gensalt;
                 bcrypt.checksum :=
                   bcrypt.digest gensalt (firstn 72 (Py.encode pw)) |}
              role Htaken)
    as [violated ->].
  reflexivity.
Qed.

(** The ValueError of [hashpw] is not caught: nothing is written. *)
Lemma add_user_raised `{bcrypt.kdf} (d : database) (gensalt : list byte)
    (name pw role : string) :
  bcrypt.refused (Py.encode pw) = true ->
  DatabaseHandler.add_user d gensalt name pw role = (d, Raised ValueError).
Proof.
  intros Hlong. unfold DatabaseHandler.add_user.
  now rewrite (hashpw_refused _ gensalt Hlong).
Qed.

Example long_passwords :
  Py.len Scenario.long_password = 73
  /\ Z.of_nat (List.length (Py.encode Scenario.long_password)) = 73
  /\ Scenario.long_password <> Scenario.other_long_password
  /\ firstn 72 (Py.encode Scenario.long_password)
     = firstn 72 (Py.encode Scenario.other_long_password).
Proof. repeat split. vm_compute. discriminate. Qed.

(** C3, counterexample.  With a bcrypt that raises on more than 72 bytes
    (5.0.0), [add_user] for a free username and a password of 73 bytes
    raises ValueError and inserts nothing, and a second [add_user] for a
    username that is taken, with such a password, raises ValueError too
    instead of returning [False]. *)
Lemma C3_counterexample_long_password :
  DatabaseHandler.get_user Scenario.started "alice" = None
  /\ sqlite3.role_check "Student" = true
  /\ @DatabaseHandler.add_user bcrypt.toy5 Scenario.started
       (Scenario.salt_of "s1") "alice" Scenario.long_password "Student"
     = (Scenario.started, Raised ValueError)
  /\ let first :=
       @DatabaseHandler.add_user bcrypt.toy5 Scenario.started
         (Scenario.salt_of "s1") "alice" "wonderland" "Student" in
     snd first = Returned true
     /\ @DatabaseHandler.add_user bcrypt.toy5 (fst first)
          (Scenario.salt_of "s2") "alice" Scenario.long_password "Student"
        = (fst first, Raised ValueError).
Proof. repeat split. Qed.

(** C3, amended.  The two passwords are ones the installed bcrypt hashes.
    From a store without the username, the first [add_user] returns [True]
    and appends one row with that username; a second [add_user] with the
    same username (any role) returns [False] and leaves the store exactly
    as the first call left it; one row has the username afterwards. *)
Theorem C3_second_registration_is_refused `{bcrypt.kdf} (d : database)
    (salt1 salt2 : list byte) (name pw1 pw2 role1 role2 : string) :
  DatabaseHandler.get_user d name = None ->
  sqlite3.role_check role1 = true ->
  bcrypt.refused (Py.encode pw1) = false ->
  bcrypt.refused (Py.encode pw2) = false ->
  let first := DatabaseHandler.add_user d salt1 name pw1 role1 in
  let second := DatabaseHandler.add_user (fst first) salt2 name pw2 role2 in
  snd first = Returned true
  /\ (exists u, rows (users (fst first)) = rows (users d) ++ [u]
                /\ Users.username u = name)
  /\ snd second = Returned false
  /\ fst second = fst first
  /\ List.length (users_named (fst second) name) = 1%nat.
Proof.
  intros Hfree Hrole Hpw1 Hpw2 first second. subst first second.
  rewrite (add_user_fresh d salt1 name pw1 role1 _ Hfree Hrole
             (hashpw_accepted _ salt1 Hpw1)).
  cbn [fst snd].
  set (u := {| Users.id := sqlite3.next_rowid Users.id (users d);
               Users.username := name;
               Users.password := _;
               Users.role := role1 |}).
  set (d1 := {| users := _; courses := _; enrollments := _ |}).
  assert (Hfound : DatabaseHandler.get_user d1 name = Some u)
    by (apply get_user_appended; auto).
  rewrite add_user_taken by congruence. cbn [fst snd].
  split; [reflexivity|]. split; [now exists u|].
  split; [reflexivity|]. split; [reflexivity|].
  apply get_user_None in Hfree. unfold users_named in *. simpl.
  rewrite users_named_app, Hfree. simpl. now rewrite String.eqb_refl.
Qed.

Lemma C3_witness :
  DatabaseHandler.get_user Scenario.started "alice" = None
  /\ sqlite3.role_check "Student" = true
  /\ @bcrypt.refused bcrypt.toy5 (Py.encode "wonderland") = false
  /\ @bcrypt.refused bcrypt.toy5 (Py.encode "looking-glass") = false
  /\ List.length
       (users_named
          (fst (@DatabaseHandler.add_user bcrypt.toy5
                  (fst (@DatabaseHandler.add_user bcrypt.toy5 Scenario.started
                          (Scenario.salt_of "s1") "alice" "wonderland"
                          "Student"))
                  (Scenario.salt_of "s2") "alice" "looking-glass"
                  "Instructor"))
          "alice")
     = 1%nat.
Proof.
  split; [reflexivity|]. split; [reflexivity|].
  split; [reflexivity|]. split; [reflexivity|].
  apply (@C3_second_registration_is_refused bcrypt.toy5 Scenario.started
           (Scenario.salt_of "s1") (Scenario.salt_of "s2")
           "alice" "wonderland" "looking-glass" "Student" "Instructor");
    reflexivity.
Defined.

Lemma authenticate_found `{bcrypt.kdf} (d : database) (name pw : string)
    (u : Users.row) :
  DatabaseHandler.get_user d name = Some u ->
  LoginFrame.authenticate d name pw
  = match bcrypt.checkpw (Py.encode pw) (Users.password u) with
    | Some true =>
        Returned (Some {| Session.id := Users.id u;
                          Session.username := Users.username u;
                          Session.role := Users.role u |})
    | Some false => Returned None
    | None => Raised ValueError
    end.
Proof. intros E. unfold LoginFrame.authenticate. now rewrite E. Qed.

(** Whom [authenticate] lets in: for a stored user, a password is accepted
    exactly when [hashpw] gives it, under the salt of the stored hash, the
    stored hash; a password [hashpw] refuses raises; any other is answered
    [None]. *)
Lemma authenticate_stored_hash `{bcrypt.kdf} (d : database) (name pw : string)
    (u : Users.row) :
  DatabaseHandler.get_user d name = Some u ->
  let session := {| Session.id := Users.id u;
                    Session.username := Users.username u;
                    Session.role := Users.role u |} in
  let again :=
    bcrypt.hashpw (Py.encode pw) (bcrypt.salt (Users.password u)) in
  (LoginFrame.authenticate d name pw = Returned (Some session)
   <-> again = Some (Users.password u))
  /\ (again <> Some (Users.password u) ->
      LoginFrame.authenticate d name pw
      = if bcrypt.refused (Py.encode pw)
        then Raised ValueError else Returned None).
Proof.
  intros Hu session again. subst session again.
  rewrite (authenticate_found d name pw u Hu), <- checkpw_iff.
  pose proof (checkpw_raises (Py.encode pw) (Users.password u)) as Hraise.
  destruct (bcrypt.checkpw _ _) as [[|]|].
  - split; [tauto | congruence].
  - split; [split; discriminate|]. intros _.
    destruct (bcrypt.refused _); [|reflexivity].
    destruct Hraise as [_ Hraise]. now specialize (Hraise eq_refl).
  - split; [split; discriminate|]. intros _.
    now rewrite (proj1 Hraise eq_refl).
Qed.

(** C4, counterexample.  With a bcrypt that hashes the first 72 bytes of
    a password (every release before 5.0.0), a user registered with a
    password of 73 bytes is authenticated with a different password that
    has the same first 72 bytes. *)
Lemma C4_counterexample_truncated_password :
  Scenario.other_long_password <> Scenario.long_password
  /\ DatabaseHandler.get_user Scenario.started "alice" = None
  /\ snd (@DatabaseHandler.add_user bcrypt.toy Scenario.started
            (Scenario.salt_of "s1") "alice" Scenario.long_password "Student")
     = Returned true
  /\ @LoginFrame.authenticate bcrypt.toy
       (fst (@DatabaseHandler.add_user bcrypt.toy Scenario.started
               (Scenario.salt_of "s1") "alice" Scenario.long_password
               "Student"))
       "alice" Scenario.other_long_password
     = Returned (Some {| Session.id := 2;
                         Session.username := "alice";
                         Session.role := "Student" |}).
Proof.
  split; [vm_compute; discriminate|]. repeat split.
Qed.

(** C4, amended.  After [add_user] returned [True] for a username the
    store did not hold, the new row stores what [hashpw] returned for the
    encoded password under the salt of this call (the hash carries that
    salt; its digest is that of the first 72 bytes).  [authenticate] with
    the same username and password returns the id, username and role of
    the new row.  With any password it returns them exactly when [hashpw]
    gives that password, under the same salt, the hash it gave the
    registered one; otherwise it returns [None], or raises ValueError when
    the installed bcrypt refuses the password. *)
Theorem C4_register_then_authenticate `{bcrypt.kdf} (d d' : database)
    (gensalt : list byte) (name pw role : string) :
  DatabaseHandler.get_user d name = None ->
  DatabaseHandler.add_user d gensalt name pw role = (d', Returned true) ->
  exists u,
    let session := {| Session.id := Users.id u;
                      Session.username := name;
                      Session.role := role |} in
    rows (users d') = rows (users d) ++ [u]
    /\ bcrypt.hashpw (Py.encode pw) gensalt = Some (Users.password u)
    /\ bcrypt.salt (Users.password u) = gensalt
    /\ bcrypt.checksum (Users.password u)
       = bcrypt.digest gensalt (firstn 72 (Py.encode pw))
    /\ LoginFrame.authenticate d' name pw = Returned (Some session)
    /\ forall pw',
         (LoginFrame.authenticate d' name pw' = Returned (Some session)
          <-> bcrypt.hashpw (Py.encode pw') gensalt
              = bcrypt.hashpw (Py.encode pw) gensalt)
         /\ (bcrypt.hashpw (Py.encode pw') gensalt
             <> bcrypt.hashpw (Py.encode pw) gensalt ->
             LoginFrame.authenticate d' name pw'
             = if bcrypt.refused (Py.encode pw')
               then Raised ValueError else Returned None).
Proof.
  intros Hfree Hadd.
  apply add_user_true in Hadd as (_ & _ & hashed & Hhash & ->).
  set (u := {| Users.id := sqlite3.next_rowid Users.id (users d);
               Users.username := name;
               Users.password := hashed;
               Users.role := role |}).
  set (d' := {| users := _; courses := _; enrollments := _ |}).
  assert (Hfound : DatabaseHandler.get_user d' name = Some u)
    by (apply get_user_appended; auto).
  destruct (hashpw_returned _ _ _ Hhash) as (_ & Hsalt & Hsum).
  exists u. cbn zeta.
  split; [reflexivity|]. split; [exact Hhash|].
  split; [exact Hsalt|]. split; [exact Hsum|].
  assert (Hwho : forall pw',
            (LoginFrame.authenticate d' name pw'
             = Returned (Some {| Session.id := Users.id u;
                                 Session.username := name;
                                 Session.role := role |})
             <-> bcrypt.hashpw (Py.encode pw') gensalt = Some hashed)
            /\ (bcrypt.hashpw (Py.encode pw') gensalt <> Some hashed ->
                LoginFrame.authenticate d' name pw'
                = if bcrypt.refused (Py.encode pw')
                  then Raised ValueError else Returned None)).
  { intros pw'.
    pose proof (authenticate_stored_hash d' name pw' u Hfound) as Hstored.
    cbn zeta in Hstored. cbn [u Users.password Users.id Users.username
                               Users.role] in Hstored.
    now rewrite Hsalt in Hstored. }
  split.
  - now apply Hwho.
  - intros pw'. rewrite Hhash. apply Hwho.
Qed.

Lemma C4_witness :
  DatabaseHandler.get_user Scenario.started "alice" = None
  /\ exists u,
       @bcrypt.hashpw bcrypt.toy (Py.encode "wonderland")
                      (Scenario.salt_of "s1")
       = Some (Users.password u)
       /\ @LoginFrame.authenticate bcrypt.toy
            (fst (@DatabaseHandler.add_user bcrypt.toy Scenario.started
                    (Scenario.salt_of "s1") "alice" "wonderland" "Student"))
            "alice" "wonderland"
          = Returned (Some {| Session.id := Users.id u;
                              Session.username := "alice";
                              Session.role := "Student" |})
       /\ @LoginFrame.authenticate bcrypt.toy
            (fst (@DatabaseHandler.add_user bcrypt.toy Scenario.started
                    (Scenario.salt_of "s1") "alice" "wonderland" "Student"))
            "alice" "Wonderland"
          = Returned None.
Proof.
  split; [reflexivity|].
  destruct (@C4_register_then_authenticate bcrypt.toy Scenario.started
              (fst (@DatabaseHandler.add_user bcrypt.toy Scenario.started
                      (Scenario.salt_of "s1") "alice" "wonderland" "Student"))
              (Scenario.salt_of "s1") "alice" "wonderland" "Student"
              eq_refl eq_refl)
    as (u & _ & Hpw & _ & _ & Hok & Hothers).
  exists u. split; [exact Hpw|]. split; [exact Hok|].
  destruct (Hothers "Wonderland"%string) as [_ Hwrong].
  apply Hwrong. vm_compute. discriminate.
Defined.

(* ================================================================== *)
(** ** The default admin *)

(** C2, counterexample.  [Scenario.squatted] has no Admin row, yet
    [setup_database] seeds nothing there: the username "admin" is taken by
    a student, the INSERT violates UNIQUE and the IntegrityError leaves the
    method. *)
Lemma C2_counterexample_name_taken :
  admins Scenario.squatted = []
  /\ @DatabaseHandler.setup_database bcrypt.toy Scenario.squatted
       (Scenario.salt_of "s0")
     = Raised (IntegrityError sqlite3.UNIQUE_users_username).
Proof. split; reflexivity. Qed.

(** C2, amended.  From a store with no Admin row and no user named
    "admin", [setup_database] appends one row (admin, hashpw of "admin123",
    Admin), which is then the only Admin row, and [login] with "admin" and
    "admin123" right afterwards sets the session to that row's id, username
    and role Admin.  From a store with an Admin row, [setup_database]
    returns the store unchanged. *)
Theorem C2_setup_database_seeds_admin `{bcrypt.kdf} (d : database)
    (gensalt : list byte) :
  (admins d = [] ->
   DatabaseHandler.get_user d "admin" = None ->
   exists d' u,
     DatabaseHandler.setup_database d gensalt = Returned d'
     /\ rows (users d') = rows (users d) ++ [u]
     /\ Users.username u = "admin"%string
     /\ bcrypt.hashpw (Py.encode "admin123") gensalt = Some (Users.password u)
     /\ Users.role u = "Admin"%string
     /\ admins d' = [u]
     /\ LoginFrame.authenticate d' "admin" "admin123"
        = Returned (Some {| Session.id := Users.id u;
                            Session.username := "admin";
                            Session.role := "Admin" |})
     /\ LoginFrame.login {| db := d'; current_user := None |}
                         "admin" "admin123"
        = ({| db := d';
              current_user :=
                Some {| Session.id := Users.id u;
                        Session.username := "admin";
                        Session.role := "Admin" |} |},
           Shows (showinfo "Login Successful" "Welcome, admin!")))
  /\ (admins d <> [] ->
      DatabaseHandler.setup_database d gensalt = Returned d).
Proof.
  split.
  - intros Hnone Hfree.
    assert (Hhash : bcrypt.hashpw (Py.encode "admin123") gensalt
                    = Some {| bcrypt.salt := gensalt;
                              bcrypt.checksum :=
                                bcrypt.digest gensalt (Py.encode "admin123") |})
      by reflexivity.
    set (hashed := {| bcrypt.salt := gensalt; bcrypt.checksum := _ |})
      in Hhash.
    set (u := {| Users.id := sqlite3.next_rowid Users.id (users d);
                 Users.username := "admin";
                 Users.password := hashed;
                 Users.role := "Admin" |}).
    set (d' := {| users := {| rows := rows (users d) ++ [u];
                              sqlite_sequence :=
                                sqlite3.next_rowid Users.id (users d) |};
                  courses := courses d;
                  enrollments := enrollments d |}).
    assert (Hfound : DatabaseHandler.get_user d' "admin" = Some u)
      by (apply get_user_appended; auto).
    assert (Hauth : LoginFrame.authenticate d' "admin" "admin123"
                    = Returned (Some {| Session.id := Users.id u;
                                        Session.username := "admin";
                                        Session.role := "Admin" |})).
    { rewrite (authenticate_found d' _ _ u Hfound).
      unfold u at 1. cbn [Users.password].
      now rewrite (checkpw_hashpw _ _ _ Hhash). }
    exists d', u. split.
    { unfold DatabaseHandler.setup_database. unfold admins in Hnone.
      rewrite Hnone. cbn [sqlite3.fetchone hd_error].
      now rewrite Hhash, insert_user_fresh. }
    split; [reflexivity|]. split; [reflexivity|]. split; [exact Hhash|].
    split; [reflexivity|]. split.
    { unfold admins in *. unfold d'. cbn [users rows].
      rewrite filter_app, Hnone. reflexivity. }
    split; [exact Hauth|].
    unfold LoginFrame.login.
    change (Py.strip "admin") with "admin"%string.
    change (Py.strip "admin123") with "admin123"%string.
    cbn [Py.is_empty orb db]. rewrite Hauth. reflexivity.
  - intros Hsome. unfold DatabaseHandler.setup_database.
    unfold admins in Hsome.
    destruct (filter _ _); [contradiction|reflexivity].
Qed.

Lemma C2_witness :
  (exists d' u,
     @DatabaseHandler.setup_database bcrypt.toy empty_database
       (Scenario.salt_of "s0") = Returned d'
     /\ admins d' = [u]
     /\ @LoginFrame.authenticate bcrypt.toy d' "admin" "admin123"
        = Returned (Some {| Session.id := Users.id u;
                            Session.username := "admin";
                            Session.role := "Admin" |}))
  /\ @DatabaseHandler.setup_database bcrypt.toy Scenario.started
       (Scenario.salt_of "s5")
     = Returned Scenario.started.
Proof.
  split.
  - destruct (proj1 (@C2_setup_database_seeds_admin bcrypt.toy empty_database
                       (Scenario.salt_of "s0")) eq_refl eq_refl)
      as (d' & u & Hrun & _ & _ & _ & _ & Hadm & Hauth & _).
    exists d', u. auto.
  - apply (proj2 (@C2_setup_database_seeds_admin bcrypt.toy Scenario.started
                    (Scenario.salt_of "s5"))).
    discriminate.
Defined.

(* ================================================================== *)
(** ** Updates of [users] by id *)

Lemma filter_map_commute {A : Type} (keep : A -> bool) (f : A -> A)
    (l : list A) :
  (forall x, keep (f x) = keep x) ->
  filter keep (map f l) = map f (filter keep l).
Proof.
  intros Hkeep. induction l as [|a l IH]; simpl; [reflexivity|].
  rewrite Hkeep. destruct (keep a); simpl; now rewrite IH.
Qed.

Lemma hd_error_map {A B : Type} (f : A -> B) (l : list A) :
  hd_error (map f l) = option_map f (hd_error l).
Proof. now destruct l. Qed.

(** An UPDATE that leaves usernames alone does not change which row
    [get_user] finds. *)
Lemma get_user_update_where (d : database) (cond : Users.row -> bool)
    (set : Users.row -> Users.row) (name : string) :
  (forall u, Users.username (set u) = Users.username u) ->
  DatabaseHandler.get_user
    {| users := sqlite3.update_where cond set (users d);
       courses := courses d;
       enrollments := enrollments d |} name
  = option_map (fun u => if cond u then set u else u)
               (DatabaseHandler.get_user d name).
Proof.
  intros Hname. unfold DatabaseHandler.get_user, sqlite3.fetchone. simpl.
  rewrite filter_map_commute, hd_error_map; [reflexivity|].
  intros u. destruct (cond u); [now rewrite Hname | reflexivity].
Qed.

Lemma NoDup_map_injective {A B : Type} (f : A -> B) (l : list A) (x y : A) :
  NoDup (map f l) -> In x l -> In y l -> f x = f y -> x = y.
Proof.
  induction l as [|a l IH]; simpl; [tauto|].
  intros Hnd Hx Hy E. inversion Hnd as [|? ? Hnotin Hnd']; subst.
  destruct Hx as [->|Hx], Hy as [->|Hy]; auto.
  - exfalso. apply Hnotin. rewrite E. now apply in_map.
  - exfalso. apply Hnotin. rewrite <- E. now apply in_map.
Qed.

Lemma in_get_all_users (d : database) (i : Z) (name role : string) :
  In (i, name, role) (DatabaseHandler.get_all_users d) ->
  exists u, In u (rows (users d))
            /\ Users.id u = i /\ Users.username u = name /\ Users.role u = role.
Proof.
  unfold DatabaseHandler.get_all_users. intros Hin.
  apply in_map_iff in Hin as (u & E & Hu). injection E as <- <- <-.
  now exists u.
Qed.

(* ================================================================== *)
(** ** Changing the password *)


(** The same with two passwords that differ: with a bcrypt that hashes
    the first 72 bytes, the old password still authenticates after a
    change to one that shares them. *)
Example change_password_truncated :
  Scenario.long_password <> Scenario.other_long_password
  /\ let changed :=
       @ProfileFrame.change_password bcrypt.toy
         {| db := Scenario.started;
            current_user := Some Scenario.admin_session |}
         (Scenario.salt_of "s7") "admin123" Scenario.long_password
         Scenario.long_password in
     let changed_again :=
       @ProfileFrame.change_password bcrypt.toy (fst changed)
         (Scenario.salt_of "s8") Scenario.long_password
         Scenario.other_long_password Scenario.other_long_password in
     snd changed_again
     = Shows (showinfo "Success" "Password has been updated successfully.")
     /\ @LoginFrame.authenticate bcrypt.toy (db (fst changed_again))
          "admin" Scenario.long_password
        = Returned (Some Scenario.admin_session).
Proof. split; [vm_compute; discriminate|]. repeat split. Qed.



(* ================================================================== *)
(** ** Promotion *)

(** The role cell is read back as the str Student exactly when it holds
    that text. *)
Lemma role_cell_is_student (role_cell : string) :
  ttk.equals_str (ttk.convert_stringval role_cell) "Student"
  = (role_cell =? "Student")%string.
Proof.
  unfold ttk.convert_stringval.
  destruct (Py.int role_cell) as [n|] eqn:E; [|reflexivity].
  cbn [ttk.equals_str]. symmetry. apply String.eqb_neq.
  intros ->. discriminate.
Qed.

(** C6.  The administrator selects a row of the users list.
    - Its role is Student: the handler reports success (naming the user
      as the tree gives the name back), every row with that id now has
      role Instructor, every other row is unchanged, and wherever
      [authenticate] returned that user before it now returns the same
      identity with role Instructor.
    - Its role is anything else (Instructor, Admin): "Only students can be
      promoted to instructors.", state unchanged. *)
Theorem C6_promote_user `{bcrypt.kdf} (controller : E_LearningApp)
    (user_id : Z) (name role : string) :
  keys_hold (db controller) ->
  In (user_id, name, role) (DatabaseHandler.get_all_users (db controller)) ->
  let result :=
    AdminDashboard.promote_user controller (Some (user_id, name, role)) in
  (role = "Student"%string ->
   snd result
   = Shows (showinfo "Success"
              ("User '" ++ ttk.format (ttk.convert_stringval name)
               ++ "' has been promoted to Instructor.")%string)
   /\ rows (users (db (fst result)))
      = map (fun u => if Users.id u =? user_id
                      then AdminDashboard.set_role "Instructor" u else u)
            (rows (users (db controller)))
   /\ In (user_id, name, "Instructor"%string)
         (DatabaseHandler.get_all_users (db (fst result)))
   /\ forall pw s,
        LoginFrame.authenticate (db controller) name pw = Returned (Some s) ->
        LoginFrame.authenticate (db (fst result)) name pw
        = Returned (Some {| Session.id := user_id;
                            Session.username := name;
                            Session.role := "Instructor" |}))
  /\ (role <> "Student"%string ->
      result
      = (controller,
         Shows (showerror "Error"
                          "Only students can be promoted to instructors."))).
Proof.
  intros Hkeys Hsel result. subst result.
  unfold AdminDashboard.promote_user. cbn zeta.
  rewrite role_cell_is_student. split.
  - intros ->. cbn [String.eqb Ascii.eqb Bool.eqb negb fst snd].
    unfold with_db. cbn [db users rows sqlite3.update_where].
    apply in_get_all_users in Hsel as (u & Hu & Hid & Hname & Hrole).
    split; [reflexivity|]. split; [reflexivity|]. split.
    + unfold DatabaseHandler.get_all_users. cbn [users rows].
      apply in_map_iff.
      exists (AdminDashboard.set_role "Instructor" u). split.
      * cbn. now rewrite Hid, Hname.
      * apply in_map_iff. exists u. split; [|assumption].
        now rewrite Hid, Z.eqb_refl.
    + intros pw s Hauth. unfold LoginFrame.authenticate in *.
      rewrite (get_user_update_where (db controller)
                 (fun v => Users.id v =? user_id)
                 (AdminDashboard.set_role "Instructor") name)
        by reflexivity.
      destruct (DatabaseHandler.get_user (db controller) name) as [v|] eqn:Ev;
        [|discriminate].
      apply get_user_Some in Ev as [Hv Hvname].
      assert (v = u) as ->.
      { apply (NoDup_map_injective Users.username
                 (rows (users (db controller)))); auto.
        - apply Hkeys.
        - congruence. }
      cbn [option_map]. rewrite Hid, Z.eqb_refl.
      cbn [AdminDashboard.set_role Users.password Users.id Users.username
           Users.role].
      destruct (bcrypt.checkpw _ _) as [[|]|]; try discriminate.
      now rewrite Hid, Hname.
  - intros Hne. apply String.eqb_neq in Hne. now rewrite Hne.
Qed.

Lemma C6_witness :
  @LoginFrame.authenticate bcrypt.toy
    (db (fst (AdminDashboard.promote_user
                {| db := Scenario.registered;
                   current_user := Some Scenario.admin_session |}
                (Some (2, "alice"%string, "Student"%string)))))
    "alice" "wonderland"
  = Returned (Some {| Session.id := 2;
                      Session.username := "alice";
                      Session.role := "Instructor" |})
  /\ AdminDashboard.promote_user
       {| db := Scenario.registered;
          current_user := Some Scenario.admin_session |}
       (Some (4, "carol"%string, "Instructor"%string))
     = ({| db := Scenario.registered;
           current_user := Some Scenario.admin_session |},
        Shows (showerror "Error"
                         "Only students can be promoted to instructors.")).
Proof.
  pose proof registered_keys_hold as Hkeys.
  split.
  - destruct (@C6_promote_user bcrypt.toy
                {| db := Scenario.registered;
                   current_user := Some Scenario.admin_session |}
                2 "alice" "Student" Hkeys) as [Hstudent _].
    + vm_compute. tauto.
    + destruct (Hstudent eq_refl) as (_ & _ & _ & Hauth).
      apply (Hauth "wonderland"%string
               {| Session.id := 2; Session.username := "alice";
                  Session.role := "Student" |}).
      reflexivity.
  - destruct (@C6_promote_user bcrypt.toy
                {| db := Scenario.registered;
                   current_user := Some Scenario.admin_session |}
                4 "carol" "Instructor" Hkeys) as [_ Hother].
    + vm_compute. tauto.
    + apply Hother. discriminate.
Defined.

(* ================================================================== *)
(** ** Deleting a user *)

(** DELETE by a key removes one row and keeps the order of the others. *)
Lemma delete_by_key {A : Type} (key : A -> Z) (l : list A) (x : A) :
  NoDup (map key l) -> In x l ->
  exists before after,
    l = before ++ x :: after
    /\ filter (fun r => negb (key r =? key x)) l = before ++ after.
Proof.
  intros Hnd Hin. apply in_split in Hin as (before & after & ->).
  exists before, after. split; [reflexivity|].
  rewrite map_app in Hnd. simpl in Hnd.
  pose proof (NoDup_remove_2 _ _ _ Hnd) as Hnotin.
  assert (Hkeep : forall m, (forall r, In r m -> ~ key r = key x) ->
                            filter (fun r => negb (key r =? key x)) m = m).
  { induction m as [|r m IH]; simpl; [reflexivity|]. intros Hm.
    destruct (key r =? key x) eqn:E.
    - apply Z.eqb_eq in E. exfalso. apply (Hm r); auto.
    - simpl. f_equal. apply IH. intros r' Hr'. apply Hm. now right. }
  rewrite filter_app. simpl. rewrite Z.eqb_refl. simpl.
  rewrite !Hkeep; [reflexivity| |].
  - intros r Hr E. apply Hnotin, in_or_app. right. rewrite <- E.
    now apply in_map.
  - intros r Hr E. apply Hnotin, in_or_app. left. rewrite <- E.
    now apply in_map.
Qed.

(** A username cell is read back as the session's name only when it
    holds that name, and then only when the name is no numeral. *)
Lemma username_cell_of_another (cell mine : string) :
  cell <> mine ->
  ttk.equals_str (ttk.convert_stringval cell) mine = false.
Proof.
  intros Hne. unfold ttk.convert_stringval.
  destruct (Py.int cell); [reflexivity|]. now apply String.eqb_neq.
Qed.

Lemma username_cell_of_mine (mine : string) :
  ttk.equals_str (ttk.convert_stringval mine) mine
  = match Py.int mine with
    | Some _ => false
    | None => true
    end.
Proof.
  unfold ttk.convert_stringval.
  destruct (Py.int mine); [reflexivity | apply String.eqb_refl].
Qed.

(** C8, at the failing input.  [Scenario.numeric_admin] is a file whose
    administrator is named 1234: the program starts on it without seeding
    anything, and 1234 logs in.  The users tree gives the name of the
    selected row back as the int 1234, which equals no str, so the guard
    of [delete_user] lets the administrator's own row through: once the
    deletion is confirmed the row is gone, with the session still open. *)
Theorem C8_numeric_admin_deletes_own_account :
  @DatabaseHandler.setup_database bcrypt.toy Scenario.numeric_admin
    (Scenario.salt_of "s0")
  = Returned Scenario.numeric_admin
  /\ let me := {| Session.id := 1; Session.username := "1234";
                  Session.role := "Admin" |} in
     @LoginFrame.login bcrypt.toy
       {| db := Scenario.numeric_admin; current_user := None |}
       "1234" "secret12"
     = ({| db := Scenario.numeric_admin; current_user := Some me |},
        Shows (showinfo "Login Successful" "Welcome, 1234!"))
     /\ DatabaseHandler.get_all_users Scenario.numeric_admin
        = [(1, "1234"%string, "Admin"%string);
           (2, "alice"%string, "Student"%string)]
     /\ ttk.convert_stringval "1234" = ttk.int_value 1234
     /\ AdminDashboard.delete_user
          {| db := Scenario.numeric_admin; current_user := Some me |}
          (Some (1, "1234"%string, "Admin"%string)) true
        = ({| db := DatabaseHandler.delete_user Scenario.numeric_admin 1;
              current_user := Some me |},
           Shows (showinfo "Success" "User '1234' has been deleted."))
     /\ DatabaseHandler.get_all_users
          (DatabaseHandler.delete_user Scenario.numeric_admin 1)
        = [(2, "alice"%string, "Student"%string)].
Proof. repeat split. Qed.

(** X29.  Where the guard of [delete_user] holds.  The session is that of a
    stored user whose name is no numeral (as "admin" is), and the
    administrator selects a row of the users list.
    - The row is the session's own: "You cannot delete your own account.",
      state unchanged, whatever the answer to the confirmation.
    - The row is another user's and the deletion is confirmed: exactly that
      row leaves [users]; the other rows keep their order; [courses] and
      [enrollments] are untouched; the message names the user as the tree
      gives the name back.
    - The row is another user's and the deletion is not confirmed: nothing
      happens. *)
Theorem delete_user_refuses_own_row (controller : E_LearningApp)
    (me : Session.t) (user_id : Z) (name role : string) :
  keys_hold (db controller) ->
  current_user controller = Some me ->
  Py.int (Session.username me) = None ->
  (exists r, In (Session.id me, Session.username me, r)
                (DatabaseHandler.get_all_users (db controller))) ->
  In (user_id, name, role) (DatabaseHandler.get_all_users (db controller)) ->
  (user_id = Session.id me ->
   forall askyesno,
     AdminDashboard.delete_user controller (Some (user_id, name, role))
                                askyesno
     = (controller,
        Shows (showerror "Error" "You cannot delete your own account.")))
  /\ (user_id <> Session.id me ->
      (exists before u after,
         rows (users (db controller)) = before ++ u :: after
         /\ Users.id u = user_id
         /\ Users.username u = name
         /\ Users.role u = role
         /\ AdminDashboard.delete_user controller
              (Some (user_id, name, role)) true
            = ({| db := {| users :=
                             {| rows := before ++ after;
                                sqlite_sequence :=
                                  sqlite_sequence (users (db controller)) |};
                           courses := courses (db controller);
                           enrollments := enrollments (db controller) |};
                  current_user := Some me |},
               Shows (showinfo "Success"
                        ("User '" ++ ttk.format (ttk.convert_stringval name)
                         ++ "' has been deleted.")%string)))
      /\ AdminDashboard.delete_user controller (Some (user_id, name, role))
                                    false
         = (controller, Quiet)).
Proof.
  intros Hkeys Hme Hnamed [r Hmine] Hsel.
  apply in_get_all_users in Hmine as (m & Hm & Hmid & Hmname & _).
  apply in_get_all_users in Hsel as (u & Hu & Hid & Hname & Hrole).
  unfold AdminDashboard.delete_user. cbn zeta. rewrite Hme. split.
  - intros Hsame askyesno.
    assert (u = m) as ->.
    { apply (NoDup_map_injective Users.id (rows (users (db controller))));
        auto; [apply Hkeys | congruence]. }
    assert (name = Session.username me) as -> by congruence.
    now rewrite username_cell_of_mine, Hnamed.
  - intros Hother.
    assert (E : ttk.equals_str (ttk.convert_stringval name)
                               (Session.username me) = false).
    { apply username_cell_of_another. intros Heq. apply Hother.
      assert (u = m) as ->; [|congruence].
      apply (NoDup_map_injective Users.username
               (rows (users (db controller)))); auto;
        [apply Hkeys | congruence]. }
    rewrite E. split; [|reflexivity].
    destruct (delete_by_key Users.id (rows (users (db controller))) u)
      as (before & after & Hsplit & Hfilter); auto; [apply Hkeys|].
    exists before, u, after. repeat (split; [assumption|]).
    unfold with_db, DatabaseHandler.delete_user, sqlite3.delete_where.
    rewrite Hme, <- Hid, Hfilter. reflexivity.
Qed.

Lemma delete_user_refuses_own_row_witness :
  AdminDashboard.delete_user
    {| db := Scenario.classroom; current_user := Some Scenario.admin_session |}
    (Some (1, "admin"%string, "Admin"%string)) true
  = ({| db := Scenario.classroom;
        current_user := Some Scenario.admin_session |},
     Shows (showerror "Error" "You cannot delete your own account."))
  /\ AdminDashboard.delete_user
       {| db := Scenario.classroom;
          current_user := Some Scenario.admin_session |}
       (Some (3, "bobby"%string, "Student"%string)) false
     = ({| db := Scenario.classroom;
           current_user := Some Scenario.admin_session |}, Quiet).
Proof.
  split.
  - apply (delete_user_refuses_own_row
             {| db := Scenario.classroom;
                current_user := Some Scenario.admin_session |}
             Scenario.admin_session 1 "admin" "Admin" classroom_keys_hold
             eq_refl eq_refl).
    + exists "Admin"%string. vm_compute. tauto.
    + vm_compute. tauto.
    + reflexivity.
  - apply (delete_user_refuses_own_row
             {| db := Scenario.classroom;
                current_user := Some Scenario.admin_session |}
             Scenario.admin_session 3 "bobby" "Student" classroom_keys_hold
             eq_refl eq_refl).
    + exists "Admin"%string. vm_compute. tauto.
    + vm_compute. tauto.
    + discriminate.
Defined.

(* ================================================================== *)
(** ** Progress for a whole course *)

(** The ids the SELECT of [update_progress] returns are those of the rows
    of the course whose student is in [users]. *)
Lemma enrolled_ids (d : database) (course_id x : Z) :
  In x (map fst (CourseDetailsFrame.enrolled d course_id))
  <-> exists e, In e (rows (enrollments d))
                /\ Enrollments.course_id e = course_id
                /\ student_exists d e = true
                /\ Enrollments.id e = x.
Proof.
  unfold CourseDetailsFrame.enrolled, student_exists.
  rewrite in_map_iff. split.
  - intros ([i n] & <- & Hin). apply in_flat_map in Hin as (e & He & Hin).
    apply filter_In in He as [He Hc]. apply Z.eqb_eq in Hc.
    apply in_map_iff in Hin as (u & E & Hu). injection E as <- <-.
    apply filter_In in Hu as [Hu Hs].
    exists e. repeat split; auto.
    apply existsb_exists. now exists u.
  - intros (e & He & Hc & Hs & <-).
    apply existsb_exists in Hs as (u & Hu & Hs).
    exists (Enrollments.id e, Users.username u). split; [reflexivity|].
    apply in_flat_map. exists e. split.
    + apply filter_In. split; [assumption|]. now apply Z.eqb_eq.
    + apply in_map_iff. exists u. split; [reflexivity|].
      apply filter_In. now split.
Qed.

(** The loop of UPDATEs, one per selected id, as one pass over the table. *)
Lemma update_all (progress : Z) (found : list (Z * string))
    (t : table Enrollments.row) :
  fold_left (CourseDetailsFrame.update_one progress) found t
  = {| rows := map (fun e =>
                      if existsb (fun x => Enrollments.id e =? fst x) found
                      then DatabaseHandler.set_progress progress e else e)
                   (rows t);
       sqlite_sequence := sqlite_sequence t |}.
Proof.
  revert t. induction found as [|x found IH]; intros t; simpl.
  - rewrite map_id. now destruct t.
  - rewrite IH. unfold CourseDetailsFrame.update_one, sqlite3.update_where.
    simpl. f_equal. rewrite map_map. apply map_ext. intros e.
    destruct (Enrollments.id e =? fst x); simpl; [|reflexivity].
    now destruct (existsb _ found).
Qed.

Lemma selected_iff_hit (d : database) (course_id : Z) (e : Enrollments.row) :
  NoDup (map Enrollments.id (rows (enrollments d))) ->
  In e (rows (enrollments d)) ->
  existsb (fun x => Enrollments.id e =? fst x)
          (CourseDetailsFrame.enrolled d course_id)
  = (Enrollments.course_id e =? course_id) && student_exists d e.
Proof.
  intros Hnd He. apply eq_true_iff_eq.
  rewrite existsb_exists, andb_true_iff, Z.eqb_eq. split.
  - intros (x & Hx & E). apply Z.eqb_eq in E.
    assert (Hid : In (Enrollments.id e)
                     (map fst (CourseDetailsFrame.enrolled d course_id)))
      by (rewrite E; now apply in_map).
    apply enrolled_ids in Hid as (e' & He' & Hc & Hs & Hsame).
    assert (e' = e) as ->
      by (apply (NoDup_map_injective Enrollments.id
                   (rows (enrollments d))); auto).
    now split.
  - intros [Hc Hs].
    assert (Hid : In (Enrollments.id e)
                     (map fst (CourseDetailsFrame.enrolled d course_id)))
      by (apply enrolled_ids; now exists e).
    apply in_map_iff in Hid as (x & E & Hx).
    exists x. split; [assumption|]. now apply Z.eqb_eq.
Qed.

Lemma enrolled_nil_iff (d : database) (course_id : Z) :
  CourseDetailsFrame.enrolled d course_id = []
  <-> filter (fun e => (Enrollments.course_id e =? course_id)
                       && student_exists d e)
             (rows (enrollments d)) = [].
Proof.
  rewrite filter_nil_iff. split.
  - intros Hnone e He.
    destruct ((Enrollments.course_id e =? course_id) && student_exists d e)
      eqn:Hit; [|reflexivity].
    apply andb_true_iff in Hit as [Hc Hs]. apply Z.eqb_eq in Hc.
    assert (Hid : In (Enrollments.id e)
                     (map fst (CourseDetailsFrame.enrolled d course_id)))
      by (apply enrolled_ids; now exists e).
    rewrite Hnone in Hid. destruct Hid.
  - intros Hall.
    destruct (CourseDetailsFrame.enrolled d course_id) as [|x l] eqn:E;
      [reflexivity|].
    assert (Hid : In (fst x)
                     (map fst (CourseDetailsFrame.enrolled d course_id)))
      by (rewrite E; now left).
    apply enrolled_ids in Hid as (e & He & Hc & Hs & _).
    specialize (Hall e He). apply Z.eqb_eq in Hc.
    rewrite Hc, Hs in Hall. discriminate.
Qed.

(** C7, counterexample.  In [Scenario.orphaned] course 1 has two
    enrollment rows: alice's, and the one bobby left behind when the
    administrator deleted him.  Setting the progress of course 1 to 75
    reports success for all enrolled students and leaves bobby's row at
    0. *)
Lemma C7_counterexample_orphaned_enrollment :
  rows (enrollments Scenario.orphaned)
  = [ {| Enrollments.id := 1; Enrollments.student_id := 2;
         Enrollments.course_id := 1; Enrollments.progress := 0 |};
      {| Enrollments.id := 2; Enrollments.student_id := 3;
         Enrollments.course_id := 1; Enrollments.progress := 0 |};
      {| Enrollments.id := 3; Enrollments.student_id := 2;
         Enrollments.course_id := 2; Enrollments.progress := 0 |} ]
  /\ CourseDetailsFrame.update_progress
       {| db := Scenario.orphaned; current_user := None |}
       "75" (Some (1, "Logic"%string, "10.00"%string))
     = ({| db :=
             {| users := users Scenario.orphaned;
                courses := courses Scenario.orphaned;
                enrollments :=
                  {| rows :=
                       [ {| Enrollments.id := 1; Enrollments.student_id := 2;
                            Enrollments.course_id := 1;
                            Enrollments.progress := 75 |};
                         {| Enrollments.id := 2; Enrollments.student_id := 3;
                            Enrollments.course_id := 1;
                            Enrollments.progress := 0 |};
                         {| Enrollments.id := 3; Enrollments.student_id := 2;
                            Enrollments.course_id := 2;
                            Enrollments.progress := 0 |} ];
                     sqlite_sequence := 3 |} |};
           current_user := None |},
        Shows (showinfo "Success"
                 "Progress updated to 75% for all enrolled students.")).
Proof. split; reflexivity. Qed.

(** What [int] does with a numeral of more than 4300 digits: ValueError,
    which leaves the handler. *)
Example progress_entry_over_the_limit :
  Py.len Scenario.long_entry = 4301
  /\ Py.isdigit Scenario.long_entry = true
  /\ Py.int Scenario.long_entry = None
  /\ CourseDetailsFrame.update_progress
       {| db := Scenario.classroom; current_user := None |}
       Scenario.long_entry (Some (1, "Logic"%string, "10.00"%string))
     = ({| db := Scenario.classroom; current_user := None |},
        Raises ValueError).
Proof. vm_compute. repeat split. Qed.

(** C7, amended.  The entry holds a numeral that [int] turns into a
    progress value between 0 and 100 (so one of at most 4300 digits), and a
    course is selected.  The rows the handler reaches are
    those of the course whose student is still a row of [users].
    - None: "No students enrolled in this course.", state unchanged.
    - Some: success; each such row gets the progress value, every other
      row of [enrollments] (those of other courses, and those of this
      course whose student is gone) is unchanged, and so are [users] and
      [courses]. *)
Theorem C7_update_progress_for_course (controller : E_LearningApp)
    (progress_entry : string) (progress : Z)
    (course_id : Z) (title price : string) :
  keys_hold (db controller) ->
  Py.isdigit (Py.strip progress_entry) = true ->
  Py.int (Py.strip progress_entry) = Some progress ->
  0 <= progress <= 100 ->
  let d := db controller in
  let reached e :=
    (Enrollments.course_id e =? course_id) && student_exists d e in
  let result :=
    CourseDetailsFrame.update_progress controller progress_entry
                                       (Some (course_id, title, price)) in
  (filter reached (rows (enrollments d)) = [] ->
   result
   = (controller,
      Shows (showinfo "Info" "No students enrolled in this course.")))
  /\ (filter reached (rows (enrollments d)) <> [] ->
      result
      = ({| db :=
              {| users := users d;
                 courses := courses d;
                 enrollments :=
                   {| rows :=
                        map (fun e =>
                               if reached e
                               then DatabaseHandler.set_progress progress e
                               else e)
                            (rows (enrollments d));
                      sqlite_sequence := sqlite_sequence (enrollments d) |} |};
            current_user := current_user controller |},
         Shows (showinfo "Success"
                  ("Progress updated to " ++ str progress
                   ++ "% for all enrolled students.")%string))).
Proof.
  intros Hkeys Hdigit Hint Hrange d reached result.
  subst result. unfold CourseDetailsFrame.update_progress.
  rewrite Hdigit, Hint. cbn [negb].
  assert (Hin : (0 <=? progress) && (progress <=? 100) = true)
    by (apply andb_true_iff; split; apply Z.leb_le; lia).
  rewrite Hin. cbn [negb]. fold d. split.
  - intros Hnone. apply enrolled_nil_iff in Hnone. now rewrite Hnone.
  - intros Hsome.
    destruct (CourseDetailsFrame.enrolled d course_id) as [|x l] eqn:E.
    { exfalso. apply Hsome. now apply enrolled_nil_iff. }
    rewrite <- E, update_all. unfold with_db. cbn [rows sqlite_sequence].
    do 4 f_equal. apply map_ext_in. intros e He.
    rewrite selected_iff_hit; [reflexivity | apply Hkeys | assumption].
Qed.

Lemma C7_witness :
  map Enrollments.progress
      (rows (enrollments
               (db (fst (CourseDetailsFrame.update_progress
                           {| db := Scenario.classroom; current_user := None |}
                           "75" (Some (1, "Logic"%string, "10.00"%string)))))))
  = [75; 75; 0]
  /\ CourseDetailsFrame.update_progress
       {| db := Scenario.classroom; current_user := None |}
       "75" (Some (7, "Absent"%string, "10.00"%string))
     = ({| db := Scenario.classroom; current_user := None |},
        Shows (showinfo "Info" "No students enrolled in this course.")).
Proof.
  split.
  - destruct (C7_update_progress_for_course
                {| db := Scenario.classroom; current_user := None |}
                "75" 75 1 "Logic" "10.00" classroom_keys_hold
                eq_refl eq_refl ltac:(lia)) as [_ Hsome].
    rewrite Hsome; [reflexivity | discriminate].
  - apply (C7_update_progress_for_course
             {| db := Scenario.classroom; current_user := None |}
             "75" 75 7 "Absent" "10.00" classroom_keys_hold
             eq_refl eq_refl ltac:(lia)).
    reflexivity.
Defined.

(* ================================================================== *)
(** ** The keys are kept *)

(** A DELETE keeps a key. *)
Lemma key_survives_delete {R K : Type} (key : R -> K) (kept : R -> bool)
    (table_rows : list R) (Hkey : NoDup (map key table_rows)) :
  NoDup (map key (filter kept table_rows)).
Proof.
  induction table_rows as [|r rest IH]; simpl; [constructor|].
  inversion Hkey as [|? ? Hnotin Hrest]; subst.
  destruct (kept r); simpl; [|auto]. constructor; [|auto].
  intros Hin. apply Hnotin. apply in_map_iff in Hin as (x & E & Hx).
  apply filter_In in Hx as [Hx _]. rewrite <- E. now apply in_map.
Qed.

Lemma map_key_update {A B : Type} (key : A -> B) (cond : A -> bool)
    (set : A -> A) (l : list A) :
  (forall x, key (set x) = key x) ->
  map key (map (fun r => if cond r then set r else r) l) = map key l.
Proof.
  intros Hkey. rewrite map_map. apply map_ext. intros r.
  now destruct (cond r).
Qed.

Lemma NoDup_map_snoc {A B : Type} (key : A -> B) (l : list A) (x : A) :
  NoDup (map key l) -> ~ In (key x) (map key l) ->
  NoDup (map key (l ++ [x])).
Proof. intros Hnd Hx. rewrite map_app. now apply NoDup_snoc. Qed.

Lemma name_not_in (d : database) (name : string) :
  DatabaseHandler.get_user d name = None ->
  ~ In name (map Users.username (rows (users d))).
Proof.
  intros Hfree Hin. apply get_user_None in Hfree. unfold users_named in Hfree.
  apply in_map_iff in Hin as (u & E & Hu).
  rewrite filter_nil_iff in Hfree. specialize (Hfree u Hu).
  apply String.eqb_neq in Hfree. contradiction.
Qed.

Lemma keys_hold_empty : keys_hold empty_database.
Proof. split; constructor. Qed.

Lemma insert_user_keeps_keys (d d' : database) (name : string)
    (hashed : bcrypt.hash) (role : string) :
  keys_hold d ->
  sqlite3.insert_user d name hashed role = sqlite3.Done d' ->
  keys_hold d'.
Proof.
  intros Hkeys. unfold sqlite3.insert_user.
  destruct (negb _); [discriminate|].
  destruct (existsb _ _) eqn:Ename; [discriminate|].
  intros E. injection E as <-.
  apply existsb_false_filter in Ename.
  assert (Hfree : DatabaseHandler.get_user d name = None)
    by (now apply get_user_None).
  destruct Hkeys. split; simpl; auto.
  - apply NoDup_map_snoc; [assumption|]. apply next_rowid_fresh.
  - apply NoDup_map_snoc; [assumption|]. now apply name_not_in.
Qed.

(** [add_user] writes only when it returns [True]. *)
Lemma add_user_not_true `{bcrypt.kdf} (d d' : database) (gensalt : list byte)
    (name pw role : string) (how : ended bool) :
  DatabaseHandler.add_user d gensalt name pw role = (d', how) ->
  how <> Returned true -> d' = d.
Proof.
  unfold DatabaseHandler.add_user.
  destruct (bcrypt.hashpw _ _); [|now intros [= <- <-]].
  destruct (sqlite3.insert_user _ _ _ _).
  - intros [= <- <-] Hnot. now contradiction Hnot.
  - now intros [= <- <-].
Qed.

Lemma add_user_keeps_keys `{bcrypt.kdf} (d : database) (gensalt : list byte)
    (name pw role : string) :
  keys_hold d ->
  keys_hold (fst (DatabaseHandler.add_user d gensalt name pw role)).
Proof.
  intros Hkeys. unfold DatabaseHandler.add_user.
  destruct (bcrypt.hashpw _ _) as [hashed|]; [|assumption].
  destruct (sqlite3.insert_user _ _ _ _) as [d'|] eqn:E; [|assumption].
  now apply (insert_user_keeps_keys d d' name hashed role).
Qed.

Lemma setup_database_keeps_keys `{bcrypt.kdf} (d d' : database)
    (gensalt : list byte) :
  keys_hold d ->
  DatabaseHandler.setup_database d gensalt = Returned d' ->
  keys_hold d'.
Proof.
  intros Hkeys. unfold DatabaseHandler.setup_database.
  destruct (sqlite3.fetchone _).
  - intros E. injection E as <-. assumption.
  - destruct (bcrypt.hashpw _ _) as [hashed|]; [|discriminate].
    destruct (sqlite3.insert_user _ _ _ _) as [d1|] eqn:E; [|discriminate].
    intros [= <-].
    now apply (insert_user_keeps_keys d d1 "admin" hashed "Admin").
Qed.

Lemma add_course_keeps_keys (d : database) (title description : string)
    (instructor_id : Z) (price : Q) :
  keys_hold d ->
  keys_hold (fst (DatabaseHandler.add_course d title description
                                             instructor_id price)).
Proof.
  intros Hkeys. unfold DatabaseHandler.add_course, sqlite3.insert_course.
  destruct (existsb _ _) eqn:E; simpl; [assumption|].
  destruct Hkeys. split; simpl; auto.
  - apply NoDup_map_snoc; [assumption|]. apply next_rowid_fresh.
  - apply NoDup_map_snoc; [assumption|]. intros Hin.
    apply in_map_iff in Hin as (c & Ec & Hc).
    apply existsb_false_filter in E. rewrite filter_nil_iff in E.
    specialize (E c Hc). apply String.eqb_neq in E. contradiction.
Qed.

Lemma enroll_student_keeps_keys (d : database) (student_id course_id : Z) :
  keys_hold d ->
  keys_hold (fst (DatabaseHandler.enroll_student d student_id course_id)).
Proof.
  intros Hkeys. rewrite enroll_student_inserts. simpl.
  destruct Hkeys. split; simpl; auto.
  apply NoDup_map_snoc; [assumption|]. apply next_rowid_fresh.
Qed.

Lemma delete_user_keeps_keys (d : database) (user_id : Z) :
  keys_hold d -> keys_hold (DatabaseHandler.delete_user d user_id).
Proof.
  intros Hkeys. destruct Hkeys.
  split; simpl; auto; now apply key_survives_delete.
Qed.

Lemma delete_course_keeps_keys (d : database) (course_id : Z) :
  keys_hold d -> keys_hold (DatabaseHandler.delete_course d course_id).
Proof.
  intros Hkeys. destruct Hkeys.
  split; simpl; auto; now apply key_survives_delete.
Qed.

Lemma update_progress_keeps_keys (d : database)
    (student_id course_id progress : Z) :
  keys_hold d ->
  keys_hold (DatabaseHandler.update_progress d student_id course_id progress).
Proof.
  intros Hkeys. destruct Hkeys. split; simpl; auto.
  now rewrite map_key_update.
Qed.

Lemma promote_user_keeps_keys (controller : E_LearningApp)
    (selected : option (Z * string * string)) :
  keys_hold (db controller) ->
  keys_hold (db (fst (AdminDashboard.promote_user controller selected))).
Proof.
  intros Hkeys. unfold AdminDashboard.promote_user.
  destruct selected as [[[user_id name] role]|]; simpl; [|assumption].
  destruct (negb _); simpl; [assumption|].
  destruct Hkeys. split; simpl; auto; now rewrite map_key_update.
Qed.

Lemma change_password_keeps_keys `{bcrypt.kdf} (controller : E_LearningApp)
    (gensalt : list byte) (current new confirm : string) :
  keys_hold (db controller) ->
  keys_hold (db (fst (ProfileFrame.change_password controller gensalt
                                                   current new confirm))).
Proof.
  intros Hkeys. unfold ProfileFrame.change_password.
  destruct (_ || _); simpl; [assumption|].
  destruct (current_user controller); simpl; [|assumption].
  destruct (DatabaseHandler.get_user _ _); simpl; [|assumption].
  destruct (bcrypt.checkpw _ _) as [[|]|]; simpl; try assumption.
  destruct (_ <? _); simpl; [assumption|].
  destruct (negb (_ =? _)%string); simpl; [assumption|].
  destruct (bcrypt.hashpw _ _); simpl; [|assumption].
  destruct Hkeys. split; simpl; auto; now rewrite map_key_update.
Qed.

Lemma course_progress_keeps_keys (controller : E_LearningApp)
    (progress_entry : string) (selected : option (Z * string * string)) :
  keys_hold (db controller) ->
  keys_hold (db (fst (CourseDetailsFrame.update_progress
                        controller progress_entry selected))).
Proof.
  intros Hkeys. unfold CourseDetailsFrame.update_progress.
  destruct (negb (Py.isdigit _)); simpl; [assumption|].
  destruct (Py.int _); simpl; [|assumption].
  destruct (negb _); simpl; [assumption|].
  destruct selected as [[[course_id title] price]|]; simpl; [|assumption].
  destruct (CourseDetailsFrame.enrolled _ _); [assumption|].
  rewrite update_all.
  destruct Hkeys. split; cbn -[existsb]; auto.
  now rewrite !map_key_update.
Qed.

(** Every state the program reaches satisfies the declared keys. *)
Theorem reachable_keys_hold `{bcrypt.kdf} (c : E_LearningApp) :
  reachable c -> keys_hold (db c).
Proof.
  induction 1 as [gensalt d Hstart | c c' Hreach IH Hstep].
  - apply (setup_database_keeps_keys empty_database d gensalt);
      [apply keys_hold_empty | assumption].
  - destruct Hstep; cbn [db with_db fst].
    + unfold LoginFrame.login. destruct (_ || _); [assumption|].
      now destruct (LoginFrame.authenticate _ _ _) as [[user|]|e].
    + assumption.
    + unfold RegisterFrame.register.
      destruct (_ || _); [assumption|].
      destruct (_ <? _); [assumption|].
      destruct (_ <? _); [assumption|].
      destruct (negb _); [assumption|].
      pose proof (add_user_keeps_keys (db c) gensalt
                    (Py.strip username_entry) (Py.strip password_entry)
                    (Py.strip role) IH) as Hkept.
      destruct (DatabaseHandler.add_user _ _ _ _ _) as [d' ok].
      now destruct ok as [[|]|e].
    + unfold StudentDashboard.enroll_course.
      destruct selected as [[[[course_id course_title] ?] ?]|];
        [|assumption].
      destruct (current_user c) as [user|]; [|assumption].
      pose proof (enroll_student_keeps_keys (db c) (Session.id user)
                    course_id IH) as Hkept.
      destruct (DatabaseHandler.enroll_student _ _ _) as [d' ok].
      now destruct ok.
    + now apply add_course_keeps_keys.
    + now apply delete_course_keeps_keys.
    + unfold AdminDashboard.delete_user.
      destruct selected as [[[user_id username] role]|]; [|assumption].
      cbn zeta. destruct (current_user c); [|assumption].
      destruct (ttk.equals_str _ _); [assumption|].
      destruct askyesno; [|assumption].
      now apply delete_user_keeps_keys.
    + now apply promote_user_keeps_keys.
    + now apply course_progress_keeps_keys.
    + now apply change_password_keeps_keys.
    + now apply (setup_database_keeps_keys (db c) d gensalt).
Qed.

(** The classroom, with the administrator logged in, is a state of a run:
    first start, three registrations, two courses, three enrollments. *)
Lemma classroom_reachable :
  @reachable bcrypt.toy
    {| db := Scenario.classroom; current_user := Some Scenario.admin_session |}.
Proof.
  pose proof (@reachable_start bcrypt.toy (Scenario.salt_of "s0")
                Scenario.started eq_refl) as R.
  pose proof (reachable_step _ _ R
    (step_register _ (Scenario.salt_of "s1")
       "alice" "wonderland" "wonderland" "Student" (or_introl eq_refl)))
    as R1.
  pose proof (reachable_step _ _ R1
    (step_register _ (Scenario.salt_of "s2")
       "bobby" "builder1" "builder1" "Student" (or_introl eq_refl)))
    as R2.
  pose proof (reachable_step _ _ R2
    (step_register _ (Scenario.salt_of "s3")
       "carol" "christmas" "christmas" "Instructor" (or_intror eq_refl)))
    as R3.
  pose proof (reachable_step _ _ R3
    (step_add_course _ "Logic" "Proofs" 4 (10 # 1))) as R4.
  pose proof (reachable_step _ _ R4
    (step_add_course _ "Sets" "Collections" 4 (0 # 1))) as R5.
  pose proof (reachable_step _ _ R5
    (step_login _ "alice" "wonderland")) as R6.
  pose proof (reachable_step _ _ R6
    (step_enroll_course _
       (Some (1, "Logic", "carol", "10.00")%string))) as R7.
  pose proof (reachable_step _ _ R7
    (step_login _ "bobby" "builder1")) as R8.
  pose proof (reachable_step _ _ R8
    (step_enroll_course _
       (Some (1, "Logic", "carol", "10.00")%string))) as R9.
  pose proof (reachable_step _ _ R9
    (step_login _ "alice" "wonderland")) as R10.
  pose proof (reachable_step _ _ R10
    (step_enroll_course _
       (Some (2, "Sets", "carol", "0.00")%string))) as R11.
  pose proof (reachable_step _ _ R11
    (step_login _ "admin" "admin123")) as R12.
  exact R12.
Qed.

(** So is the store in which bobby's enrollment outlived him. *)
Lemma orphaned_reachable :
  @reachable bcrypt.toy
    {| db := Scenario.orphaned; current_user := Some Scenario.admin_session |}.
Proof.
  refine (reachable_step _ _ classroom_reachable
            (step_delete_user _ (Some (3, "bobby", "Student")%string) true
                              _ _)).
  - now exists Scenario.admin_session.
  - intros row E. injection E as <-. vm_compute. tauto.
Qed.

(* ================================================================== *)
(** ** The session is a stored user *)

Lemma authenticate_stored `{bcrypt.kdf} (d : database) (name pw : string)
    (me : Session.t) :
  LoginFrame.authenticate d name pw = Returned (Some me) ->
  In (Session.id me, Session.username me, Session.role me)
     (DatabaseHandler.get_all_users d).
Proof.
  unfold LoginFrame.authenticate.
  destruct (DatabaseHandler.get_user d name) as [u|] eqn:Eu; [|discriminate].
  destruct (bcrypt.checkpw _ _) as [[|]|]; try discriminate.
  intros E. injection E as <-. simpl.
  apply get_user_Some in Eu as [Hu _].
  unfold DatabaseHandler.get_all_users. apply in_map_iff. now exists u.
Qed.

Lemma stored_after_update (d : database) (cond : Users.row -> bool)
    (set : Users.row -> Users.row) (i : Z) (name r : string) :
  (forall u, Users.id (set u) = Users.id u) ->
  (forall u, Users.username (set u) = Users.username u) ->
  In (i, name, r) (DatabaseHandler.get_all_users d) ->
  exists r',
    In (i, name, r')
       (DatabaseHandler.get_all_users
          {| users := sqlite3.update_where cond set (users d);
             courses := courses d;
             enrollments := enrollments d |}).
Proof.
  intros Hid Hname Hin.
  apply in_get_all_users in Hin as (u & Hu & <- & <- & _).
  exists (Users.role (if cond u then set u else u)).
  unfold DatabaseHandler.get_all_users. simpl. rewrite map_map.
  apply in_map_iff. exists u. split; [|assumption].
  destruct (cond u); [|reflexivity]. now rewrite Hid, Hname.
Qed.

Lemma stored_after_add_user `{bcrypt.kdf} (d : database) (gensalt : list byte)
    (name pw role : string) (x : Z * string * string) :
  In x (DatabaseHandler.get_all_users d) ->
  In x (DatabaseHandler.get_all_users
          (fst (DatabaseHandler.add_user d gensalt name pw role))).
Proof.
  intros Hin. unfold DatabaseHandler.add_user, sqlite3.insert_user.
  destruct (bcrypt.hashpw _ _); [|assumption].
  destruct (negb _); [assumption|].
  destruct (existsb _ _); [assumption|].
  unfold DatabaseHandler.get_all_users in *. simpl.
  rewrite map_app. apply in_or_app. now left.
Qed.

(* ================================================================== *)
(** ** One administrator *)

Lemma one_admin_same_users (c c' : E_LearningApp) :
  users (db c') = users (db c) ->
  current_user c' = current_user c ->
  one_admin c -> one_admin c'.
Proof.
  intros Hu Hs [Hrow Hname Hsession].
  split; rewrite ?Hu, ?Hs; assumption.
Qed.

Lemma one_admin_no_session (c : E_LearningApp) :
  one_admin c -> one_admin {| db := db c; current_user := None |}.
Proof.
  intros [Hrow Hname Hsession]. split; auto.
  intros me Hme. discriminate.
Qed.

(** An UPDATE of [users] that keeps usernames, creates no Admin and spares
    the Admin rows keeps the administrator. *)
Lemma one_admin_update (c : E_LearningApp) (cond : Users.row -> bool)
    (set : Users.row -> Users.row) :
  (forall u, Users.username (set u) = Users.username u) ->
  (forall u, Users.role (set u) = "Admin"%string ->
             Users.role u = "Admin"%string) ->
  (forall u, In u (rows (users (db c))) -> cond u = true ->
             Users.role u = "Admin"%string ->
             Users.role (set u) = "Admin"%string) ->
  one_admin c ->
  one_admin
    (with_db c {| users := sqlite3.update_where cond set (users (db c));
                  courses := courses (db c);
                  enrollments := enrollments (db c) |}).
Proof.
  intros Hname Hnew Hspared [Hrow Hadm Hsession]. split; simpl.
  - destruct Hrow as (u & Hu & Hun & Hur).
    exists (if cond u then set u else u). split; [|split].
    + apply in_map_iff. now exists u.
    + destruct (cond u); [now rewrite Hname | assumption].
    + destruct (cond u) eqn:E; [auto | assumption].
  - intros u' Hu' Hrole. apply in_map_iff in Hu' as (u & <- & Hu).
    destruct (cond u).
    + rewrite Hname. apply Hadm; auto.
    + now apply Hadm.
  - assumption.
Qed.

(** In every state the program reaches there is an administrator, and it
    is the user admin. *)
Theorem reachable_one_admin `{bcrypt.kdf} (c : E_LearningApp) :
  reachable c -> one_admin c.
Proof.
  induction 1 as [gensalt d Hstart | c c' Hreach IH Hstep].
  - unfold DatabaseHandler.setup_database in Hstart. simpl in Hstart.
    injection Hstart as <-. split; simpl.
    + eexists. split; [now left|]. split; reflexivity.
    + intros u [<-|[]] _. reflexivity.
    + intros me Hme. discriminate.
  - pose proof (reachable_keys_hold c Hreach) as Hkeys.
    destruct Hstep as
      [ c username_entry password_entry
      | c
      | c gensalt username_entry password_entry confirm_entry role Hrole
      | c selected
      | c title description instructor_id price
      | c course_id
      | c selected askyesno Hadmin Hselected
      | c selected Hadmin Hselected
      | c progress_entry selected
      | c gensalt current_entry new_entry confirm_entry
      | c gensalt d Hrestart ].
    + unfold LoginFrame.login. destruct (_ || _); [assumption|].
      destruct (LoginFrame.authenticate _ _ _) as [[user|]|e] eqn:E;
        [|assumption|assumption].
      destruct IH as [Hrow Hadm Hsession]. split; simpl; auto.
      intros me Hme Hmerole. injection Hme as <-.
      pose proof (authenticate_stored _ _ _ _ E) as Hstored.
      apply in_get_all_users in Hstored as (u & Hu & _ & <- & Hur).
      apply Hadm; [assumption | congruence].
    + now apply one_admin_no_session.
    + unfold RegisterFrame.register.
      destruct (_ || _); [assumption|].
      destruct (_ <? _); [assumption|].
      destruct (_ <? _); [assumption|].
      destruct (negb _); [assumption|].
      destruct (DatabaseHandler.add_user _ _ _ _ _) as [d' ok] eqn:E.
      assert (Hafter : one_admin (with_db c d')).
      { assert (Hcases : ok = Returned true \/ ok <> Returned true)
          by (destruct ok as [[|]|e]; [now left | right; discriminate ..]).
        destruct Hcases as [-> | Hnot].
        - apply add_user_true in E as (_ & _ & hashed & _ & ->).
          destruct IH as [Hrow Hadm Hsession]. split; simpl; auto.
          + destruct Hrow as (u & Hu & Hun & Hur). exists u.
            split; [apply in_or_app; now left | now split].
          + intros u Hu Hur. apply in_app_or in Hu as [Hu|[<-|[]]].
            * now apply Hadm.
            * simpl in Hur. exfalso.
              destruct Hrole as [-> | ->]; discriminate.
        - apply add_user_not_true in E as ->; [|assumption].
          now destruct c. }
      now destruct ok as [[|]|e].
    + unfold StudentDashboard.enroll_course.
      destruct selected as [[[[course_id course_title] ?] ?]|];
        [|assumption].
      destruct (current_user c) as [user|]; [|assumption].
      rewrite enroll_student_inserts.
      now apply (one_admin_same_users c).
    + apply (one_admin_same_users c); [|reflexivity|assumption].
      unfold DatabaseHandler.add_course, sqlite3.insert_course.
      now destruct (existsb _ _).
    + now apply (one_admin_same_users c).
    + destruct Hadmin as (me & Hme & Hmerole).
      unfold AdminDashboard.delete_user.
      destruct selected as [[[user_id username] role]|]; [|assumption].
      cbn zeta. rewrite Hme.
      destruct (ttk.equals_str _ _) eqn:Ecell; [assumption|].
      destruct askyesno; [|assumption].
      destruct IH as [Hrow Hadm Hsession].
      rewrite (Hsession me Hme Hmerole) in Ecell.
      assert (Ename : username <> "admin"%string)
        by (intros ->; discriminate).
      specialize (Hselected _ eq_refl).
      apply in_get_all_users in Hselected as (u & Hu & Huid & Huname & _).
      split; simpl.
      * destruct Hrow as (m & Hm & Hmn & Hmr). exists m.
        split; [|now split]. apply filter_In. split; [assumption|].
        apply negb_true_iff, Z.eqb_neq. intros Hsame. apply Ename.
        assert (u = m) as ->; [|congruence].
        apply (NoDup_map_injective Users.id (rows (users (db c)))); auto;
          [apply Hkeys | congruence].
      * intros v Hv. apply filter_In in Hv as [Hv _]. now apply Hadm.
      * exact Hsession.
    + unfold AdminDashboard.promote_user.
      destruct selected as [[[user_id username] role]|]; [|assumption].
      cbn zeta. rewrite role_cell_is_student.
      destruct (negb _) eqn:Erole; [assumption|].
      apply negb_false_iff, String.eqb_eq in Erole. subst role.
      specialize (Hselected _ eq_refl).
      apply in_get_all_users in Hselected as (u & Hu & Huid & _ & Hur).
      cbn [fst]. apply one_admin_update; auto.
      * simpl. discriminate.
      * intros v Hv Hcond Hvr. apply Z.eqb_eq in Hcond.
        assert (v = u) as ->; [|congruence].
        apply (NoDup_map_injective Users.id (rows (users (db c)))); auto;
          [apply Hkeys | congruence].
    + unfold CourseDetailsFrame.update_progress.
      destruct (negb (Py.isdigit _)); [assumption|].
      destruct (Py.int _); [|assumption].
      destruct (negb _); [assumption|].
      destruct selected as [[[course_id title] price]|]; [|assumption].
      destruct (CourseDetailsFrame.enrolled _ _); [assumption|].
      now apply (one_admin_same_users c).
    + unfold ProfileFrame.change_password.
      destruct (_ || _); [assumption|].
      destruct (current_user c) as [user|] eqn:Ec; [|assumption].
      destruct (DatabaseHandler.get_user _ _); [|assumption].
      destruct (bcrypt.checkpw _ _) as [[|]|]; cbn [negb]; try assumption.
      destruct (_ <? _); [assumption|].
      destruct (negb (_ =? _)%string); [assumption|].
      destruct (bcrypt.hashpw _ _); [|assumption].
      cbn [fst]. apply one_admin_update; auto.
    + destruct IH as [Hrow Hadm Hsession].
      unfold DatabaseHandler.setup_database in Hrestart.
      destruct Hrow as (m & Hm & Hmn & Hmr).
      destruct (filter _ _) eqn:Efilter.
      * exfalso. rewrite filter_nil_iff in Efilter.
        specialize (Efilter m Hm). apply String.eqb_neq in Efilter.
        contradiction.
      * simpl in Hrestart. injection Hrestart as <-.
        split; simpl; eauto. intros me Hme. discriminate.
Qed.

(** Started again on a file it left, the program seeds nothing. *)
Corollary restart_seeds_nothing `{bcrypt.kdf} (c : E_LearningApp)
    (gensalt : list byte) :
  reachable c ->
  DatabaseHandler.setup_database (db c) gensalt = Returned (db c).
Proof.
  intros Hreach.
  destruct (reachable_one_admin c Hreach) as [(m & Hm & _ & Hmr) _ _].
  unfold DatabaseHandler.setup_database.
  destruct (filter _ _) eqn:Efilter; [|reflexivity].
  exfalso. rewrite filter_nil_iff in Efilter.
  specialize (Efilter m Hm). apply String.eqb_neq in Efilter.
  contradiction.
Qed.

(** X1.  In every state the program reaches, the session is the id and the
    username of a row of [users]: nobody deletes the account they are
    logged in with. *)
Theorem reachable_session_stored `{bcrypt.kdf} (c : E_LearningApp) :
  reachable c -> session_stored c.
Proof.
  induction 1 as [gensalt d Hstart | c c' Hreach IH Hstep].
  - intros me Hme. discriminate.
  - pose proof (reachable_keys_hold c Hreach) as Hkeys.
    pose proof (reachable_one_admin c Hreach) as Hone.
    destruct Hstep as
      [ c username_entry password_entry
      | c
      | c gensalt username_entry password_entry confirm_entry role Hrole
      | c selected
      | c title description instructor_id price
      | c course_id
      | c selected askyesno Hadmin Hselected
      | c selected Hadmin Hselected
      | c progress_entry selected
      | c gensalt current_entry new_entry confirm_entry
      | c gensalt d Hrestart ].
    + unfold LoginFrame.login. destruct (_ || _); [assumption|].
      destruct (LoginFrame.authenticate _ _ _) as [[user|]|e] eqn:E;
        [|assumption|assumption].
      intros me Hme. injection Hme as <-. exists (Session.role user).
      exact (authenticate_stored _ _ _ _ E).
    + intros me Hme. discriminate.
    + unfold RegisterFrame.register.
      destruct (_ || _); [assumption|].
      destruct (_ <? _); [assumption|].
      destruct (_ <? _); [assumption|].
      destruct (negb _); [assumption|].
      pose proof (fun x => stored_after_add_user (db c) gensalt
                    (Py.strip username_entry) (Py.strip password_entry)
                    (Py.strip role) x) as Hgrow.
      destruct (DatabaseHandler.add_user _ _ _ _ _) as [d' ok].
      assert (Hafter : session_stored (with_db c d')).
      { intros me Hme. destruct (IH me Hme) as [r Hr].
        exists r. now apply Hgrow. }
      now destruct ok as [[|]|e].
    + unfold StudentDashboard.enroll_course.
      destruct selected as [[[[course_id course_title] ?] ?]|];
        [|assumption].
      destruct (current_user c) as [user|] eqn:Ec; [|assumption].
      rewrite enroll_student_inserts. intros me Hme. simpl in Hme.
      rewrite Ec in Hme. apply IH. now rewrite Ec.
    + unfold DatabaseHandler.add_course, sqlite3.insert_course.
      destruct (existsb _ _); exact IH.
    + exact IH.
    + unfold AdminDashboard.delete_user.
      destruct selected as [[[user_id username] role]|]; [|assumption].
      cbn zeta.
      destruct (current_user c) as [user|] eqn:Ec; [|assumption].
      destruct (ttk.equals_str _ _) eqn:Ename; [assumption|].
      destruct askyesno; [|assumption].
      intros me Hme. simpl in Hme. rewrite Ec in Hme. injection Hme as <-.
      destruct (IH user Ec) as [r Hr]. exists r.
      apply in_get_all_users in Hr as (m & Hm & Hmid & Hmname & Hmrole).
      specialize (Hselected _ eq_refl).
      apply in_get_all_users in Hselected as (u & Hu & Huid & Huname & _).
      unfold DatabaseHandler.get_all_users. simpl.
      apply in_map_iff. exists m. split; [congruence|].
      apply filter_In. split; [assumption|].
      apply negb_true_iff, Z.eqb_neq. intros Hsame.
      assert (u = m) as ->
        by (apply (NoDup_map_injective Users.id (rows (users (db c))));
            auto; [apply Hkeys | congruence]).
      destruct Hadmin as (admin & Hadmin & Hadminrole).
      assert (admin = user) as -> by congruence.
      rewrite <- Huname, Hmname,
        (admin_session_name c Hone user Ec Hadminrole) in Ename.
      discriminate.
    + unfold AdminDashboard.promote_user.
      destruct selected as [[[user_id username] role]|]; [|assumption].
      destruct (negb _); [assumption|].
      intros me Hme. destruct (IH me Hme) as [r Hr].
      cbn [fst db with_db].
      now apply (stored_after_update (db c) _ _ _ _ r).
    + unfold CourseDetailsFrame.update_progress.
      destruct (negb (Py.isdigit _)); [assumption|].
      destruct (Py.int _); [|assumption].
      destruct (negb _); [assumption|].
      destruct selected as [[[course_id title] price]|]; [|assumption].
      destruct (CourseDetailsFrame.enrolled _ _); exact IH.
    + unfold ProfileFrame.change_password.
      destruct (_ || _); [assumption|].
      destruct (current_user c) as [user|] eqn:Ec; [|assumption].
      destruct (DatabaseHandler.get_user _ _); [|assumption].
      destruct (bcrypt.checkpw _ _) as [[|]|]; cbn [negb]; try assumption.
      destruct (_ <? _); [assumption|].
      destruct (negb (_ =? _)%string); [assumption|].
      destruct (bcrypt.hashpw _ _); [|assumption].
      intros me Hme. simpl in Hme. rewrite Ec in Hme.
      assert (Hsession : current_user c = Some me) by congruence.
      destruct (IH me Hsession) as [stored_role Hr].
      cbn [fst db with_db].
      now apply (stored_after_update (db c) _ _ _ _ stored_role).
    + intros me Hme. discriminate.
Qed.

Lemma at_most_one_per_key {R K : Type} (key : R -> K) (chosen : R -> bool)
    (l : list R) (k : K) :
  NoDup (map key l) ->
  (forall x, In x l -> chosen x = true -> key x = k) ->
  filter chosen l = [] \/ exists x, filter chosen l = [x].
Proof.
  induction l as [|a l IH]; simpl; [now left|].
  intros Hnd Hkey. inversion Hnd as [|? ? Hnotin Hrest]; subst.
  destruct (chosen a) eqn:Ea.
  - right. exists a. f_equal. apply filter_nil_iff. intros x Hx.
    destruct (chosen x) eqn:Ex; [|reflexivity].
    exfalso. apply Hnotin.
    rewrite (Hkey a (or_introl eq_refl) Ea), <- (Hkey x (or_intror Hx) Ex).
    now apply in_map.
  - apply IH; [assumption|]. intros x Hx. apply Hkey. now right.
Qed.

(** X2.  Exactly one row has role Admin in every state the program reaches. *)
Corollary reachable_exactly_one_admin `{bcrypt.kdf} (c : E_LearningApp) :
  reachable c ->
  exists u, admins (db c) = [u] /\ Users.username u = "admin"%string.
Proof.
  intros Hreach.
  destruct (reachable_one_admin c Hreach) as [(m & Hm & Hmn & Hmr) Hadm _].
  pose proof (reachable_keys_hold c Hreach) as Hkeys.
  assert (Hin : In m (admins (db c))).
  { apply filter_In. split; [assumption|]. now apply String.eqb_eq. }
  destruct (at_most_one_per_key Users.username
              (fun u => (Users.role u =? "Admin")%string)
              (rows (users (db c))) "admin"%string) as [Hnone|[x Hone]].
  - apply Hkeys.
  - intros x Hx Hrole. apply Hadm; [assumption|]. now apply String.eqb_eq.
  - unfold admins in Hin. rewrite Hnone in Hin. destruct Hin.
  - exists x. unfold admins in *. split; [assumption|].
    rewrite Hone in Hin. destruct Hin as [->|[]]. assumption.
Qed.

(* ================================================================== *)
(** ** Courses *)

(** What [add_course] does when no course has the title. *)
Lemma add_course_fresh (d : database) (title description : string)
    (instructor_id : Z) (price : Q) :
  filter (fun c => (Courses.title c =? title)%string) (rows (courses d)) = [] ->
  DatabaseHandler.add_course d title description instructor_id price
  = ({| users := users d;
        courses :=
          {| rows := rows (courses d)
                     ++ [ {| Courses.id :=
                               sqlite3.next_rowid Courses.id (courses d);
                             Courses.title := title;
                             Courses.description := description;
                             Courses.instructor_id := instructor_id;
                             Courses.price := price |} ];
             sqlite_sequence := sqlite3.next_rowid Courses.id (courses d) |};
        enrollments := enrollments d |}, true).
Proof.
  intros Hfree. apply existsb_false_filter in Hfree.
  unfold DatabaseHandler.add_course, sqlite3.insert_course.
  now rewrite Hfree.
Qed.

Lemma add_course_true (d d' : database) (title description : string)
    (instructor_id : Z) (price : Q) :
  DatabaseHandler.add_course d title description instructor_id price
  = (d', true) ->
  filter (fun c => (Courses.title c =? title)%string) (rows (courses d)) = []
  /\ d' = fst (DatabaseHandler.add_course d title description instructor_id
                                          price).
Proof.
  intros E. split; [|now rewrite E].
  unfold DatabaseHandler.add_course, sqlite3.insert_course in E.
  destruct (existsb _ _) eqn:Et; [discriminate|].
  now apply existsb_false_filter.
Qed.

(** X3.  A title is given once.  From a store without the title, [add_course]
    returns [True] and appends one course with a rowid no course has; a
    second [add_course] with the same title (any description, instructor
    and price) returns [False] and writes nothing; one course has the title
    afterwards. *)
Theorem add_course_refuses_a_taken_title (d : database)
    (title description1 description2 : string) (instructor1 instructor2 : Z)
    (price1 price2 : Q) :
  filter (fun c => (Courses.title c =? title)%string) (rows (courses d)) = [] ->
  let first :=
    DatabaseHandler.add_course d title description1 instructor1 price1 in
  let second :=
    DatabaseHandler.add_course (fst first) title description2 instructor2
                               price2 in
  snd first = true
  /\ (exists c, rows (courses (fst first)) = rows (courses d) ++ [c]
                /\ Courses.title c = title
                /\ Courses.instructor_id c = instructor1
                /\ ~ In (Courses.id c) (map Courses.id (rows (courses d))))
  /\ users (fst first) = users d
  /\ enrollments (fst first) = enrollments d
  /\ second = (fst first, false)
  /\ List.length
       (filter (fun c => (Courses.title c =? title)%string)
               (rows (courses (fst second))))
     = 1%nat.
Proof.
  intros Hfree first second. subst first second.
  rewrite (add_course_fresh d title description1 instructor1 price1 Hfree).
  cbn [fst snd].
  assert (Hsecond :
    DatabaseHandler.add_course
      {| users := users d;
         courses :=
           {| rows := rows (courses d)
                      ++ [ {| Courses.id :=
                                sqlite3.next_rowid Courses.id (courses d);
                              Courses.title := title;
                              Courses.description := description1;
                              Courses.instructor_id := instructor1;
                              Courses.price := price1 |} ];
              sqlite_sequence := sqlite3.next_rowid Courses.id (courses d) |};
         enrollments := enrollments d |}
      title description2 instructor2 price2
    = ({| users := users d;
          courses :=
            {| rows := rows (courses d)
                       ++ [ {| Courses.id :=
                                 sqlite3.next_rowid Courses.id (courses d);
                               Courses.title := title;
                               Courses.description := description1;
                               Courses.instructor_id := instructor1;
                               Courses.price := price1 |} ];
               sqlite_sequence := sqlite3.next_rowid Courses.id (courses d) |};
          enrollments := enrollments d |}, false)).
  { unfold DatabaseHandler.add_course, sqlite3.insert_course.
    cbn [courses rows]. rewrite existsb_app. cbn [existsb Courses.title].
    rewrite String.eqb_refl, orb_true_r. reflexivity. }
  rewrite Hsecond. cbn [fst snd courses rows users enrollments].
  split; [reflexivity|]. split.
  { eexists. split; [reflexivity|]. cbn.
    split; [reflexivity|]. split; [reflexivity|]. apply next_rowid_fresh. }
  split; [reflexivity|]. split; [reflexivity|]. split; [reflexivity|].
  rewrite filter_app, Hfree. cbn. now rewrite String.eqb_refl.
Qed.

Lemma add_course_refuses_a_taken_title_witness :
  snd (DatabaseHandler.add_course
         (fst (DatabaseHandler.add_course Scenario.registered
                 "Logic" "Proofs" 4 (10 # 1)))
         "Logic" "Again" 2 (5 # 1))
  = false.
Proof.
  pose proof (add_course_refuses_a_taken_title Scenario.registered
                "Logic" "Proofs" "Again" 4 2 (10 # 1) (5 # 1) eq_refl)
    as (_ & _ & _ & _ & Hsecond & _).
  now rewrite Hsecond.
Defined.

(** X4.  The instructor's list after a course was added: the list of its
    instructor is the one before with one more row at the end, which has a
    new id and the title (what its price cell holds is not said: SQLite
    stores NULL for a NaN), and nobody else's list changes. *)
Theorem add_course_shows_in_the_instructor_list (d d' : database)
    (title description : string) (instructor_id : Z) (price : Q) :
  DatabaseHandler.add_course d title description instructor_id price
  = (d', true) ->
  (exists course_id last,
     ~ In course_id (map Courses.id (rows (courses d)))
     /\ DatabaseHandler.get_instructor_courses d' instructor_id
        = DatabaseHandler.get_instructor_courses d instructor_id ++ [last]
     /\ fst last = (course_id, title))
  /\ forall other,
       other <> instructor_id ->
       DatabaseHandler.get_instructor_courses d' other
       = DatabaseHandler.get_instructor_courses d other.
Proof.
  intros E. apply add_course_true in E as [Hfree ->].
  rewrite (add_course_fresh d title description instructor_id price Hfree).
  cbn [fst]. unfold DatabaseHandler.get_instructor_courses.
  cbn [courses rows]. split.
  - exists (sqlite3.next_rowid Courses.id (courses d)),
           (sqlite3.next_rowid Courses.id (courses d), title, price).
    split; [apply next_rowid_fresh|]. split; [|reflexivity].
    rewrite filter_app, map_app. cbn. now rewrite Z.eqb_refl.
  - intros other Hother. rewrite filter_app, map_app. cbn.
    apply Z.eqb_neq in Hother. rewrite Z.eqb_sym in Hother.
    rewrite Hother. cbn. now rewrite app_nil_r.
Qed.

Lemma add_course_shows_in_the_instructor_list_witness :
  (exists course_id last,
     DatabaseHandler.get_instructor_courses
       (fst (DatabaseHandler.add_course Scenario.classroom
               "Types" "Terms" 4 (7 # 1))) 4
     = DatabaseHandler.get_instructor_courses Scenario.classroom 4 ++ [last]
     /\ fst last = (course_id, "Types"%string))
  /\ DatabaseHandler.get_instructor_courses
       (fst (DatabaseHandler.add_course Scenario.classroom
               "Types" "Terms" 4 (7 # 1))) 2
     = DatabaseHandler.get_instructor_courses Scenario.classroom 2.
Proof.
  destruct (add_course_shows_in_the_instructor_list Scenario.classroom
              (fst (DatabaseHandler.add_course Scenario.classroom
                      "Types" "Terms" 4 (7 # 1)))
              "Types" "Terms" 4 (7 # 1) eq_refl)
    as [(course_id & last & _ & Hlist & Hlast) Hothers].
  split.
  - now exists course_id, last.
  - apply Hothers. discriminate.
Defined.

(* ================================================================== *)
(** ** What the listings show *)

(** A SELECT by a key finds at most the one row [find] finds. *)
Lemma select_by_key {R : Type} (key : R -> Z) (k : Z) (l : list R) :
  NoDup (map key l) ->
  filter (fun r => k =? key r) l
  = match find (fun r => k =? key r) l with
    | Some r => [r]
    | None => []
    end.
Proof.
  induction l as [|a l IH]; simpl; [reflexivity|].
  intros Hkey. inversion Hkey as [|? ? Hnotin Hrest]; subst.
  destruct (k =? key a) eqn:Ea.
  - f_equal. apply filter_nil_iff. intros r Hr.
    apply Z.eqb_eq in Ea. apply Z.eqb_neq. intros Er.
    apply Hnotin. rewrite <- Ea, Er. now apply in_map.
  - now apply IH.
Qed.

Lemma in_get_all_courses (d : database)
    (row : Z * string * string * string * Q) :
  In row (DatabaseHandler.get_all_courses d)
  <-> exists c u,
        In c (rows (courses d)) /\ In u (rows (users d))
        /\ Courses.instructor_id c = Users.id u
        /\ row = (Courses.id c, Courses.title c, Courses.description c,
                  Users.username u, Courses.price c).
Proof.
  unfold DatabaseHandler.get_all_courses. rewrite in_flat_map. split.
  - intros (c & Hc & Hrow). apply in_map_iff in Hrow as (u & <- & Hu).
    apply filter_In in Hu as [Hu E]. apply Z.eqb_eq in E.
    now exists c, u.
  - intros (c & u & Hc & Hu & E & ->). exists c. split; [assumption|].
    apply in_map_iff. exists u. split; [reflexivity|].
    apply filter_In. split; [assumption|]. now apply Z.eqb_eq.
Qed.

(** The id column of a row of [get_all_courses]. *)
Lemma listed_ids_once (d : database) :
  keys_hold d ->
  NoDup (map (fun row : Z * string * string * string * Q =>
                fst (fst (fst (fst row))))
             (DatabaseHandler.get_all_courses d)).
Proof.
  intros Hkeys. destruct Hkeys as [Huid _ Hcid _ _].
  unfold DatabaseHandler.get_all_courses.
  induction (rows (courses d)) as [|c cs IH]; simpl; [constructor|].
  inversion Hcid as [|? ? Hnotin Hrest]; subst.
  rewrite map_app. apply NoDup_app.
  - rewrite (select_by_key Users.id (Courses.instructor_id c)
               (rows (users d)) Huid).
    destruct (find _ _); simpl; repeat constructor; intros [].
  - now apply IH.
  - intros i Hi Hin. apply Hnotin.
    apply in_map_iff in Hi as (row & <- & Hrow).
    apply in_map_iff in Hrow as (u & <- & _). simpl.
    apply in_map_iff in Hin as (row' & E & Hrow').
    apply in_flat_map in Hrow' as (c' & Hc' & Hrow').
    apply in_map_iff in Hrow' as (u' & <- & _). simpl in E.
    rewrite <- E. now apply in_map.
Qed.

(** X5.  [get_all_courses] joins each course with its instructor.  With the
    keys of the store, a course whose instructor is a row of [users] is
    listed once, under that user's name, and a course whose instructor is
    not (the account was deleted) is not listed at all. *)
Theorem get_all_courses_lists_taught_courses_once (d : database) :
  keys_hold d ->
  NoDup (map (fun row : Z * string * string * string * Q =>
                fst (fst (fst (fst row))))
             (DatabaseHandler.get_all_courses d))
  /\ (forall c,
        In c (rows (courses d)) ->
        (exists u, In u (rows (users d))
                   /\ Users.id u = Courses.instructor_id c
                   /\ In (Courses.id c, Courses.title c,
                          Courses.description c, Users.username u,
                          Courses.price c)
                         (DatabaseHandler.get_all_courses d))
        \/ ((forall u, In u (rows (users d)) ->
                       Users.id u <> Courses.instructor_id c)
            /\ forall row, In row (DatabaseHandler.get_all_courses d) ->
                           fst (fst (fst (fst row))) <> Courses.id c)).
Proof.
  intros Hkeys. split; [now apply listed_ids_once|].
  intros c Hc.
  destruct (find (fun u => Courses.instructor_id c =? Users.id u)
                 (rows (users d))) as [u|] eqn:Efind.
  - left. apply find_some in Efind as [Hu E]. apply Z.eqb_eq in E.
    exists u. split; [assumption|]. split; [congruence|].
    apply in_get_all_courses. now exists c, u.
  - right.
    assert (Hnone : forall u, In u (rows (users d)) ->
                              Users.id u <> Courses.instructor_id c).
    { intros u Hu E. pose proof (find_none _ _ Efind u Hu) as Hne.
      apply Z.eqb_neq in Hne. congruence. }
    split; [assumption|].
    intros row Hrow E. apply in_get_all_courses in Hrow
      as (c' & u' & Hc' & Hu' & Ei & ->). simpl in E.
    assert (c' = c) as ->
      by (apply (NoDup_map_injective Courses.id (rows (courses d)));
          auto; apply Hkeys).
    apply (Hnone u' Hu'). congruence.
Qed.

Lemma get_all_courses_lists_taught_courses_once_witness :
  NoDup (map (fun row : Z * string * string * string * Q =>
                fst (fst (fst (fst row))))
             (DatabaseHandler.get_all_courses Scenario.classroom)).
Proof.
  apply (get_all_courses_lists_taught_courses_once Scenario.classroom
           classroom_keys_hold).
Defined.

(** X6.  Deleting a user deletes no course: the courses of a deleted instructor
    stay in [courses] and leave the listing, and the listing keeps every
    other row. *)
Theorem deleting_an_instructor_hides_their_courses (d : database)
    (user_id : Z) (row : Z * string * string * string * Q) :
  courses (DatabaseHandler.delete_user d user_id) = courses d
  /\ (In row (DatabaseHandler.get_all_courses
                (DatabaseHandler.delete_user d user_id))
      <-> exists c u,
            In c (rows (courses d)) /\ In u (rows (users d))
            /\ Courses.instructor_id c = Users.id u
            /\ Users.id u <> user_id
            /\ row = (Courses.id c, Courses.title c, Courses.description c,
                      Users.username u, Courses.price c)).
Proof.
  split; [reflexivity|].
  rewrite in_get_all_courses. simpl. split.
  - intros (c & u & Hc & Hu & E & ->).
    apply filter_In in Hu as [Hu Hne].
    apply negb_true_iff, Z.eqb_neq in Hne. now exists c, u.
  - intros (c & u & Hc & Hu & E & Hne & ->). exists c, u.
    repeat split; auto. apply filter_In. split; [assumption|].
    now apply negb_true_iff, Z.eqb_neq.
Qed.

Lemma select_after_delete_other (cs : list Courses.row) (k course_id : Z) :
  k <> course_id ->
  filter (fun c => k =? Courses.id c)
         (filter (fun r => negb (Courses.id r =? course_id)) cs)
  = filter (fun c => k =? Courses.id c) cs.
Proof.
  intros Hne. induction cs as [|c cs IH]; simpl; [reflexivity|].
  destruct (Courses.id c =? course_id) eqn:Eid; simpl.
  - apply Z.eqb_eq in Eid.
    destruct (k =? Courses.id c) eqn:Em; [|exact IH].
    apply Z.eqb_eq in Em. congruence.
  - destruct (k =? Courses.id c); [now rewrite IH | exact IH].
Qed.

Lemma select_after_delete_same (cs : list Courses.row) (course_id : Z) :
  filter (fun c => course_id =? Courses.id c)
         (filter (fun r => negb (Courses.id r =? course_id)) cs)
  = [].
Proof.
  apply filter_nil_iff. intros c Hc. apply filter_In in Hc as [_ Hne].
  apply negb_true_iff in Hne. now rewrite Z.eqb_sym.
Qed.

(** X7.  Deleting a course deletes no enrollment, and still the course leaves
    every student's list: the list is the one the store would give had the
    enrollments of the course been deleted with it. *)
Theorem deleted_course_leaves_the_student_list (d : database)
    (course_id student_id : Z) :
  enrollments (DatabaseHandler.delete_course d course_id) = enrollments d
  /\ DatabaseHandler.get_student_enrollments
       (DatabaseHandler.delete_course d course_id) student_id
     = DatabaseHandler.get_student_enrollments
         {| users := users d;
            courses := courses d;
            enrollments :=
              sqlite3.delete_where
                (fun e => Enrollments.course_id e =? course_id)
                (enrollments d) |}
         student_id.
Proof.
  split; [reflexivity|].
  unfold DatabaseHandler.get_student_enrollments. simpl.
  generalize (rows (courses d)) as cs. intros cs.
  induction (rows (enrollments d)) as [|e es IH]; simpl; [reflexivity|].
  destruct (Enrollments.course_id e =? course_id) eqn:Ec; simpl.
  - destruct (Enrollments.student_id e =? student_id); simpl; [|exact IH].
    rewrite <- IH. apply Z.eqb_eq in Ec. rewrite Ec.
    now rewrite select_after_delete_same.
  - destruct (Enrollments.student_id e =? student_id); simpl; [|exact IH].
    rewrite <- IH. apply Z.eqb_neq in Ec.
    now rewrite select_after_delete_other.
Qed.

(* ================================================================== *)
(** ** Accounts *)

Lemma named_after_delete_other (l : list Users.row) (user_id : Z)
    (name : string) :
  (forall u, In u l -> Users.username u = name -> Users.id u <> user_id) ->
  filter (fun u => (Users.username u =? name)%string)
         (filter (fun u => negb (Users.id u =? user_id)) l)
  = filter (fun u => (Users.username u =? name)%string) l.
Proof.
  induction l as [|u us IH]; simpl; [reflexivity|]. intros Hother.
  assert (Hrest : forall v, In v us -> Users.username v = name ->
                            Users.id v <> user_id)
    by (intros v Hv; apply Hother; now right).
  destruct (Users.username u =? name)%string eqn:En.
  - assert (Hne : Users.id u <> user_id).
    { apply Hother; [now left|]. now apply String.eqb_eq. }
    apply Z.eqb_neq in Hne. rewrite Hne. simpl. rewrite En. f_equal.
    now apply IH.
  - destruct (negb (Users.id u =? user_id)); simpl.
    + rewrite En. now apply IH.
    + now apply IH.
Qed.

Lemma get_user_after_delete_other (d : database) (user_id : Z)
    (name : string) :
  (forall u, In u (rows (users d)) -> Users.username u = name ->
             Users.id u <> user_id) ->
  DatabaseHandler.get_user (DatabaseHandler.delete_user d user_id) name
  = DatabaseHandler.get_user d name.
Proof.
  intros Hother. unfold DatabaseHandler.get_user. simpl.
  now rewrite named_after_delete_other.
Qed.

(** X8.  A deleted account is gone for [login]: no password authenticates its
    username afterwards, and [authenticate] answers for every other
    username as it did before. *)
Theorem deleted_user_cannot_log_in `{bcrypt.kdf} (d : database)
    (u : Users.row) :
  keys_hold d ->
  In u (rows (users d)) ->
  let d' := DatabaseHandler.delete_user d (Users.id u) in
  (forall pw,
     LoginFrame.authenticate d' (Users.username u) pw = Returned None)
  /\ (forall name pw,
        name <> Users.username u ->
        LoginFrame.authenticate d' name pw = LoginFrame.authenticate d name pw).
Proof.
  intros Hkeys Hu d'. subst d'. split.
  - intros pw. unfold LoginFrame.authenticate.
    destruct (DatabaseHandler.get_user _ _) as [v|] eqn:Ev; [|reflexivity].
    exfalso. apply get_user_Some in Ev as [Hv Hname]. simpl in Hv.
    apply filter_In in Hv as [Hv Hne].
    apply negb_true_iff, Z.eqb_neq in Hne. apply Hne.
    assert (v = u) as ->; [|reflexivity].
    apply (NoDup_map_injective Users.username (rows (users d))); auto.
    apply Hkeys.
  - intros name pw Hname. unfold LoginFrame.authenticate.
    rewrite get_user_after_delete_other; [reflexivity|].
    intros v Hv Hvname Hid. apply Hname.
    assert (v = u) as ->; [|congruence].
    apply (NoDup_map_injective Users.id (rows (users d))); auto.
    apply Hkeys.
Qed.

Lemma deleted_user_cannot_log_in_witness :
  @LoginFrame.authenticate bcrypt.toy Scenario.orphaned "bobby" "builder1"
  = Returned None
  /\ @LoginFrame.authenticate bcrypt.toy Scenario.orphaned "alice" "wonderland"
     = @LoginFrame.authenticate bcrypt.toy Scenario.classroom "alice"
         "wonderland".
Proof.
  assert (Hbobby : exists u, In u (rows (users Scenario.classroom))
                             /\ Users.id u = 3
                             /\ Users.username u = "bobby"%string).
  { eexists. split; [right; right; left; reflexivity|]. split; reflexivity. }
  destruct Hbobby as (u & Hu & Hid & Hname).
  destruct (@deleted_user_cannot_log_in bcrypt.toy Scenario.classroom u
              classroom_keys_hold Hu) as [Hgone Hothers].
  rewrite Hid, Hname in *. split.
  - apply Hgone.
  - apply Hothers. discriminate.
Defined.

Lemma get_user_after_update_other (d : database) (user_id : Z)
    (set : Users.row -> Users.row) (name : string) :
  (forall u, Users.username (set u) = Users.username u) ->
  (forall u, In u (rows (users d)) -> Users.username u = name ->
             Users.id u <> user_id) ->
  DatabaseHandler.get_user
    {| users := sqlite3.update_where (fun u => Users.id u =? user_id) set
                                     (users d);
       courses := courses d;
       enrollments := enrollments d |} name
  = DatabaseHandler.get_user d name.
Proof.
  intros Hname Hother. rewrite get_user_update_where by assumption.
  destruct (DatabaseHandler.get_user d name) as [u|] eqn:Eu; [|reflexivity].
  apply get_user_Some in Eu as [Hu En]. simpl.
  specialize (Hother u Hu En). apply Z.eqb_neq in Hother.
  now rewrite Hother.
Qed.

(** X9.  [change_password] writes one account.  However the handler ends, the
    answer of [authenticate] for every username other than the session's
    is what it was. *)
Theorem change_password_spares_the_others `{bcrypt.kdf}
    (controller : E_LearningApp) (me : Session.t) (gensalt : list byte)
    (current_entry new_entry confirm_entry : string) :
  keys_hold (db controller) ->
  current_user controller = Some me ->
  (exists r, In (Session.id me, Session.username me, r)
                (DatabaseHandler.get_all_users (db controller))) ->
  forall name pw,
    name <> Session.username me ->
    LoginFrame.authenticate
      (db (fst (ProfileFrame.change_password controller gensalt current_entry
                                             new_entry confirm_entry)))
      name pw
    = LoginFrame.authenticate (db controller) name pw.
Proof.
  intros Hkeys Hme [r Hmine] name pw Hname.
  apply in_get_all_users in Hmine as (m & Hm & Hmid & Hmname & _).
  unfold ProfileFrame.change_password.
  destruct (_ || _); [reflexivity|]. rewrite Hme.
  destruct (DatabaseHandler.get_user _ _); [|reflexivity].
  destruct (bcrypt.checkpw _ _) as [[|]|]; cbn [negb]; try reflexivity.
  destruct (_ <? _); [reflexivity|].
  destruct (negb (_ =? _)%string); [reflexivity|].
  destruct (bcrypt.hashpw _ _); [|reflexivity].
  cbn [fst db with_db]. unfold LoginFrame.authenticate.
  rewrite get_user_after_update_other; [reflexivity | reflexivity |].
  intros v Hv Hvname Hid. apply Hname.
  assert (v = m) as ->; [|congruence].
  apply (NoDup_map_injective Users.id (rows (users (db controller)))); auto;
    [apply Hkeys | congruence].
Qed.

Lemma change_password_spares_the_others_witness :
  @LoginFrame.authenticate bcrypt.toy
    (db (fst (@ProfileFrame.change_password bcrypt.toy
                {| db := Scenario.classroom;
                   current_user := Some Scenario.admin_session |}
                (Scenario.salt_of "s7") "admin123" "rotated-1" "rotated-1")))
    "alice" "wonderland"
  = @LoginFrame.authenticate bcrypt.toy Scenario.classroom "alice" "wonderland".
Proof.
  apply (@change_password_spares_the_others bcrypt.toy
           {| db := Scenario.classroom;
              current_user := Some Scenario.admin_session |}
           Scenario.admin_session (Scenario.salt_of "s7")
           "admin123" "rotated-1" "rotated-1" classroom_keys_hold eq_refl).
  - exists "Admin"%string. vm_compute. tauto.
  - discriminate.
Defined.

(** X10.  [setup_database] is idempotent: once it has returned, running it
    again on the store it left (with any salt) changes nothing. *)
Theorem setup_database_twice `{bcrypt.kdf} (d d' : database)
    (gensalt gensalt' : list byte) :
  DatabaseHandler.setup_database d gensalt = Returned d' ->
  DatabaseHandler.setup_database d' gensalt' = Returned d'.
Proof.
  unfold DatabaseHandler.setup_database.
  destruct (filter _ (rows (users d))) as [|a l] eqn:Eadmins;
    cbn [sqlite3.fetchone hd_error].
  - unfold sqlite3.insert_user. cbn [sqlite3.role_check String.eqb negb].
    change (sqlite3.role_check "Admin") with true. cbn [negb].
    destruct (existsb _ _); [discriminate|].
    intros E. injection E as <-. cbn [users rows sqlite3.append_row].
    rewrite filter_app, Eadmins. reflexivity.
  - intros E. injection E as <-. now rewrite Eadmins.
Qed.

Lemma setup_database_twice_witness :
  @DatabaseHandler.setup_database bcrypt.toy Scenario.started
    (Scenario.salt_of "s8")
  = Returned Scenario.started.
Proof.
  apply (@setup_database_twice bcrypt.toy empty_database Scenario.started
           (Scenario.salt_of "s0") (Scenario.salt_of "s8")).
  reflexivity.
Defined.

(* ================================================================== *)
(** ** What an event writes *)

Lemma rstrip_rstrip (s : string) : Py.rstrip (Py.rstrip s) = Py.rstrip s.
Proof.
  induction s as [|c s IH]; simpl; [reflexivity|].
  destruct (Py.rstrip s) as [|c' r] eqn:E.
  - destruct (Py.isspace c) eqn:Ec; simpl; [reflexivity|]. now rewrite Ec.
  - simpl in *. now rewrite IH.
Qed.

(** A string that does not begin with a blank. *)
Lemma lstrip_headed (s : string) :
  match Py.lstrip s with
  | EmptyString => True
  | String c _ => Py.isspace c = false
  end.
Proof.
  induction s as [|c s IH]; simpl; [exact I|].
  destruct (Py.isspace c) eqn:Ec; [exact IH | exact Ec].
Qed.

Lemma rstrip_keeps_head (s : string) :
  match s with
  | EmptyString => True
  | String c _ => Py.isspace c = false
  end ->
  Py.lstrip (Py.rstrip s) = Py.rstrip s.
Proof.
  destruct s as [|c s]; simpl; [reflexivity|]. intros Hc.
  destruct (Py.rstrip s); rewrite ?Hc; simpl; now rewrite Hc.
Qed.

(** Stripping twice is stripping once. *)
Lemma strip_strip (s : string) : Py.strip (Py.strip s) = Py.strip s.
Proof.
  unfold Py.strip.
  rewrite (rstrip_keeps_head (Py.lstrip s) (lstrip_headed s)).
  apply rstrip_rstrip.
Qed.

Lemma with_db_same (c : E_LearningApp) : with_db c (db c) = c.
Proof. now destruct c. Qed.

(** The store after an event differs from the store before it by one of
    the writes of [change]: a user, a course or an enrollment is appended,
    users or courses are deleted by id, a role becomes Instructor, a
    password hash is replaced, the progress of some enrollments is set to a
    percentage.  So no event deletes an enrollment, renames a user or a
    course, or stores a progress outside 0..100. *)
Lemma event_is_a_change `{bcrypt.kdf} (c c' : E_LearningApp) :
  event c c' -> change (db c) (db c').
Proof.
  intros Hevent.
  destruct Hevent as
    [ c username_entry password_entry
    | c
    | c gensalt username_entry password_entry confirm_entry role
    | c selected
    | c title description instructor_id price
    | c selected askyesno
    | c selected askyesno
    | c selected askyesno
    | c selected
    | c progress_entry selected
    | c gensalt current_entry new_entry confirm_entry
    | c gensalt d Hrestart ].
  - unfold LoginFrame.login. destruct (_ || _); [apply change_nothing|].
    destruct (LoginFrame.authenticate _ _ _) as [[user|]|e];
      apply change_nothing.
  - apply change_nothing.
  - unfold RegisterFrame.register.
    destruct (_ || _); [apply change_nothing|].
    destruct (Py.len (Py.strip username_entry) <? 4) eqn:Elen;
      [apply change_nothing|].
    destruct (Py.len (Py.strip password_entry) <? 6); [apply change_nothing|].
    destruct (negb _); [apply change_nothing|].
    destruct (DatabaseHandler.add_user _ _ _ _ _) as [d' ok] eqn:E.
    assert (Hchange : change (db c) d').
    { assert (Hcases : ok = Returned true \/ ok <> Returned true)
        by (destruct ok as [[|]|e]; [now left | right; discriminate ..]).
      destruct Hcases as [-> | Hnot].
      - apply add_user_true in E as (Hfree & Hrole & hashed & _ & ->).
        apply change_user_added; auto.
        + apply strip_strip.
        + now apply Z.ltb_ge.
      - apply add_user_not_true in E as ->; [|assumption].
        apply change_nothing. }
    now destruct ok as [[|]|e].
  - unfold StudentDashboard.enroll_course.
    destruct selected as [[[[course_id course_title] ?] ?]|]; [|apply change_nothing].
    destruct (current_user c) as [user|]; [|apply change_nothing].
    rewrite enroll_student_inserts. apply change_enrollment_added.
  - cbn [db with_db].
    unfold DatabaseHandler.add_course, sqlite3.insert_course.
    destruct (existsb _ _) eqn:E; [apply change_nothing|].
    apply change_course_added. now apply existsb_false_filter.
  - unfold InstructorDashboard.delete_course.
    destruct selected as [[[course_id course_title] ?]|]; [|apply change_nothing].
    destruct askyesno; [|apply change_nothing]. apply change_course_deleted.
  - unfold AdminDashboard.delete_course.
    destruct selected as [[[[course_id course_title] ?] ?]|]; [|apply change_nothing].
    destruct askyesno; [|apply change_nothing]. apply change_course_deleted.
  - unfold AdminDashboard.delete_user.
    destruct selected as [[[user_id username] role]|]; [|apply change_nothing].
    cbn zeta. destruct (current_user c); [|apply change_nothing].
    destruct (ttk.equals_str _ _); [apply change_nothing|].
    destruct askyesno; [|apply change_nothing]. apply change_user_deleted.
  - unfold AdminDashboard.promote_user.
    destruct selected as [[[user_id username] role]|]; [|apply change_nothing].
    destruct (negb _); [apply change_nothing|]. apply change_user_promoted.
  - unfold CourseDetailsFrame.update_progress.
    destruct (negb (Py.isdigit _)); [apply change_nothing|].
    destruct (Py.int _) as [progress|]; [|apply change_nothing].
    destruct (negb _) eqn:Erange; [apply change_nothing|].
    destruct selected as [[[course_id title] price]|]; [|apply change_nothing].
    destruct (CourseDetailsFrame.enrolled _ _) as [|x found];
      [apply change_nothing|].
    apply change_progress_set.
    apply negb_false_iff, andb_true_iff in Erange as [Hlo Hhi].
    apply Z.leb_le in Hlo, Hhi. lia.
  - unfold ProfileFrame.change_password.
    destruct (_ || _); [apply change_nothing|].
    destruct (current_user c) as [user|]; [|apply change_nothing].
    destruct (DatabaseHandler.get_user _ _); [|apply change_nothing].
    destruct (bcrypt.checkpw _ _) as [[|]|]; cbn [negb];
      try apply change_nothing.
    destruct (_ <? _); [apply change_nothing|].
    destruct (negb (_ =? _)%string); [apply change_nothing|].
    destruct (bcrypt.hashpw _ _); [|apply change_nothing].
    apply change_password_set.
  - cbn [db]. unfold DatabaseHandler.setup_database in Hrestart.
    destruct (sqlite3.fetchone _).
    + injection Hrestart as <-. apply change_nothing.
    + destruct (bcrypt.hashpw _ _) as [hashed|]; [|discriminate].
      unfold sqlite3.insert_user in Hrestart.
      change (sqlite3.role_check "Admin") with true in Hrestart.
      cbn [negb] in Hrestart.
      destruct (existsb _ _) eqn:E; [discriminate|].
      injection Hrestart as <-.
      apply change_user_added; try reflexivity.
      * apply get_user_None. now apply existsb_false_filter.
      * vm_compute. discriminate.
Qed.

(** What holds of the empty store and is kept by every write holds after
    any history. *)
Lemma history_invariant `{bcrypt.kdf} (P : database -> Prop) :
  P empty_database ->
  (forall d d', P d -> change d d' -> P d') ->
  forall c, history c -> P (db c).
Proof.
  intros Hempty Hkept c Hhistory.
  induction Hhistory as [gensalt d Hstart | c c' Hhistory IH Hevent].
  - apply (Hkept empty_database d Hempty).
    exact (event_is_a_change {| db := empty_database; current_user := None |} _
             (event_restart
                {| db := empty_database; current_user := None |}
                gensalt d Hstart)).
  - apply (Hkept (db c) (db c') IH). now apply event_is_a_change.
Qed.

Lemma later_invariant `{bcrypt.kdf} (P : database -> Prop) :
  (forall d d', P d -> change d d' -> P d') ->
  forall c c', later c c' -> P (db c) -> P (db c').
Proof.
  intros Hkept c c' Hlater Hc.
  induction Hlater as [c | c c' c'' Hlater IH Hevent]; [assumption|].
  apply (Hkept (db c') (db c'') (IH Hc)). now apply event_is_a_change.
Qed.

(* ------------------------------------------------------------------ *)
(** *** Keys *)

Lemma change_keeps_keys (d d' : database) :
  keys_hold d -> change d d' -> keys_hold d'.
Proof.
  intros Hkeys Hchange. pose proof Hkeys as [Hu Hn Hc Ht He].
  destruct Hchange; try assumption; split; cbn -[existsb]; auto.
  - apply NoDup_map_snoc; [assumption|]. apply next_rowid_fresh.
  - apply NoDup_map_snoc; [assumption|]. now apply name_not_in.
  - apply NoDup_map_snoc; [assumption|]. apply next_rowid_fresh.
  - apply NoDup_map_snoc; [assumption|]. intros Hin.
    apply in_map_iff in Hin as (c & Ec & Hcin).
    match goal with
    | Hfree : filter _ _ = [] |- _ =>
        rewrite filter_nil_iff in Hfree; specialize (Hfree c Hcin);
        apply String.eqb_neq in Hfree
    end.
    contradiction.
  - apply NoDup_map_snoc; [assumption|]. apply next_rowid_fresh.
  - now apply key_survives_delete.
  - now apply key_survives_delete.
  - now apply key_survives_delete.
  - now apply key_survives_delete.
  - now rewrite map_key_update.
  - now rewrite map_key_update.
  - now rewrite map_key_update.
  - now rewrite map_key_update.
  - rewrite update_all. cbn -[existsb]. now rewrite map_key_update.
Qed.

(** X11.  The PRIMARY KEY and UNIQUE declarations hold after any history, with
    nothing assumed about sessions, frames or selections: no two users
    share an id or a username, no two courses an id or a title, no two
    enrollments an id. *)
Theorem history_keys_hold `{bcrypt.kdf} (c : E_LearningApp) :
  history c -> keys_hold (db c).
Proof.
  apply (history_invariant keys_hold keys_hold_empty change_keeps_keys).
Qed.

(* ------------------------------------------------------------------ *)
(** *** Progress *)

Lemma change_keeps_progress (d d' : database) :
  progress_in_range d -> change d d' -> progress_in_range d'.
Proof.
  intros Hrange Hchange.
  destruct Hchange as [ | | | student_id course_id | | | | | progress found Hp];
    try assumption.
  - intros e He. cbn in He. apply in_app_or in He as [He|[<-|[]]].
    + now apply Hrange.
    + cbn. lia.
  - intros e He. cbn [enrollments] in He. rewrite update_all in He.
    cbn [rows] in He. apply in_map_iff in He as (e0 & <- & He0).
    destruct (existsb _ _); [cbn; lia | now apply Hrange].
Qed.

(** X12.  After any history every stored progress is between 0 and 100: an
    enrollment starts at 0, and the only handler that writes a progress
    checks the range first ([DatabaseHandler.update_progress], which does
    not, has no caller). *)
Theorem history_progress_in_range `{bcrypt.kdf} (c : E_LearningApp) :
  history c -> progress_in_range (db c).
Proof.
  apply (history_invariant progress_in_range).
  - intros e [].
  - exact change_keeps_progress.
Qed.

(* ------------------------------------------------------------------ *)
(** *** Users *)

Lemma change_keeps_users_well_formed (d d' : database) :
  users_well_formed d -> change d d' -> users_well_formed d'.
Proof.
  intros [Hrole Hstrip Hlong] Hchange.
  destruct Hchange as
    [ | name hashed role Hfree Hcheck Hstripped Hlen | | | user_id | | user_id
    | user_id hashed | ]; try (split; assumption).
  - split; intros u Hu; cbn [users rows sqlite3.append_row] in Hu;
      apply in_app_or in Hu as [Hu|[<-|[]]]; auto.
  - split; intros u Hu; unfold DatabaseHandler.delete_user in Hu;
      cbn [users rows sqlite3.delete_where] in Hu;
      apply filter_In in Hu as [Hu _]; auto.
  - split; intros u' Hu'; cbn [users rows sqlite3.update_where] in Hu';
      apply in_map_iff in Hu' as (u & <- & Hu);
      destruct (Users.id u =? user_id); auto;
      first [exact (Hstrip u Hu) | exact (Hlong u Hu)].
  - split; intros u' Hu'; cbn [users rows sqlite3.update_where] in Hu';
      apply in_map_iff in Hu' as (u & <- & Hu);
      destruct (Users.id u =? user_id); auto;
      first [exact (Hrole u Hu) | exact (Hstrip u Hu) | exact (Hlong u Hu)].
Qed.

(** X13.  After any history every row of [users] has one of the three roles and
    a username of at least 4 characters with no blank at either end. *)
Theorem history_users_well_formed `{bcrypt.kdf} (c : E_LearningApp) :
  history c -> users_well_formed (db c).
Proof.
  apply (history_invariant users_well_formed).
  - split; intros u [].
  - exact change_keeps_users_well_formed.
Qed.

(* ------------------------------------------------------------------ *)
(** *** Rowids *)

Lemma next_rowid_above {R : Type} (id : R -> Z) (t : table R) :
  sqlite_sequence t < sqlite3.next_rowid id t
  /\ forall r, In r (rows t) -> id r < sqlite3.next_rowid id t.
Proof.
  unfold sqlite3.next_rowid. split; [lia|].
  intros r Hr. pose proof (largest_upper (map id (rows t)) (id r)
                             (in_map id _ _ Hr)). lia.
Qed.

Lemma append_row_covered {R : Type} (id : R -> Z) (mk : Z -> R) (t : table R) :
  (forall n, id (mk n) = n) ->
  (forall r, In r (rows t) -> id r <= sqlite_sequence t) ->
  forall r, In r (rows (sqlite3.append_row id mk t)) ->
            id r <= sqlite_sequence (sqlite3.append_row id mk t).
Proof.
  intros Hmk Hcovered r Hr. cbn in *.
  apply in_app_or in Hr as [Hr|[<-|[]]].
  - pose proof (proj2 (next_rowid_above id t) r Hr). lia.
  - rewrite Hmk. lia.
Qed.

Lemma change_keeps_sequences (d d' : database) :
  sequences_cover d -> change d d' ->
  sequences_cover d'
  /\ sqlite_sequence (users d) <= sqlite_sequence (users d')
  /\ sqlite_sequence (courses d) <= sqlite_sequence (courses d').
Proof.
  intros [Hu Hc He] Hchange.
  destruct Hchange as
    [ | name hashed role Hfree Hcheck Hstripped Hlen
    | title description instructor_id price Hfree
    | student_id course_id | user_id | course_id | user_id
    | user_id hashed | progress found Hp ].
  - repeat split; auto; lia.
  - split; [split; auto|].
    + now apply append_row_covered.
    + cbn. pose proof (proj1 (next_rowid_above Users.id (users d))). lia.
  - split; [split; auto|].
    + now apply append_row_covered.
    + cbn. pose proof (proj1 (next_rowid_above Courses.id (courses d))). lia.
  - split; [split; auto|cbn; lia].
    now apply append_row_covered.
  - split; [split; auto|cbn; lia].
    intros u Hin. cbn in Hin. apply filter_In in Hin as [Hin _]. now apply Hu.
  - split; [split; auto|cbn; lia].
    intros c Hin. cbn in Hin. apply filter_In in Hin as [Hin _]. now apply Hc.
  - split; [split; auto|cbn; lia].
    intros u' Hin. cbn in Hin. apply in_map_iff in Hin as (u & <- & Hin).
    destruct (Users.id u =? user_id); cbn; now apply Hu.
  - split; [split; auto|cbn; lia].
    intros u' Hin. cbn in Hin. apply in_map_iff in Hin as (u & <- & Hin).
    destruct (Users.id u =? user_id); cbn; now apply Hu.
  - split; [split; auto|cbn; lia].
    intros e' Hin. cbn [enrollments] in *. rewrite update_all in *.
    cbn [rows sqlite_sequence] in *.
    apply in_map_iff in Hin as (e & <- & Hin).
    destruct (existsb _ _); cbn; now apply He.
Qed.

(** After any history no row has a rowid above the AUTOINCREMENT counter
    of its table. *)
Theorem history_sequences_cover `{bcrypt.kdf} (c : E_LearningApp) :
  history c -> sequences_cover (db c).
Proof.
  apply (history_invariant sequences_cover).
  - split; intros r [].
  - intros d d' Hd Hchange.
    exact (proj1 (change_keeps_sequences d d' Hd Hchange)).
Qed.

(** One write: a user found afterwards with a rowid the counter had
    reached was there before, under the same username, and with the same
    role unless it became Instructor. *)
Lemma change_keeps_identity (d d' : database) (u' : Users.row) :
  sequences_cover d -> change d d' ->
  In u' (rows (users d')) ->
  Users.id u' <= sqlite_sequence (users d) ->
  exists u, In u (rows (users d))
            /\ Users.id u = Users.id u'
            /\ Users.username u = Users.username u'
            /\ (Users.role u' = Users.role u
                \/ Users.role u' = "Instructor"%string).
Proof.
  intros Hcover Hchange Hin Hold.
  assert (Hsame : In u' (rows (users d)) ->
                  exists u, In u (rows (users d))
                            /\ Users.id u = Users.id u'
                            /\ Users.username u = Users.username u'
                            /\ (Users.role u' = Users.role u
                                \/ Users.role u' = "Instructor"%string))
    by (intros Hu; exists u'; auto).
  destruct Hchange as
    [ | name hashed role Hfree Hcheck Hstripped Hlen
    | title description instructor_id price Hfree
    | student_id course_id | user_id | course_id | user_id
    | user_id hashed | progress found Hp ]; auto.
  - cbn in Hin. apply in_app_or in Hin as [Hin|[<-|[]]]; auto.
    cbn in Hold.
    pose proof (proj1 (next_rowid_above Users.id (users d))). lia.
  - cbn in Hin. apply filter_In in Hin as [Hin _]. auto.
  - cbn in Hin. apply in_map_iff in Hin as (u & <- & Hin).
    exists u. destruct (Users.id u =? user_id); cbn; auto.
  - cbn in Hin. apply in_map_iff in Hin as (u & <- & Hin).
    exists u. destruct (Users.id u =? user_id); cbn; auto.
Qed.

(** X14.  Rowids of users are never given twice.  Take any history and any
    events after it: a user found at the end with a rowid the counter had
    already reached is a user who was there at the start, under the same
    username, with the same role or promoted to Instructor.  So the rowid
    of a deleted account never comes back, and the enrollments and courses
    it left behind are never taken over by a later account. *)
Theorem user_rowids_are_never_reused `{bcrypt.kdf}
    (c c' : E_LearningApp) (u' : Users.row) :
  history c -> later c c' ->
  In u' (rows (users (db c'))) ->
  Users.id u' <= sqlite_sequence (users (db c)) ->
  exists u, In u (rows (users (db c)))
            /\ Users.id u = Users.id u'
            /\ Users.username u = Users.username u'
            /\ (Users.role u' = Users.role u
                \/ Users.role u' = "Instructor"%string).
Proof.
  intros Hhistory Hlater. revert u'.
  pose proof (history_sequences_cover c Hhistory) as Hcover.
  assert (Hall : sequences_cover (db c')
                 /\ sqlite_sequence (users (db c))
                    <= sqlite_sequence (users (db c'))
                 /\ forall u', In u' (rows (users (db c'))) ->
                      Users.id u' <= sqlite_sequence (users (db c)) ->
                      exists u, In u (rows (users (db c)))
                                /\ Users.id u = Users.id u'
                                /\ Users.username u = Users.username u'
                                /\ (Users.role u' = Users.role u
                                    \/ Users.role u' = "Instructor"%string)).
  { induction Hlater as [c | c c' c'' Hlater IH Hevent].
    - split; [assumption|]. split; [lia|].
      intros u' Hu' _. exists u'. auto.
    - destruct (IH Hhistory Hcover) as (Hcover' & Hseq & Hident).
      apply event_is_a_change in Hevent.
      destruct (change_keeps_sequences _ _ Hcover' Hevent)
        as (Hcover'' & Hseq' & _).
      split; [assumption|]. split; [lia|].
      intros u'' Hu'' Hold.
      destruct (change_keeps_identity _ _ u'' Hcover' Hevent Hu'')
        as (u' & Hu' & Hid' & Hname' & Hrole'); [lia|].
      destruct (Hident u' Hu') as (u & Hu & Hid & Hname & Hrole); [lia|].
      exists u. repeat split; try congruence; auto.
      destruct Hrole' as [Hr'|Hr']; [|now right].
      destruct Hrole as [Hr|Hr]; [left|right]; congruence. }
  intros u'. apply Hall.
Qed.

Lemma change_keeps_enrollments (d d' : database) (e : Enrollments.row) :
  change d d' ->
  In e (rows (enrollments d)) ->
  exists e', In e' (rows (enrollments d'))
             /\ Enrollments.id e' = Enrollments.id e
             /\ Enrollments.student_id e' = Enrollments.student_id e
             /\ Enrollments.course_id e' = Enrollments.course_id e.
Proof.
  intros Hchange He.
  destruct Hchange as
    [ | name hashed role Hfree Hcheck Hstripped Hlen
    | title description instructor_id price Hfree
    | student_id course_id | user_id | course_id | user_id
    | user_id hashed | progress found Hp ];
    try (exists e; auto; fail).
  - exists e. split; [|auto]. cbn. apply in_or_app. now left.
  - cbn [enrollments]. rewrite update_all. cbn [rows].
    exists (if existsb (fun x => Enrollments.id e =? fst x) found
            then DatabaseHandler.set_progress progress e else e).
    split.
    + apply in_map_iff. now exists e.
    + now destruct (existsb _ _).
Qed.

(** X15.  No event deletes an enrollment.  Whatever happens after it was made
    (the course deleted, the student deleted, progress set), a row with its
    rowid, student and course is still stored. *)
Theorem enrollments_are_never_deleted `{bcrypt.kdf}
    (c c' : E_LearningApp) (e : Enrollments.row) :
  later c c' ->
  In e (rows (enrollments (db c))) ->
  exists e', In e' (rows (enrollments (db c')))
             /\ Enrollments.id e' = Enrollments.id e
             /\ Enrollments.student_id e' = Enrollments.student_id e
             /\ Enrollments.course_id e' = Enrollments.course_id e.
Proof.
  intros Hlater He.
  induction Hlater as [c | c c' c'' Hlater IH Hevent].
  - exists e. auto.
  - destruct (IH He) as (e' & He' & Hid & Hs & Hc).
    apply event_is_a_change in Hevent.
    destruct (change_keeps_enrollments _ _ e' Hevent He')
      as (e'' & He'' & Hid' & Hs' & Hc').
    exists e''. repeat split; congruence.
Qed.

(* ------------------------------------------------------------------ *)
(** *** The runs of [reachable] are histories *)

Lemma step_is_event `{bcrypt.kdf} (c c' : E_LearningApp) :
  step c c' -> event c c'.
Proof.
  intros Hstep.
  destruct Hstep as
    [ c username_entry password_entry
    | c
    | c gensalt username_entry password_entry confirm_entry role Hrole
    | c selected
    | c title description instructor_id price
    | c course_id
    | c selected askyesno Hadmin Hselected
    | c selected Hadmin Hselected
    | c progress_entry selected
    | c gensalt current_entry new_entry confirm_entry
    | c gensalt d Hrestart ].
  - exact (event_login c username_entry password_entry).
  - exact (event_logout c).
  - exact (event_register c gensalt username_entry password_entry
                          confirm_entry role).
  - exact (event_enroll_course c selected).
  - exact (event_add_course c title description instructor_id price).
  - exact (event_admin_delete_course c
             (Some (course_id, EmptyString, EmptyString, EmptyString)) true).
  - exact (event_delete_user c selected askyesno).
  - exact (event_promote_user c selected).
  - exact (event_update_progress c progress_entry selected).
  - exact (event_change_password c gensalt current_entry new_entry
                                 confirm_entry).
  - exact (event_restart c gensalt d Hrestart).
Qed.

Lemma reachable_is_history `{bcrypt.kdf} (c : E_LearningApp) :
  reachable c -> history c.
Proof.
  induction 1 as [gensalt d Hstart | c c' Hreach IH Hstep].
  - now apply (history_start gensalt).
  - apply (history_event c c' IH). now apply step_is_event.
Qed.

Lemma classroom_history :
  @history bcrypt.toy
    {| db := Scenario.classroom; current_user := Some Scenario.admin_session |}.
Proof. apply reachable_is_history, classroom_reachable. Qed.

Lemma orphaned_later :
  @later bcrypt.toy
    {| db := Scenario.classroom; current_user := Some Scenario.admin_session |}
    {| db := Scenario.orphaned; current_user := Some Scenario.admin_session |}.
Proof.
  eapply later_event; [apply later_now|].
  exact (event_delete_user _ (Some (3, "bobby", "Student")%string) true).
Qed.

Lemma history_keys_hold_witness : keys_hold Scenario.classroom.
Proof.
  exact (@history_keys_hold bcrypt.toy _ classroom_history).
Defined.

Lemma history_progress_in_range_witness :
  progress_in_range Scenario.classroom.
Proof.
  exact (@history_progress_in_range bcrypt.toy _ classroom_history).
Defined.

Lemma history_users_well_formed_witness :
  users_well_formed Scenario.classroom.
Proof.
  exact (@history_users_well_formed bcrypt.toy _ classroom_history).
Defined.

Lemma history_sequences_cover_witness :
  sequences_cover Scenario.classroom.
Proof.
  exact (@history_sequences_cover bcrypt.toy _ classroom_history).
Defined.

Lemma user_rowids_are_never_reused_witness :
  exists u, In u (rows (users Scenario.classroom))
            /\ Users.id u = 2
            /\ Users.username u = "alice"%string.
Proof.
  assert (Halice : exists u', In u' (rows (users Scenario.orphaned))
                              /\ Users.id u' = 2
                              /\ Users.username u' = "alice"%string).
  { eexists. split; [right; left; reflexivity|]. split; reflexivity. }
  destruct Halice as (u' & Hu' & Hid' & Hname').
  destruct (@user_rowids_are_never_reused bcrypt.toy _ _ u'
              classroom_history orphaned_later Hu')
    as (u & Hu & Hid & Hname & _).
  - rewrite Hid'. vm_compute. discriminate.
  - exists u. split; [exact Hu|]. split; congruence.
Defined.

Lemma enrollments_are_never_deleted_witness :
  exists e', In e' (rows (enrollments Scenario.orphaned))
             /\ Enrollments.student_id e' = 3
             /\ Enrollments.course_id e' = 1.
Proof.
  destruct (@enrollments_are_never_deleted bcrypt.toy _ _
              {| Enrollments.id := 2; Enrollments.student_id := 3;
                 Enrollments.course_id := 1; Enrollments.progress := 0 |}
              orphaned_later)
    as (e' & He' & _ & Hs & Hc).
  - right. left. reflexivity.
  - now exists e'.
Defined.

(* ================================================================== *)
(** ** Registration *)

Lemma add_user_false `{bcrypt.kdf} (d d' : database) (gensalt : list byte)
    (name pw role : string) :
  DatabaseHandler.add_user d gensalt name pw role = (d', Returned false) ->
  d' = d
  /\ (sqlite3.role_check role = false
      \/ DatabaseHandler.get_user d name <> None).
Proof.
  unfold DatabaseHandler.add_user, sqlite3.insert_user.
  destruct (bcrypt.hashpw _ _); [|discriminate].
  destruct (sqlite3.role_check role) eqn:Erole; cbn [negb].
  - destruct (existsb _ _) eqn:Ename; [|discriminate].
    intros E. injection E as <-. split; [reflexivity|]. right.
    intros Hnone. apply get_user_None, existsb_false_filter in Hnone.
    unfold users_named in Hnone. congruence.
  - intros E. injection E as <-. split; [reflexivity|]. now left.
Qed.

Lemma add_user_raises `{bcrypt.kdf} (d d' : database) (gensalt : list byte)
    (name pw role : string) (e : exception) :
  DatabaseHandler.add_user d gensalt name pw role = (d', Raised e) ->
  d' = d /\ e = ValueError /\ bcrypt.refused (Py.encode pw) = true.
Proof.
  unfold DatabaseHandler.add_user, bcrypt.hashpw.
  destruct (bcrypt.refused _).
  - intros [= <- <-]. auto.
  - destruct (sqlite3.insert_user _ _ _ _); discriminate.
Qed.

Lemma len_empty (s : string) : Py.is_empty s = true -> Py.len s = 0.
Proof. destruct s; [reflexivity | discriminate]. Qed.

(** X16.  [register] writes exactly when the stripped username has at least 4
    characters, the stripped password at least 6, the confirmation equals
    the password, the role passes the CHECK, the username is free and the
    installed bcrypt hashes the password; in every other case the state is
    the one it was given.  When only the last condition fails (a password
    of more than 72 bytes, bcrypt 5.0.0), the ValueError of [hashpw] leaves
    the handler. *)
Theorem register_succeeds_exactly_when_valid `{bcrypt.kdf}
    (controller : E_LearningApp) (gensalt : list byte)
    (username_entry password_entry confirm_entry role_combo : string) :
  let result :=
    RegisterFrame.register controller gensalt username_entry password_entry
                           confirm_entry role_combo in
  let registered :=
    Shows (showinfo "Registration Successful"
                    "You have registered successfully. Please log in.") in
  let passes :=
    4 <= Py.len (Py.strip username_entry)
    /\ 6 <= Py.len (Py.strip password_entry)
    /\ Py.strip password_entry = Py.strip confirm_entry in
  (snd result = registered
   <-> passes
       /\ sqlite3.role_check (Py.strip role_combo) = true
       /\ DatabaseHandler.get_user (db controller) (Py.strip username_entry)
          = None
       /\ bcrypt.refused (Py.encode (Py.strip password_entry)) = false)
  /\ (snd result <> registered -> fst result = controller)
  /\ (snd result = Raises ValueError
      <-> passes
          /\ bcrypt.refused (Py.encode (Py.strip password_entry)) = true).
Proof.
  intros result registered passes. subst result registered passes.
  unfold RegisterFrame.register.
  destruct (Py.is_empty (Py.strip username_entry)) eqn:Eu; cbn [orb].
  { split; [|split; [reflexivity|]]; (split; [discriminate|]).
    - intros ((Hlen & _) & _). apply len_empty in Eu. lia.
    - intros ((Hlen & _) & _). apply len_empty in Eu. lia. }
  destruct (Py.is_empty (Py.strip password_entry)) eqn:Ep; cbn [orb].
  { split; [|split; [reflexivity|]]; (split; [discriminate|]).
    - intros ((_ & Hlen & _) & _). apply len_empty in Ep. lia.
    - intros ((_ & Hlen & _) & _). apply len_empty in Ep. lia. }
  destruct (Py.is_empty (Py.strip confirm_entry)) eqn:Eq.
  { split; [|split; [reflexivity|]]; (split; [discriminate|]).
    - intros ((_ & Hlen & Hsame) & _). apply len_empty in Eq.
      rewrite Hsame in Hlen. lia.
    - intros ((_ & Hlen & Hsame) & _). apply len_empty in Eq.
      rewrite Hsame in Hlen. lia. }
  destruct (Py.len (Py.strip username_entry) <? 4) eqn:Eulen.
  { apply Z.ltb_lt in Eulen.
    split; [|split; [reflexivity|]]; (split; [discriminate|]).
    - intros ((Hlen & _) & _). lia.
    - intros ((Hlen & _) & _). lia. }
  destruct (Py.len (Py.strip password_entry) <? 6) eqn:Eplen.
  { apply Z.ltb_lt in Eplen.
    split; [|split; [reflexivity|]]; (split; [discriminate|]).
    - intros ((_ & Hlen & _) & _). lia.
    - intros ((_ & Hlen & _) & _). lia. }
  destruct (Py.strip password_entry =? Py.strip confirm_entry)%string eqn:Esame;
    cbn [negb].
  2:{ apply String.eqb_neq in Esame.
      split; [|split; [reflexivity|]]; (split; [discriminate|]).
      - intros ((_ & _ & Hsame) & _). contradiction.
      - intros ((_ & _ & Hsame) & _). contradiction. }
  apply Z.ltb_ge in Eulen, Eplen. apply String.eqb_eq in Esame.
  destruct (DatabaseHandler.add_user _ _ _ _ _) as [d' ok] eqn:Eadd.
  destruct ok as [[|]|e]; cbn [fst snd].
  - apply add_user_true in Eadd as (Hfree & Hrole & hashed & Hhash & _).
    apply hashpw_returned in Hhash as (Hok & _).
    split; [|split; [congruence|]].
    + split; [auto 6|reflexivity].
    + split; [discriminate|]. intros (_ & Hlong). congruence.
  - pose proof Eadd as Ereturned.
    apply add_user_false in Eadd as (-> & Hwhy).
    split; [|split; [intros _; apply with_db_same|]].
    + split; [discriminate|].
      intros (_ & Hrole & Hfree & _).
      destruct Hwhy as [Hbad|Htaken]; congruence.
    + split; [discriminate|]. intros (_ & Hlong).
      rewrite (add_user_raised _ gensalt _ _ _ Hlong) in Ereturned.
      discriminate.
  - apply add_user_raises in Eadd as (-> & -> & Hlong).
    split; [|split; [intros _; apply with_db_same|]].
    + split; [discriminate|]. intros (_ & _ & _ & Hok). congruence.
    + split; [intros _; auto|reflexivity].
Qed.

Lemma register_succeeds_exactly_when_valid_witness :
  snd (@RegisterFrame.register bcrypt.toy
         {| db := Scenario.started; current_user := None |}
         (Scenario.salt_of "s1") " alice " "wonderland" "wonderland "
         "Student")
  = Shows (showinfo "Registration Successful"
                    "You have registered successfully. Please log in.")
  /\ fst (@RegisterFrame.register bcrypt.toy
            {| db := Scenario.started; current_user := None |}
            (Scenario.salt_of "s1") "al" "wonderland" "wonderland" "Student")
     = {| db := Scenario.started; current_user := None |}.
Proof.
  split.
  - apply (@register_succeeds_exactly_when_valid bcrypt.toy
             {| db := Scenario.started; current_user := None |}
             (Scenario.salt_of "s1") " alice " "wonderland" "wonderland "
             "Student").
    repeat split; vm_compute; discriminate.
  - apply (@register_succeeds_exactly_when_valid bcrypt.toy
             {| db := Scenario.started; current_user := None |}
             (Scenario.salt_of "s1") "al" "wonderland" "wonderland"
             "Student").
    vm_compute. discriminate.
Defined.

Lemma register_accepted `{bcrypt.kdf}
    (controller : E_LearningApp) (gensalt : list byte)
    (username_entry password_entry confirm_entry role_combo : string) :
  snd (RegisterFrame.register controller gensalt username_entry password_entry
                              confirm_entry role_combo)
  = Shows (showinfo "Registration Successful"
                    "You have registered successfully. Please log in.") ->
  4 <= Py.len (Py.strip username_entry)
  /\ 6 <= Py.len (Py.strip password_entry)
  /\ Py.strip password_entry = Py.strip confirm_entry
  /\ sqlite3.role_check (Py.strip role_combo) = true
  /\ DatabaseHandler.get_user (db controller) (Py.strip username_entry) = None
  /\ exists hashed,
       bcrypt.hashpw (Py.encode (Py.strip password_entry)) gensalt
       = Some hashed.
Proof.
  unfold RegisterFrame.register.
  destruct (Py.is_empty (Py.strip username_entry)
            || Py.is_empty (Py.strip password_entry)
            || Py.is_empty (Py.strip confirm_entry)); [discriminate|].
  destruct (Py.len (Py.strip username_entry) <? 4) eqn:Eulen; [discriminate|].
  destruct (Py.len (Py.strip password_entry) <? 6) eqn:Eplen; [discriminate|].
  destruct (Py.strip password_entry =? Py.strip confirm_entry)%string eqn:Esame;
    cbn [negb]; [|discriminate].
  apply Z.ltb_ge in Eulen, Eplen. apply String.eqb_eq in Esame.
  destruct (DatabaseHandler.add_user _ _ _ _ _) as [d' ok] eqn:Eadd.
  destruct ok as [[|]|e]; cbn [snd]; [intros _|discriminate|discriminate].
  apply add_user_true in Eadd as (Hfree & Hrole & hashed & Hhash & _).
  repeat (split; [assumption|]). now exists hashed.
Qed.

(** X17.  Registration and login agree on what was typed: after [register]
    succeeded, [login] with the same username and password entries (blanks
    around them included) logs the new user in, with the role chosen. *)
Theorem register_then_login `{bcrypt.kdf}
    (controller : E_LearningApp) (gensalt : list byte)
    (username_entry password_entry confirm_entry role_combo : string) :
  let result :=
    RegisterFrame.register controller gensalt username_entry password_entry
                           confirm_entry role_combo in
  snd result
  = Shows (showinfo "Registration Successful"
                    "You have registered successfully. Please log in.") ->
  exists user_id,
    ~ In user_id (map Users.id (rows (users (db controller))))
    /\ LoginFrame.login (fst result) username_entry password_entry
       = ({| db := db (fst result);
             current_user :=
               Some {| Session.id := user_id;
                       Session.username := Py.strip username_entry;
                       Session.role := Py.strip role_combo |} |},
          Shows (showinfo "Login Successful"
                   ("Welcome, " ++ Py.strip username_entry ++ "!")%string)).
Proof.
  intros result Hok.
  apply register_accepted in Hok
    as (Hulen & Hplen & Hsame & Hrole & Hfree & hashed & Hhash).
  subst result. unfold RegisterFrame.register.
  assert (Eu : Py.is_empty (Py.strip username_entry) = false).
  { apply not_true_is_false. intros E. apply len_empty in E. lia. }
  assert (Ep : Py.is_empty (Py.strip password_entry) = false).
  { apply not_true_is_false. intros E. apply len_empty in E. lia. }
  assert (Eq : Py.is_empty (Py.strip confirm_entry) = false)
    by (now rewrite <- Hsame).
  rewrite Eu, Ep, Eq. cbn [orb].
  apply Z.ltb_ge in Hulen, Hplen. rewrite Hulen, Hplen.
  apply String.eqb_eq in Hsame. rewrite Hsame. cbn [negb].
  rewrite (add_user_fresh (db controller) gensalt _ _ _ _ Hfree Hrole Hhash).
  cbn [fst snd with_db db].
  exists (sqlite3.next_rowid Users.id (users (db controller))).
  split; [apply next_rowid_fresh|].
  unfold LoginFrame.login. rewrite Eu, Ep. cbn [orb db].
  set (u := {| Users.id := sqlite3.next_rowid Users.id (users (db controller));
               Users.username := Py.strip username_entry;
               Users.password := hashed;
               Users.role := Py.strip role_combo |}).
  set (d' := {| users := _; courses := _; enrollments := _ |}).
  assert (Hfound : DatabaseHandler.get_user d' (Py.strip username_entry)
                   = Some u)
    by (apply get_user_appended; auto).
  rewrite (authenticate_found d' _ _ u Hfound).
  unfold u at 1. cbn [Users.password].
  rewrite (checkpw_hashpw _ _ _ Hhash).
  reflexivity.
Qed.

Lemma register_then_login_witness :
  exists user_id,
    @LoginFrame.login bcrypt.toy
      (fst (@RegisterFrame.register bcrypt.toy
              {| db := Scenario.started; current_user := None |}
              (Scenario.salt_of "s1") " alice " "wonderland" "wonderland "
              "Student"))
      " alice " "wonderland"
    = ({| db := db (fst (@RegisterFrame.register bcrypt.toy
                           {| db := Scenario.started; current_user := None |}
                           (Scenario.salt_of "s1") " alice " "wonderland"
                           "wonderland " "Student"));
          current_user :=
            Some {| Session.id := user_id;
                    Session.username := "alice";
                    Session.role := "Student" |} |},
       Shows (showinfo "Login Successful" "Welcome, alice!")).
Proof.
  destruct (@register_then_login bcrypt.toy
              {| db := Scenario.started; current_user := None |}
              (Scenario.salt_of "s1") " alice " "wonderland" "wonderland "
              "Student" eq_refl)
    as (user_id & _ & Hlogin).
  exists user_id. exact Hlogin.
Defined.

(* ================================================================== *)
(** ** The progress entry *)

Lemma int_from_decimal (s : string) (acc : Z) :
  Py.all_chars (fun c => match Py.decimal_value c with
                         | Some _ => true
                         | None => false
                         end) s = true ->
  0 <= acc ->
  exists v, Py.int_from acc s = Some v /\ 0 <= v.
Proof.
  revert acc.
  induction s as [|c s IH]; intros acc Hall Hacc;
    cbn [Py.int_from Py.all_chars] in *.
  - now exists acc.
  - apply andb_true_iff in Hall as [Hc Hs].
    destruct (Py.decimal_value c) as [digit|] eqn:Ec; [|discriminate].
    apply IH; [assumption|].
    unfold Py.decimal_value in Ec.
    destruct ((48 <=? N_of_ascii c) && (N_of_ascii c <=? 57))%N eqn:Erange;
      [|discriminate].
    injection Ec as <-.
    apply andb_true_iff in Erange as [Hlo _]. apply N.leb_le in Hlo. lia.
Qed.

(** A digit is no blank, no sign and no underscore. *)
Lemma digit_is_plain (c : ascii) :
  Py.isdigit_char c = true ->
  Py.int_blank c = false
  /\ (c =? "_")%char = false
  /\ (c =? "+")%char = false
  /\ (c =? "-")%char = false.
Proof.
  destruct c as [[] [] [] [] [] [] [] []]; vm_compute;
    intuition discriminate.
Qed.

Lemma int_from_not_decimal (s : string) (acc : Z) :
  Py.all_chars Py.isdigit_char s = true ->
  Py.all_chars Py.is_decimal s = false ->
  Py.int_from acc s = None.
Proof.
  revert acc.
  induction s as [|c s IH]; intros acc Hdigits Hall;
    cbn [Py.int_from Py.all_chars] in *; [discriminate|].
  apply andb_true_iff in Hdigits as [Hc Hs].
  unfold Py.is_decimal in Hall at 1.
  destruct (Py.decimal_value c); [now apply IH|].
  destruct (digit_is_plain c Hc) as (Hblank & -> & _).
  now rewrite Hblank.
Qed.

Lemma count_decimals_all (s : string) :
  Py.all_chars Py.is_decimal s = true -> Py.count_decimals s = Py.len s.
Proof.
  unfold Py.len.
  induction s as [|c s IH]; cbn [Py.all_chars Py.count_decimals String.length];
    [reflexivity|].
  intros Hall. apply andb_true_iff in Hall as [-> Hs]. rewrite (IH Hs). lia.
Qed.

(** [int] on text that passed [isdigit]: the value of the numeral when
    every digit is decimal and there are at most 4300 of them. *)
Lemma int_of_digits (text : string) :
  Py.isdigit text = true ->
  Py.int text
  = if Py.all_chars Py.is_decimal text
    then if 4300 <? Py.len text then None else Py.int_from 0 text
    else None.
Proof.
  unfold Py.isdigit. destruct text as [|c r]; [discriminate|].
  cbn [Py.is_empty negb andb]. intros Hdigits.
  pose proof Hdigits as Hall. cbn [Py.all_chars] in Hall.
  apply andb_true_iff in Hall as [Hc _].
  destruct (digit_is_plain c Hc) as (Hblank & _ & Hplus & Hminus).
  unfold Py.int. cbn [Py.skip_blanks]. rewrite Hblank, Hplus, Hminus.
  cbn [fst snd].
  destruct (Py.all_chars Py.is_decimal (String c r)) eqn:Hall.
  - pose proof Hall as Hfirst. cbn [Py.all_chars] in Hfirst.
    apply andb_true_iff in Hfirst as [-> _]. cbn [negb].
    rewrite (count_decimals_all _ Hall). unfold Py.int_max_str_digits.
    destruct (4300 <? _); [reflexivity|].
    now destruct (Py.int_from 0 (String c r)).
  - destruct (negb (Py.is_decimal c)); [reflexivity|].
    destruct (_ <? _); [reflexivity|].
    now rewrite (int_from_not_decimal _ 0 Hdigits Hall).
Qed.

Lemma decimal_is_digit (s : string) :
  Py.all_chars (fun c => match Py.decimal_value c with
                         | Some _ => true
                         | None => false
                         end) s = true ->
  Py.all_chars Py.isdigit_char s = true.
Proof.
  induction s as [|c s IH]; simpl; [reflexivity|]. intros Hall.
  apply andb_true_iff in Hall as [Hc Hs]. rewrite (IH Hs), andb_true_r.
  unfold Py.decimal_value in Hc. unfold Py.isdigit_char.
  destruct (_ && _)%N; [reflexivity | discriminate].
Qed.

(** X18.  What [CourseDetailsFrame.update_progress] does with its entry before
    it touches the store.  Text that is not all digits is refused with the
    Input Error box.  Text of digits one of which is no decimal digit (a
    superscript two passes [isdigit]) makes [int] raise ValueError, which
    nothing catches.  A decimal numeral above 100 is refused with the Input
    Error box (one of at most 4300 digits: since Python 3.11 [int] refuses
    longer text).  In all three cases nothing is written. *)
Theorem course_progress_entry_is_checked (controller : E_LearningApp)
    (progress_entry : string) (selected : option (Z * string * string)) :
  let text := Py.strip progress_entry in
  let decimal := fun c => match Py.decimal_value c with
                          | Some _ => true
                          | None => false
                          end in
  let result :=
    CourseDetailsFrame.update_progress controller progress_entry selected in
  let refused :=
    (controller,
     Shows (showerror "Input Error"
              "Please enter a valid progress percentage (0-100).")) in
  (Py.isdigit text = false -> result = refused)
  /\ (Py.isdigit text = true -> Py.all_chars decimal text = false ->
      result = (controller, Raises ValueError))
  /\ (Py.is_empty text = false -> Py.all_chars decimal text = true ->
      Py.len text <= 4300 ->
      exists progress,
        Py.int text = Some progress /\ 0 <= progress
        /\ (100 < progress -> result = refused)).
Proof.
  intros text decimal result refused. subst result refused.
  unfold CourseDetailsFrame.update_progress. fold text.
  split; [|split].
  - intros ->. reflexivity.
  - intros Hdigits Hbad. rewrite (int_of_digits text Hdigits), Hdigits.
    change (Py.all_chars Py.is_decimal text = false) in Hbad.
    now rewrite Hbad.
  - intros Hnonempty Hgood Hshort.
    destruct (int_from_decimal text 0 Hgood) as (progress & Hint & Hpos);
      [lia|].
    assert (Hdigits : Py.isdigit text = true).
    { unfold Py.isdigit.
      now rewrite Hnonempty, (decimal_is_digit text Hgood). }
    assert (Hvalue : Py.int text = Some progress).
    { rewrite (int_of_digits text Hdigits).
      change (Py.all_chars Py.is_decimal text = true) in Hgood.
      rewrite Hgood.
      replace (4300 <? Py.len text) with false; [assumption|].
      symmetry. apply Z.ltb_ge. assumption. }
    exists progress. split; [assumption|]. split; [assumption|].
    intros Hbig. rewrite Hdigits, Hvalue. cbn [negb].
    assert (Ehi : (progress <=? 100) = false) by (apply Z.leb_gt; lia).
    rewrite Ehi, andb_false_r. reflexivity.
Qed.

Lemma course_progress_entry_is_checked_witness :
  CourseDetailsFrame.update_progress
    {| db := Scenario.classroom; current_user := None |}
    (String "1" (String (ascii_of_N 178) EmptyString))
    (Some (1, "Logic"%string, "10.00"%string))
  = ({| db := Scenario.classroom; current_user := None |}, Raises ValueError)
  /\ CourseDetailsFrame.update_progress
       {| db := Scenario.classroom; current_user := None |}
       "seventy" (Some (1, "Logic"%string, "10.00"%string))
     = ({| db := Scenario.classroom; current_user := None |},
        Shows (showerror "Input Error"
                 "Please enter a valid progress percentage (0-100).")).
Proof.
  split.
  - apply (course_progress_entry_is_checked
             {| db := Scenario.classroom; current_user := None |}
             (String "1" (String (ascii_of_N 178) EmptyString))
             (Some (1, "Logic"%string, "10.00"%string))); reflexivity.
  - apply (course_progress_entry_is_checked
             {| db := Scenario.classroom; current_user := None |}
             "seventy" (Some (1, "Logic"%string, "10.00"%string)));
      reflexivity.
Defined.

(* ================================================================== *)
(** ** Progress of one enrollment *)

(** X19.  [DatabaseHandler.update_progress] keeps the rows and their rowids,
    writes the value it is given on every row of the pair without looking
    at its range, leaves the rows of every other pair as they are, and the
    last of two writes to a pair is the one that stays. *)
Theorem update_progress_last_write_wins (d : database)
    (student_id course_id first_value last_value : Z) :
  let once :=
    DatabaseHandler.update_progress d student_id course_id last_value in
  DatabaseHandler.update_progress
    (DatabaseHandler.update_progress d student_id course_id first_value)
    student_id course_id last_value
  = once
  /\ map Enrollments.id (rows (enrollments once))
     = map Enrollments.id (rows (enrollments d))
  /\ (forall e, In e (rows (enrollments once)) ->
                Enrollments.student_id e = student_id ->
                Enrollments.course_id e = course_id ->
                Enrollments.progress e = last_value)
  /\ (forall e, In e (rows (enrollments d)) ->
                (Enrollments.student_id e <> student_id
                 \/ Enrollments.course_id e <> course_id) ->
                In e (rows (enrollments once))).
Proof.
  cbn zeta. unfold DatabaseHandler.update_progress, sqlite3.update_where.
  cbn [users courses enrollments rows sqlite_sequence].
  split; [|split; [|split]].
  - f_equal. f_equal. rewrite map_map. apply map_ext. intros e.
    destruct ((Enrollments.student_id e =? student_id)
              && (Enrollments.course_id e =? course_id)) eqn:E.
    + cbn [DatabaseHandler.set_progress Enrollments.student_id
           Enrollments.course_id]. rewrite E. reflexivity.
    + rewrite E. reflexivity.
  - rewrite map_map. apply map_ext. intros e. now destruct (_ && _).
  - intros e' He' Hs Hc. apply in_map_iff in He' as (e & <- & He).
    destruct ((Enrollments.student_id e =? student_id)
              && (Enrollments.course_id e =? course_id)) eqn:E;
      [reflexivity|].
    apply andb_false_iff in E as [E|E]; apply Z.eqb_neq in E; contradiction.
  - intros e He Hother. apply in_map_iff. exists e. split; [|assumption].
    destruct ((Enrollments.student_id e =? student_id)
              && (Enrollments.course_id e =? course_id)) eqn:E;
      [|reflexivity].
    apply andb_true_iff in E as [Es Ec]. apply Z.eqb_eq in Es, Ec.
    destruct Hother; contradiction.
Qed.

(* ================================================================== *)
(** ** Deleting a course *)

(** X20.  An instructor's tree lists [get_instructor_courses] of the session.
    Deleting a course picked from it removes that course, which is the
    session's own, and keeps every course of every other instructor;
    answering no to the confirmation keeps everything. *)
Theorem instructor_deletes_own_course_only (controller : E_LearningApp)
    (me : Session.t) (course_id : Z) (title shown_title shown_price : string)
    (price : Q) :
  keys_hold (db controller) ->
  current_user controller = Some me ->
  In (course_id, title, price)
     (DatabaseHandler.get_instructor_courses (db controller) (Session.id me)) ->
  let selected := Some (course_id, shown_title, shown_price) in
  let after :=
    db (fst (InstructorDashboard.delete_course controller selected true)) in
  (forall c, In c (rows (courses after)) <->
             In c (rows (courses (db controller)))
             /\ Courses.id c <> course_id)
  /\ (forall c, In c (rows (courses (db controller))) ->
                Courses.instructor_id c <> Session.id me ->
                In c (rows (courses after)))
  /\ (exists mine, In mine (rows (courses (db controller)))
                   /\ Courses.id mine = course_id
                   /\ Courses.instructor_id mine = Session.id me
                   /\ ~ In mine (rows (courses after)))
  /\ InstructorDashboard.delete_course controller selected false
     = (controller, Quiet).
Proof.
  intros Hkeys Hme Hlisted selected after. subst selected after.
  unfold DatabaseHandler.get_instructor_courses in Hlisted.
  apply in_map_iff in Hlisted as (mine & E & Hmine).
  injection E as Hid Htitle Hprice.
  apply filter_In in Hmine as [Hmine Hown]. apply Z.eqb_eq in Hown.
  cbn [InstructorDashboard.delete_course fst db with_db
       DatabaseHandler.delete_course courses rows sqlite3.delete_where].
  assert (Hafter : forall c,
            In c (filter (fun r => negb (Courses.id r =? course_id))
                         (rows (courses (db controller))))
            <-> In c (rows (courses (db controller)))
                /\ Courses.id c <> course_id).
  { intros c. now rewrite filter_In, negb_true_iff, Z.eqb_neq. }
  split; [exact Hafter|]. split; [|split; [|reflexivity]].
  - intros c Hc Hother. apply Hafter. split; [assumption|].
    intros Hsame. apply Hother.
    assert (c = mine) as ->; [|assumption].
    apply (NoDup_map_injective Courses.id (rows (courses (db controller))));
      auto; [apply Hkeys | congruence].
  - exists mine. repeat split; auto.
    intros Hstill. apply Hafter in Hstill as [_ Hne]. contradiction.
Qed.

Lemma instructor_deletes_own_course_only_witness :
  exists mine,
    In mine (rows (courses Scenario.classroom))
    /\ Courses.id mine = 2
    /\ ~ In mine
         (rows (courses
                  (db (fst (InstructorDashboard.delete_course
                              {| db := Scenario.classroom;
                                 current_user :=
                                   Some {| Session.id := 4;
                                           Session.username := "carol";
                                           Session.role := "Instructor" |} |}
                              (Some (2, "Sets"%string, "0.00"%string))
                              true))))).
Proof.
  destruct (instructor_deletes_own_course_only
              {| db := Scenario.classroom;
                 current_user :=
                   Some {| Session.id := 4; Session.username := "carol";
                           Session.role := "Instructor" |} |}
              {| Session.id := 4; Session.username := "carol";
                 Session.role := "Instructor" |}
              2 "Sets" "Sets" "0.00" (0 # 1) classroom_keys_hold eq_refl)
    as (_ & _ & (mine & Hmine & Hid & _ & Hgone) & _).
  - vm_compute. tauto.
  - exists mine. auto.
Defined.

(* ================================================================== *)
(** ** Enrolling from the dashboard *)

(** X21.  With a course selected and somebody logged in, [enroll_course] always
    enrolls: it appends a row for the session's user and the selected
    course with progress 0 and shows the Enrollment box, whether or not
    such a row exists already.  Its "already enrolled" box is never
    shown. *)
Theorem enroll_course_always_enrolls (controller : E_LearningApp)
    (me : Session.t) (course_id : Z) (title instructor shown_price : string) :
  current_user controller = Some me ->
  let result :=
    StudentDashboard.enroll_course
      controller (Some (course_id, title, instructor, shown_price)) in
  snd result
  = Shows (showinfo "Enrollment"
             ("You have enrolled in '" ++ title ++ "' successfully.")%string)
  /\ (exists enrollment_id,
        ~ In enrollment_id
             (map Enrollments.id (rows (enrollments (db controller))))
        /\ rows (enrollments (db (fst result)))
           = rows (enrollments (db controller))
             ++ [ {| Enrollments.id := enrollment_id;
                     Enrollments.student_id := Session.id me;
                     Enrollments.course_id := course_id;
                     Enrollments.progress := 0 |} ])
  /\ List.length (enrollments_of (db (fst result)) (Session.id me) course_id)
     = S (List.length
            (enrollments_of (db controller) (Session.id me) course_id))
  /\ users (db (fst result)) = users (db controller)
  /\ courses (db (fst result)) = courses (db controller).
Proof.
  intros Hme result. subst result.
  unfold StudentDashboard.enroll_course. rewrite Hme.
  rewrite enroll_student_inserts. cbn [fst snd db with_db].
  split; [reflexivity|]. split.
  { exists (sqlite3.next_rowid Enrollments.id (enrollments (db controller))).
    split; [apply next_rowid_fresh | reflexivity]. }
  split; [|split; reflexivity].
  unfold enrollments_of. cbn [enrollments rows].
  rewrite filter_app, List.length_app. cbn. rewrite !Z.eqb_refl. cbn. lia.
Qed.

Lemma enroll_course_always_enrolls_witness :
  List.length
    (enrollments_of
       (db (fst (StudentDashboard.enroll_course
                   {| db := Scenario.classroom;
                      current_user :=
                        Some {| Session.id := 2; Session.username := "alice";
                                Session.role := "Student" |} |}
                   (Some (1, "Logic"%string, "carol"%string,
                          "10.00"%string)))))
       2 1)
  = 2%nat.
Proof.
  destruct (enroll_course_always_enrolls
              {| db := Scenario.classroom;
                 current_user :=
                   Some {| Session.id := 2; Session.username := "alice";
                           Session.role := "Student" |} |}
              {| Session.id := 2; Session.username := "alice";
                 Session.role := "Student" |}
              1 "Logic" "carol" "10.00" eq_refl)
    as (_ & _ & Hcount & _).
  exact Hcount.
Defined.

Lemma select_one {R : Type} (key : R -> Z) (l : list R) (r : R) :
  NoDup (map key l) -> In r l ->
  filter (fun x => key r =? key x) l = [r].
Proof.
  intros Hkey Hr. rewrite (select_by_key key (key r) l Hkey).
  destruct (find (fun x => key r =? key x) l) as [r'|] eqn:Efind.
  - apply find_some in Efind as [Hr' E]. apply Z.eqb_eq in E.
    f_equal. symmetry. now apply (NoDup_map_injective key l r r').
  - exfalso. apply (find_none _ _ Efind) in Hr.
    now rewrite Z.eqb_refl in Hr.
Qed.

(** X22.  What the student sees after [enroll_course], which ends by reloading
    the enrollments tree.  When the selected id is the id of a stored
    course, the tree is the one before with one more row at its end, the
    title of that course at progress 0 (so a second click shows the course
    twice).  When no stored course has the id (the course was deleted after
    the courses tree was loaded), the tree is the one before, although the
    Enrollment box is shown and a row is stored. *)
Theorem enrollment_shows_in_the_student_tree (controller : E_LearningApp)
    (me : Session.t) (course_id : Z)
    (shown_title shown_instructor shown_price : string) :
  keys_hold (db controller) ->
  current_user controller = Some me ->
  let result :=
    StudentDashboard.enroll_course
      controller
      (Some (course_id, shown_title, shown_instructor, shown_price)) in
  exists before,
    StudentDashboard.load_enrollments controller = Some before
    /\ (forall c, In c (rows (courses (db controller))) ->
                  Courses.id c = course_id ->
                  StudentDashboard.load_enrollments (fst result)
                  = Some (before ++ [(Courses.title c, 0)]))
    /\ ((forall c, In c (rows (courses (db controller))) ->
                   Courses.id c <> course_id) ->
        StudentDashboard.load_enrollments (fst result) = Some before
        /\ List.length (rows (enrollments (db (fst result))))
           = S (List.length (rows (enrollments (db controller))))).
Proof.
  intros Hkeys Hme result. subst result.
  unfold StudentDashboard.enroll_course. rewrite Hme.
  rewrite enroll_student_inserts.
  unfold StudentDashboard.load_enrollments, with_db.
  cbn [fst snd db current_user]. rewrite Hme.
  eexists. split; [reflexivity|].
  unfold DatabaseHandler.get_student_enrollments.
  cbn [enrollments rows courses].
  rewrite filter_app. cbn [filter Enrollments.student_id].
  rewrite Z.eqb_refl, flat_map_app, map_app.
  cbn [flat_map Enrollments.course_id Enrollments.progress].
  rewrite app_nil_r. split.
  - intros c Hc <-.
    rewrite (select_one Courses.id _ c (courses_id_key _ Hkeys) Hc).
    reflexivity.
  - intros Hnone.
    replace (filter (fun c => course_id =? Courses.id c)
                    (rows (courses (db controller)))) with (@nil Courses.row).
    + cbn [map]. rewrite app_nil_r, List.length_app. cbn [List.length].
      split; [reflexivity | lia].
    + symmetry. apply filter_nil_iff. intros c Hc. apply Z.eqb_neq.
      intros E. now apply (Hnone c Hc).
Qed.

Lemma enrollment_shows_in_the_student_tree_witness :
  exists before,
    StudentDashboard.load_enrollments
      {| db := Scenario.classroom;
         current_user :=
           Some {| Session.id := 2; Session.username := "alice";
                   Session.role := "Student" |} |}
    = Some before
    /\ StudentDashboard.load_enrollments
         (fst (StudentDashboard.enroll_course
                 {| db := Scenario.classroom;
                    current_user :=
                      Some {| Session.id := 2; Session.username := "alice";
                              Session.role := "Student" |} |}
                 (Some (1, "Logic"%string, "carol"%string, "10.00"%string))))
       = Some (before ++ [("Logic"%string, 0)]).
Proof.
  destruct (enrollment_shows_in_the_student_tree
              {| db := Scenario.classroom;
                 current_user :=
                   Some {| Session.id := 2; Session.username := "alice";
                           Session.role := "Student" |} |}
              {| Session.id := 2; Session.username := "alice";
                 Session.role := "Student" |}
              1 "Logic" "carol" "10.00" classroom_keys_hold eq_refl)
    as (before & Hbefore & Hadded & _).
  exists before. split; [exact Hbefore|].
  apply (Hadded {| Courses.id := 1; Courses.title := "Logic";
                   Courses.description := "Proofs";
                   Courses.instructor_id := 4;
                   Courses.price := 10 # 1 |}).
  - left. reflexivity.
  - reflexivity.
Defined.

(* ================================================================== *)
(** ** Searching *)

Lemma prefix_iff (q t : string) :
  String.prefix q t = true <-> exists b, t = (q ++ b)%string.
Proof.
  revert t. induction q as [|c q IH]; intros t; simpl.
  - split; [intros _; now exists t | now destruct t].
  - destruct t as [|c' t]; simpl.
    + split; [discriminate | intros [b E]; discriminate].
    + destruct (ascii_dec c c') as [->|Hne].
      * rewrite IH. split; intros [b E]; exists b; congruence.
      * split; [discriminate|]. intros [b E]. congruence.
Qed.

(** [q in t]: [t] is something, then [q], then something. *)
Lemma contains_iff (q t : string) :
  Py.contains q t = true <-> exists a b, t = (a ++ q ++ b)%string.
Proof.
  induction t as [|c t IH]; cbn [Py.contains].
  - rewrite orb_false_r, prefix_iff. split.
    + intros [b E]. now exists EmptyString, b.
    + intros (a & b & E). destruct a; [now exists b|discriminate].
  - rewrite orb_true_iff, prefix_iff, IH. split.
    + intros [[b E]|(a & b & E)].
      * now exists EmptyString, b.
      * exists (String c a), b. simpl. congruence.
    + intros (a & b & E). destruct a as [|c' a]; simpl in E.
      * left. now exists b.
      * right. exists a, b. congruence.
Qed.

Lemma lower_empty (s : string) : Py.is_empty (Py.lower s) = Py.is_empty s.
Proof. now destruct s. Qed.

(** X23.  [search_users] warns on a blank entry; otherwise it lists, in the
    order of the full list, exactly the users whose username contains the
    entry (stripped), letter case ignored on both sides. *)
Theorem search_users_finds_by_part_of_the_name (controller : E_LearningApp)
    (search_entry : string) :
  (Py.is_empty (Py.strip search_entry) = true ->
   AdminDashboard.search_users controller search_entry
   = inr (showwarning "Input Error" "Please enter a search term."))
  /\ (Py.is_empty (Py.strip search_entry) = false ->
      exists found,
        AdminDashboard.search_users controller search_entry = inl found
        /\ (exists keep,
              found = filter keep (AdminDashboard.load_users controller))
        /\ forall user_id username role,
             In (user_id, username, role) found
             <-> In (user_id, username, role)
                    (AdminDashboard.load_users controller)
                 /\ exists before after,
                      Py.lower username
                      = (before ++ Py.lower (Py.strip search_entry)
                         ++ after)%string).
Proof.
  unfold AdminDashboard.search_users, AdminDashboard.load_users.
  rewrite lower_empty. split.
  - intros ->. reflexivity.
  - intros ->. eexists. split; [reflexivity|]. split; [now eexists|].
    intros user_id username role.
    rewrite filter_In, contains_iff. reflexivity.
Qed.

Lemma search_users_finds_by_part_of_the_name_witness :
  AdminDashboard.search_users
    {| db := Scenario.classroom; current_user := Some Scenario.admin_session |}
    "  "
  = inr (showwarning "Input Error" "Please enter a search term.")
  /\ exists found,
       AdminDashboard.search_users
         {| db := Scenario.classroom;
            current_user := Some Scenario.admin_session |}
         " LIC "
       = inl found
       /\ In (2, "alice"%string, "Student"%string) found.
Proof.
  destruct (search_users_finds_by_part_of_the_name
              {| db := Scenario.classroom;
                 current_user := Some Scenario.admin_session |} "  ")
    as [Hblank _].
  destruct (search_users_finds_by_part_of_the_name
              {| db := Scenario.classroom;
                 current_user := Some Scenario.admin_session |} " LIC ")
    as [_ Hfound].
  split; [now apply Hblank|].
  destruct (Hfound eq_refl) as (found & Hrun & _ & Hin).
  exists found. split; [assumption|]. apply Hin. split.
  - vm_compute. tauto.
  - now exists "a"%string, "e"%string.
Defined.

(** X24.  [search_courses] does the same on course titles: a blank entry is
    refused, and otherwise the courses listed are, in the order of
    [get_all_courses], exactly those whose title contains the entry
    (stripped), letter case ignored on both sides. *)
Theorem search_courses_finds_by_part_of_the_title (controller : E_LearningApp)
    (search_entry : string) :
  (Py.is_empty (Py.strip search_entry) = true ->
   StudentDashboard.search_courses controller search_entry
   = inr (showwarning "Input Error" "Please enter a search term."))
  /\ (Py.is_empty (Py.strip search_entry) = false ->
      exists found,
        StudentDashboard.search_courses controller search_entry = inl found
        /\ (exists keep,
              found
              = filter keep (DatabaseHandler.get_all_courses (db controller)))
        /\ forall course_id title description instructor price,
             In (course_id, title, description, instructor, price) found
             <-> In (course_id, title, description, instructor, price)
                    (DatabaseHandler.get_all_courses (db controller))
                 /\ exists before after,
                      Py.lower title
                      = (before ++ Py.lower (Py.strip search_entry)
                         ++ after)%string).
Proof.
  unfold StudentDashboard.search_courses.
  rewrite lower_empty. split.
  - intros ->. reflexivity.
  - intros ->. eexists. split; [reflexivity|]. split; [now eexists|].
    intros course_id title description instructor price.
    rewrite filter_In, contains_iff. reflexivity.
Qed.

Lemma search_courses_finds_by_part_of_the_title_witness :
  exists found,
    StudentDashboard.search_courses
      {| db := Scenario.classroom; current_user := None |} "LOG"
    = inl found
    /\ In (1, "Logic"%string, "Proofs"%string, "carol"%string, 10 # 1) found.
Proof.
  destruct (search_courses_finds_by_part_of_the_title
              {| db := Scenario.classroom; current_user := None |} "LOG")
    as [_ Hfound].
  destruct (Hfound eq_refl) as (found & Hrun & _ & Hin).
  exists found. split; [assumption|]. apply Hin. split.
  - vm_compute. tauto.
  - now exists ""%string, "ic"%string.
Defined.

(* ================================================================== *)
(** ** From the instructor's entry to the student's list *)

Lemma flat_map_after_map {A B C : Type} (f : A -> B) (g : B -> list C)
    (l : list A) :
  flat_map g (map f l) = flat_map (fun a => g (f a)) l.
Proof.
  induction l as [|a l IH]; simpl; [reflexivity|]. now rewrite IH.
Qed.

Lemma flat_map_agree {A B : Type} (g h : A -> list B) (l : list A) :
  (forall a, In a l -> g a = h a) -> flat_map g l = flat_map h l.
Proof.
  induction l as [|a l IH]; simpl; [reflexivity|]. intros Hagree.
  rewrite (Hagree a (or_introl eq_refl)), IH; [reflexivity|].
  intros b Hb. apply Hagree. now right.
Qed.

(** X25.  When an instructor sets the progress of a course, a student who has
    an account and an enrollment in that course sees it: in the list
    [get_student_enrollments] gives for that student afterwards, every
    entry of the course carries the new value, and the entries of the
    student's other courses carry the value they had.  (The entry has at
    most 4300 digits: since Python 3.11 [int] refuses longer text.) *)
Theorem course_progress_reaches_the_student (controller : E_LearningApp)
    (progress_entry : string) (progress : Z)
    (course_id : Z) (title shown_price : string) (student_id : Z) :
  keys_hold (db controller) ->
  Py.isdigit (Py.strip progress_entry) = true ->
  Py.int (Py.strip progress_entry) = Some progress ->
  Py.len (Py.strip progress_entry) <= 4300 ->
  0 <= progress <= 100 ->
  (exists u, In u (rows (users (db controller))) /\ Users.id u = student_id) ->
  (exists e, In e (rows (enrollments (db controller)))
             /\ Enrollments.student_id e = student_id
             /\ Enrollments.course_id e = course_id) ->
  let d := db controller in
  let after :=
    db (fst (CourseDetailsFrame.update_progress
               controller progress_entry
               (Some (course_id, title, shown_price)))) in
  DatabaseHandler.get_student_enrollments after student_id
  = flat_map
      (fun e =>
         map (fun c => (Courses.title c, Courses.description c,
                        Courses.price c,
                        if Enrollments.course_id e =? course_id
                        then progress else Enrollments.progress e))
             (filter (fun c => Enrollments.course_id e =? Courses.id c)
                     (rows (courses d))))
      (filter (fun e => Enrollments.student_id e =? student_id)
              (rows (enrollments d))).
Proof.
  intros Hkeys Hdigit Hint _ Hrange (u & Hu & Huid) (e0 & He0 & Hs0 & Hc0)
         d after.
  assert (Hexists : forall e, In e (rows (enrollments d)) ->
                              Enrollments.student_id e = student_id ->
                              student_exists d e = true).
  { intros e He Hs. apply existsb_exists. exists u. split; [assumption|].
    apply Z.eqb_eq. congruence. }
  assert (Hafter :
    after
    = {| users := users d;
         courses := courses d;
         enrollments :=
           {| rows :=
                map (fun e =>
                       if existsb (fun x => Enrollments.id e =? fst x)
                                  (CourseDetailsFrame.enrolled d course_id)
                       then DatabaseHandler.set_progress progress e else e)
                    (rows (enrollments d));
              sqlite_sequence := sqlite_sequence (enrollments d) |} |}).
  { subst after. unfold CourseDetailsFrame.update_progress.
    rewrite Hdigit, Hint. cbn [negb].
    assert (Hin : (0 <=? progress) && (progress <=? 100) = true)
      by (apply andb_true_iff; split; apply Z.leb_le; lia).
    rewrite Hin. cbn [negb]. fold d.
    destruct (CourseDetailsFrame.enrolled d course_id) as [|x l] eqn:E.
    - exfalso. apply enrolled_nil_iff in E. rewrite filter_nil_iff in E.
      specialize (E e0 He0).
      rewrite (Hexists e0 He0 Hs0), andb_true_r in E.
      apply Z.eqb_neq in E. contradiction.
    - rewrite <- E, update_all. reflexivity. }
  rewrite Hafter. unfold DatabaseHandler.get_student_enrollments.
  cbn [enrollments rows courses].
  rewrite filter_map_commute
    by (intros e; now destruct (existsb _ _)).
  rewrite flat_map_after_map. apply flat_map_agree.
  intros e He. apply filter_In in He as [He Hs]. apply Z.eqb_eq in Hs.
  rewrite (selected_iff_hit d course_id e (enrollments_id_key d Hkeys) He).
  rewrite (Hexists e He Hs), andb_true_r.
  now destruct (Enrollments.course_id e =? course_id).
Qed.

Lemma course_progress_reaches_the_student_witness :
  map (fun entry : string * string * Q * Z => (fst (fst (fst entry)), snd entry))
      (DatabaseHandler.get_student_enrollments
         (db (fst (CourseDetailsFrame.update_progress
                     {| db := Scenario.classroom; current_user := None |}
                     "75" (Some (1, "Logic"%string, "10.00"%string)))))
         2)
  = [("Logic"%string, 75); ("Sets"%string, 0)].
Proof.
  rewrite (course_progress_reaches_the_student
             {| db := Scenario.classroom; current_user := None |}
             "75" 75 1 "Logic" "10.00" 2 classroom_keys_hold
             eq_refl eq_refl ltac:(vm_compute; discriminate) ltac:(lia)).
  - reflexivity.
  - eexists. split; [right; left; reflexivity | reflexivity].
  - eexists. split; [left; reflexivity|]. split; reflexivity.
Defined.

(* ================================================================== *)
(** ** What a deleted account leaves behind *)

(** X26.  A course whose instructor was deleted is stored and out of reach: it
    is in no list a course can be selected from (not in [get_all_courses],
    not in the list of any instructor who has an account), and its title
    stays taken, so [add_course] refuses it. *)
Theorem orphaned_course_blocks_its_title (d : database) (c : Courses.row) :
  keys_hold d ->
  In c (rows (courses d)) ->
  let d' := DatabaseHandler.delete_user d (Courses.instructor_id c) in
  In c (rows (courses d'))
  /\ (forall row, In row (DatabaseHandler.get_all_courses d') ->
                  fst (fst (fst (fst row))) <> Courses.id c)
  /\ (forall u row,
        In u (rows (users d')) ->
        In row (DatabaseHandler.get_instructor_courses d' (Users.id u)) ->
        fst (fst row) <> Courses.id c)
  /\ (forall description instructor_id price,
        DatabaseHandler.add_course d' (Courses.title c) description
                                   instructor_id price
        = (d', false)).
Proof.
  intros Hkeys Hc d'. subst d'. split; [exact Hc|]. split; [|split].
  - intros row Hrow E.
    apply in_get_all_courses in Hrow as (c' & u & Hc' & Hu & Eown & ->).
    simpl in Hc', Hu, E. apply filter_In in Hu as [Hu Hne].
    apply negb_true_iff, Z.eqb_neq in Hne.
    assert (c' = c) as ->
      by (apply (NoDup_map_injective Courses.id (rows (courses d)));
          auto; apply Hkeys).
    congruence.
  - intros u row Hu Hrow E. simpl in Hu.
    apply filter_In in Hu as [Hu Hne].
    apply negb_true_iff, Z.eqb_neq in Hne.
    unfold DatabaseHandler.get_instructor_courses in Hrow. simpl in Hrow.
    apply in_map_iff in Hrow as (c' & <- & Hc').
    apply filter_In in Hc' as [Hc' Hown]. apply Z.eqb_eq in Hown.
    simpl in E.
    assert (c' = c) as ->
      by (apply (NoDup_map_injective Courses.id (rows (courses d)));
          auto; apply Hkeys).
    congruence.
  - intros description instructor_id price.
    unfold DatabaseHandler.add_course, sqlite3.insert_course. simpl.
    replace (existsb _ _) with true; [reflexivity|].
    symmetry. apply existsb_exists. exists c. split; [assumption|].
    apply String.eqb_refl.
Qed.

Lemma orphaned_course_blocks_its_title_witness :
  DatabaseHandler.add_course
    (DatabaseHandler.delete_user Scenario.classroom 4)
    "Logic" "Once more" 2 (3 # 1)
  = (DatabaseHandler.delete_user Scenario.classroom 4, false).
Proof.
  assert (Hlogic : exists c, In c (rows (courses Scenario.classroom))
                             /\ Courses.instructor_id c = 4
                             /\ Courses.title c = "Logic"%string).
  { eexists. split; [left; reflexivity|]. split; reflexivity. }
  destruct Hlogic as (c & Hc & Hown & Htitle).
  destruct (orphaned_course_blocks_its_title Scenario.classroom c
              classroom_keys_hold Hc) as (_ & _ & _ & Hblocked).
  rewrite Hown, Htitle in Hblocked. apply Hblocked.
Defined.

(** X27.  The username of a deleted account is free again, and registering it
    (with a password the installed bcrypt hashes) makes a new account: its
    rowid is none of the rowids the store had, the deleted one included, so
    nothing the old account left behind refers to it. *)
Theorem reregistered_username_is_a_new_account `{bcrypt.kdf} (d : database)
    (u : Users.row) (gensalt : list byte) (pw role : string) :
  keys_hold d ->
  sequences_cover d ->
  In u (rows (users d)) ->
  sqlite3.role_check role = true ->
  bcrypt.refused (Py.encode pw) = false ->
  let d' := DatabaseHandler.delete_user d (Users.id u) in
  exists new,
    DatabaseHandler.add_user d' gensalt (Users.username u) pw role
    = ({| users := {| rows := rows (users d') ++ [new];
                      sqlite_sequence := Users.id new |};
          courses := courses d;
          enrollments := enrollments d |}, Returned true)
    /\ Users.username new = Users.username u
    /\ Users.role new = role
    /\ bcrypt.hashpw (Py.encode pw) gensalt = Some (Users.password new)
    /\ ~ In (Users.id new) (map Users.id (rows (users d))).
Proof.
  intros Hkeys Hcover Hu Hrole Hpw d'.
  pose proof (hashpw_accepted _ gensalt Hpw) as Hhash.
  assert (Hfree : DatabaseHandler.get_user d' (Users.username u) = None).
  { destruct (DatabaseHandler.get_user d' (Users.username u)) as [v|] eqn:Ev;
      [|reflexivity].
    exfalso. apply get_user_Some in Ev as [Hv Hname]. subst d'. simpl in Hv.
    apply filter_In in Hv as [Hv Hne].
    apply negb_true_iff, Z.eqb_neq in Hne. apply Hne.
    assert (v = u) as ->; [|reflexivity].
    apply (NoDup_map_injective Users.username (rows (users d))); auto.
    apply Hkeys. }
  rewrite (add_user_fresh d' gensalt (Users.username u) pw role _
             Hfree Hrole Hhash).
  exists {| Users.id := sqlite3.next_rowid Users.id (users d');
            Users.username := Users.username u;
            Users.password :=
              {| bcrypt.salt := gensalt;
                 bcrypt.checksum :=
                   bcrypt.digest gensalt (firstn 72 (Py.encode pw)) |};
            Users.role := role |}.
  split; [reflexivity|].
  cbn [Users.username Users.role Users.id Users.password].
  split; [reflexivity|]. split; [reflexivity|]. split; [exact Hhash|].
  intros Hin. apply in_map_iff in Hin as (v & Ev & Hv).
  pose proof (users_covered d Hcover v Hv) as Hbound.
  pose proof (proj1 (next_rowid_above Users.id (users d'))) as Habove.
  subst d'. simpl in Habove, Ev. lia.
Qed.

Lemma reregistered_username_is_a_new_account_witness :
  exists new,
    Users.username new = "bobby"%string
    /\ ~ In (Users.id new) (map Users.id (rows (users Scenario.classroom)))
    /\ snd (@DatabaseHandler.add_user bcrypt.toy
              (DatabaseHandler.delete_user Scenario.classroom 3)
              (Scenario.salt_of "s6") "bobby" "rebuilt-22" "Student")
       = Returned true.
Proof.
  assert (Hbobby : exists u, In u (rows (users Scenario.classroom))
                             /\ Users.id u = 3
                             /\ Users.username u = "bobby"%string).
  { eexists. split; [right; right; left; reflexivity|]. split; reflexivity. }
  destruct Hbobby as (u & Hu & Hid & Hname).
  destruct (@reregistered_username_is_a_new_account bcrypt.toy
              Scenario.classroom u (Scenario.salt_of "s6") "rebuilt-22"
              "Student" classroom_keys_hold
              (@history_sequences_cover bcrypt.toy _ classroom_history)
              Hu eq_refl eq_refl)
    as (new & Hadd & Hnewname & _ & _ & Hnewid).
  rewrite Hid, Hname in *. exists new.
  split; [assumption|]. split; [assumption|]. now rewrite Hadd.
Defined.

(** X28.  An administrator's tree lists [get_all_courses].  Deleting a course
    picked from it removes that one row of [courses], whoever teaches it,
    keeps the order of the others and writes neither [users] nor
    [enrollments]. *)
Theorem admin_deletes_the_selected_course (controller : E_LearningApp)
    (course_id : Z) (title description instructor : string) (price : Q)
    (shown_title shown_instructor shown_price : string) :
  keys_hold (db controller) ->
  In (course_id, title, description, instructor, price)
     (DatabaseHandler.get_all_courses (db controller)) ->
  exists before c after,
    rows (courses (db controller)) = before ++ c :: after
    /\ Courses.id c = course_id
    /\ Courses.title c = title
    /\ AdminDashboard.delete_course
         controller
         (Some (course_id, shown_title, shown_instructor, shown_price)) true
       = ({| db := {| users := users (db controller);
                      courses :=
                        {| rows := before ++ after;
                           sqlite_sequence :=
                             sqlite_sequence (courses (db controller)) |};
                      enrollments := enrollments (db controller) |};
             current_user := current_user controller |},
          Shows (showinfo "Success"
                   ("Course '" ++ shown_title
                    ++ "' has been deleted.")%string)).
Proof.
  intros Hkeys Hlisted.
  apply in_get_all_courses in Hlisted as (c & u & Hc & _ & _ & E).
  injection E as -> -> _ _ _.
  destruct (delete_by_key Courses.id (rows (courses (db controller))) c)
    as (before & after & Hsplit & Hfilter); auto; [apply Hkeys|].
  exists before, c, after. split; [assumption|].
  split; [reflexivity|]. split; [reflexivity|].
  unfold AdminDashboard.delete_course, with_db,
         DatabaseHandler.delete_course, sqlite3.delete_where.
  now rewrite Hfilter.
Qed.

Lemma admin_deletes_the_selected_course_witness :
  exists before c after,
    rows (courses Scenario.classroom) = before ++ c :: after
    /\ Courses.id c = 1
    /\ Courses.title c = "Logic"%string
    /\ AdminDashboard.delete_course
         {| db := Scenario.classroom;
            current_user := Some Scenario.admin_session |}
         (Some (1, "Logic"%string, "carol"%string, "10.00"%string)) true
       = ({| db := {| users := users Scenario.classroom;
                      courses :=
                        {| rows := before ++ after;
                           sqlite_sequence :=
                             sqlite_sequence (courses Scenario.classroom) |};
                      enrollments := enrollments Scenario.classroom |};
             current_user := Some Scenario.admin_session |},
          Shows (showinfo "Success" "Course 'Logic' has been deleted.")).
Proof.
  apply (admin_deletes_the_selected_course
           {| db := Scenario.classroom;
              current_user := Some Scenario.admin_session |}
           1 "Logic" "Proofs" "carol" (10 # 1) "Logic" "carol" "10.00"
           classroom_keys_hold).
  vm_compute. tauto.
Defined.

Lemma reachable_exactly_one_admin_witness :
  exists u, admins Scenario.orphaned = [u]
            /\ Users.username u = "admin"%string.
Proof.
  exact (@reachable_exactly_one_admin bcrypt.toy _ orphaned_reachable).
Defined.

Lemma reachable_session_stored_witness :
  exists r, In (Session.id Scenario.admin_session,
                Session.username Scenario.admin_session, r)
               (DatabaseHandler.get_all_users Scenario.orphaned).
Proof.
  exact (@reachable_session_stored bcrypt.toy _ orphaned_reachable
           Scenario.admin_session eq_refl).
Defined.
